(** * ping-tool.py: a shallow embedding and its verified properties

    The script reads captured [ping] logs, extracts the probed target, the
    optional [-D] timestamps and the round-trip times, aggregates them and
    prints a Markdown report.

    Conventions of the embedding.
    - Text is a [string] of 8-bit code points; [\s], [\d] and [str.strip]
      follow Python's classification of the code points below 256.
    - A Python [float] is a binary64 value: [spec_float] with the operations
      of the standard library's IEEE-754 specification at precision 53 and
      maximal exponent 1024.
    - A Python [int] is a [Z]; [int()] refuses a text of more than 4300
      digits, the default of [sys.get_int_max_str_digits()] in CPython 3.11
      and later and in the security releases of 3.7 to 3.10, which the
      script does not change.
    - An uncaught exception is the [Raise] outcome of the [exn] monad.
    - The file system, [glob], [os.path.isdir] and [datetime] are parameters
      of the model. *)

From Stdlib Require Import ZArith QArith Qabs List String Ascii Bool Lia.
From Stdlib Require Import SpecFloat DecimalString.
Import ListNotations.
Close Scope Q_scope.

Local Open Scope string_scope.

(** ** Characters and strings *)

Module Str.

(** [str.isspace] on one code point below 256. *)
Definition is_space (c : ascii) : bool :=
  let n := nat_of_ascii c in
  (((9 <=? n) && (n <=? 13)) || ((28 <=? n) && (n <=? 32))
   || (n =? 133) || (n =? 160))%nat.

Definition not_space (c : ascii) : bool := negb (is_space c).

(** [\d]: the decimal digits below 256 are the ASCII ones. *)
Definition is_digit (c : ascii) : bool :=
  let n := nat_of_ascii c in ((48 <=? n) && (n <=? 57))%nat.

Definition is_paren (c : ascii) : bool :=
  Ascii.eqb c "(" || Ascii.eqb c ")".

Fixpoint drop (n : nat) (s : string) : string :=
  match n, s with
  | O, _ => s
  | S n', String _ s' => drop n' s'
  | S _, EmptyString => EmptyString
  end.

Fixpoint take (n : nat) (s : string) : string :=
  match n, s with
  | O, _ => EmptyString
  | S n', String a s' => String a (take n' s')
  | S _, EmptyString => EmptyString
  end.

Fixpoint all (p : ascii -> bool) (s : string) : bool :=
  match s with
  | EmptyString => true
  | String a s' => p a && all p s'
  end.

(** [sub in s] *)
Fixpoint contains (sub s : string) : bool :=
  prefix sub s ||
  match s with
  | EmptyString => false
  | String _ s' => contains sub s'
  end.

(** [s.endswith(suf)] *)
Definition endswith (s suf : string) : bool :=
  (length suf <=? length s)%nat
  && String.eqb (drop (length s - length suf) s) suf.

Fixpoint lstrip (p : ascii -> bool) (s : string) : string :=
  match s with
  | EmptyString => EmptyString
  | String a s' => if p a then lstrip p s' else s
  end.

Fixpoint rstrip (p : ascii -> bool) (s : string) : string :=
  match s with
  | EmptyString => EmptyString
  | String a s' =>
      match rstrip p s' with
      | EmptyString => if p a then EmptyString else String a EmptyString
      | t => String a t
      end
  end.

(** [s.strip(chars)]; [s.strip()] is [strip is_space]. *)
Definition strip (p : ascii -> bool) (s : string) : string :=
  rstrip p (lstrip p s).

(** Truth value of [line.strip()]. *)
Definition blank (line : string) : bool :=
  match strip is_space line with
  | EmptyString => true
  | _ => false
  end.

(** [str.lower] on one code point below 256: A-Z, and the Latin-1 capitals
    192-222 except the multiplication sign 215. *)
Definition lower_char (c : ascii) : ascii :=
  let n := nat_of_ascii c in
  if (((65 <=? n) && (n <=? 90))
      || ((192 <=? n) && (n <=? 222) && negb (n =? 215)))%nat
  then ascii_of_nat (n + 32) else c.

Fixpoint lower (s : string) : string :=
  match s with
  | EmptyString => EmptyString
  | String a s' => String (lower_char a) (lower s')
  end.

(** [c * n] *)
Fixpoint replicate (n : nat) (c : ascii) : string :=
  match n with
  | O => EmptyString
  | S n' => String c (replicate n' c)
  end.

(** [sep.join(l)] *)
Fixpoint join (sep : string) (l : list string) : string :=
  match l with
  | [] => EmptyString
  | [x] => x
  | x :: rest => x ++ sep ++ join sep rest
  end.

(** [os.path.basename] (posixpath): what follows the last slash. *)
Fixpoint basename (p : string) : string :=
  match p with
  | EmptyString => EmptyString
  | String a s' =>
      if contains "/" s' then basename s'
      else if Ascii.eqb a "/" then s' else p
  end.

(** [os.path.join(a, b)] (posixpath) for a relative [b]. *)
Definition path_join (a b : string) : string :=
  if String.eqb a "" || endswith a "/" then a ++ b else a ++ "/" ++ b.

End Str.

(** ** Regular expressions

    The fragment of Python's [re] the script uses, matched the way [re]
    matches: leftmost, greedy, backtracking.  A continuation receives the
    position reached, the rest of the subject and the groups captured so
    far; a failing continuation makes the matcher try its next choice. *)

Module Re.
Import Str.

Inductive regex : Type :=
| Lit (s : string)              (* literal text *)
| Plus (c : ascii -> bool)      (* [c+], greedy *)
| Star (c : ascii -> bool)      (* [c*], greedy *)
| Opt (r : regex)               (* [r?] and [(?:r)?], greedy *)
| Grp (n : nat) (r : regex)     (* capturing group number [n] *)
| Seq (r1 r2 : regex)
| Bol.                          (* [^] without MULTILINE *)

Declare Scope re_scope.
Delimit Scope re_scope with re.
Bind Scope re_scope with regex.
Infix ":+:" := Seq (at level 60, right associativity) : re_scope.

(** Captured groups, most recent first. *)
Definition groups := list (nat * string).

(** [m.group(n)]: [None] when the group took no part in the match. *)
Fixpoint group (n : nat) (g : groups) : option string :=
  match g with
  | [] => None
  | (k, v) :: g' => if Nat.eqb k n then Some v else group n g'
  end.

Section Matcher.
Context {R : Type}.

(** Greedy repetition of a character class: the longest run first, then
    one character less at each failure of the continuation. *)
Fixpoint many (c : ascii -> bool) (i : nat) (s : string)
    (k : nat -> string -> option R) : option R :=
  match s with
  | String a s' =>
      if c a then
        match many c (S i) s' k with
        | Some x => Some x
        | None => k i s
        end
      else k i s
  | EmptyString => k i s
  end.

Fixpoint rmatch (r : regex) (i : nat) (s : string) (g : groups)
    (k : nat -> string -> groups -> option R) : option R :=
  match r with
  | Lit l =>
      if prefix l s then k (i + length l) (drop (length l) s) g else None
  | Plus c =>
      match s with
      | String a s' =>
          if c a then many c (S i) s' (fun j t => k j t g) else None
      | EmptyString => None
      end
  | Star c => many c i s (fun j t => k j t g)
  | Opt r' =>
      match rmatch r' i s g k with
      | Some x => Some x
      | None => k i s g
      end
  | Grp n r' =>
      rmatch r' i s g (fun j t g' => k j t ((n, take (j - i) s) :: g'))
  | Seq r1 r2 =>
      rmatch r1 i s g (fun j t g' => rmatch r2 j t g' k)
  | Bol => if Nat.eqb i 0 then k i s g else None
  end.

End Matcher.

(** [re.search]: the first position of the subject at which the pattern
    matches, the end of the subject included. *)
Fixpoint search_from (r : regex) (i : nat) (s : string) : option groups :=
  match rmatch r i s [] (fun _ _ g => Some g) with
  | Some g => Some g
  | None =>
      match s with
      | String _ s' => search_from r (S i) s'
      | EmptyString => None
      end
  end.

Definition search (r : regex) (s : string) : option groups :=
  search_from r 0 s.

End Re.

(** ** The patterns of the script *)

Module Pat.
Import Str Re.
Local Open Scope re_scope.

(** [PING\s+(\S+)(?:\s+\((\S+)\))?] *)
Definition header : regex :=
  Lit "PING" :+: Plus is_space :+: Grp 1 (Plus not_space)
  :+: Opt (Plus is_space :+: Lit "(" :+: Grp 2 (Plus not_space) :+: Lit ")").

(** [^\[\d+\.\d+\]] *)
Definition ts_prefix : regex :=
  Bol :+: Lit "[" :+: Plus is_digit :+: Lit "." :+: Plus is_digit :+: Lit "]".

(** [^\[(\d+\.\d+)\]] *)
Definition ts_value : regex :=
  Bol :+: Lit "[" :+: Grp 1 (Plus is_digit :+: Lit "." :+: Plus is_digit) :+: Lit "]".

(** [icmp_seq=(\d+)] *)
Definition icmp_seq : regex :=
  Lit "icmp_seq=" :+: Grp 1 (Plus is_digit).

(** [time=] followed by group 1, which is [\d+\.?\d*] *)
Definition time : regex :=
  Lit "time=" :+: Grp 1 (Plus is_digit :+: Opt (Lit ".") :+: Star is_digit).

End Pat.

(** ** Python numbers *)

Module Py.
Import Str.
Local Open Scope Z_scope.

(** binary64 *)
Definition prec : Z := 53.
Definition emax : Z := 1024.

Definition float : Type := spec_float.

Definition fzero : float := S754_zero false.
Definition fadd : float -> float -> float := SFadd prec emax.
Definition fsub : float -> float -> float := SFsub prec emax.
Definition fmul : float -> float -> float := SFmul prec emax.
Definition fdiv : float -> float -> float := SFdiv prec emax.
Definition fabs : float -> float := SFabs.
Definition fltb : float -> float -> bool := SFltb.
Definition fleb : float -> float -> bool := SFleb.

(** An integer as an unrounded significand at exponent 0. *)
Definition exact (n : Z) : float :=
  match n with
  | Z0 => S754_zero false
  | Zpos p => S754_finite false p 0
  | Zneg p => S754_finite true p 0
  end.

(** [a / b] on two [int]s: the quotient rounded once, to nearest even. *)
Definition int_truediv (a b : Z) : float := fdiv (exact a) (exact b).

(** [float(n)] and the conversion of an [int] operand: rounded to nearest
    even. *)
Definition float_of_int (n : Z) : float := binary_normalize prec emax n 0 false.

(** A value that is an [int] or a [float]. *)
Inductive num : Type :=
| Int (n : Z)
| Float (x : float).

Definition to_float (v : num) : float :=
  match v with
  | Int n => float_of_int n
  | Float x => x
  end.

(** Value of a run of decimal digits, most significant first; [None] at
    the first character that is no digit. *)
Fixpoint digits_value (acc : Z) (s : string) : option Z :=
  match s with
  | EmptyString => Some acc
  | String a s' =>
      if is_digit a
      then digits_value (10 * acc + (Z.of_nat (nat_of_ascii a) - 48)) s'
      else None
  end.

(** The number an unsigned decimal literal denotes; [None] when the text
    is empty or holds a character that is no digit. *)
Definition decimal_value (s : string) : option Z :=
  match s with
  | EmptyString => None
  | _ => digits_value 0 s
  end.

(** [sys.get_int_max_str_digits()] *)
Definition int_max_str_digits : nat := 4300.

(** [int(s)] on an unsigned decimal literal; [None] is [ValueError]: the
    text is no number, or it has more digits than the limit, leading
    zeros included. *)
Definition int_of_string (s : string) : option Z :=
  if (int_max_str_digits <? length s)%nat then None else decimal_value s.

(** The text before the first dot, and the text after it when there is
    one. *)
Fixpoint split_dot (s : string) : string * option string :=
  match s with
  | EmptyString => (EmptyString, None)
  | String a s' =>
      if Ascii.eqb a "."
      then (EmptyString, Some s')
      else let '(ip, fp) := split_dot s' in (String a ip, fp)
  end.

(** [float(s)] on an unsigned decimal literal [digits], [digits.],
    [digits.digits] or [.digits]: the decimal value rounded once to
    nearest even, infinity beyond the binary64 range.  [None] is
    [ValueError] (the other literals [float] accepts do not occur). *)
Definition float_of_string (s : string) : option float :=
  let '(ip, fp) := split_dot s in
  let fp := match fp with Some t => t | None => EmptyString end in
  match ip ++ fp with
  | EmptyString => None
  | ds =>
      match digits_value 0 ds with
      | Some n => Some (int_truediv n (10 ^ Z.of_nat (length fp)))
      | None => None
      end
  end.

(** Decimal text of an [int]: [str(n)]. *)
Definition string_of_int (n : Z) : string :=
  NilZero.string_of_int (Z.to_int n).

(** [m * 2^e * 10] rounded to an integer, ties to even. *)
Definition tenths (m : positive) (e : Z) : Z :=
  match e with
  | Zneg p =>
      let d := 2 ^ Zpos p in
      let q := (10 * Zpos m) / d in
      let r := (10 * Zpos m) mod d in
      match Z.compare (2 * r) d with
      | Lt => q
      | Gt => q + 1
      | Eq => if Z.even q then q else q + 1
      end
  | _ => 10 * Zpos m * 2 ^ e
  end.

(** [format(x, '.1f')] on a [float]. *)
Definition format_1f_float (x : float) : string :=
  match x with
  | S754_nan => "nan"
  | S754_infinity s => if s then "-inf" else "inf"
  | S754_zero s => if s then "-0.0" else "0.0"
  | S754_finite s m e =>
      let t := tenths m e in
      (if s then "-" else "")
        ++ string_of_int (t / 10) ++ "." ++ string_of_int (t mod 10)
  end.

(** [f"{v:.1f}"]: an [int] is converted to [float] first. *)
Definition format_1f (v : num) : string := format_1f_float (to_float v).

End Py.

(** ** Exceptions *)

Module Exn.

(** The outcome of a computation that can raise. *)
Inductive exn (A : Type) : Type :=
| Ok (a : A)
| Raise (e : string).

Arguments Ok {A} a.
Arguments Raise {A} e.

Definition bind {A B : Type} (c : exn A) (k : A -> exn B) : exn B :=
  match c with
  | Ok a => k a
  | Raise e => Raise e
  end.

(** [None] of a library call that raises [e]. *)
Definition or_raise {A : Type} (e : string) (o : option A) : exn A :=
  match o with
  | Some a => Ok a
  | None => Raise e
  end.

Declare Scope exn_scope.
Delimit Scope exn_scope with exn.
Notation "x <- c ;; k" := (bind c (fun x => k))
  (at level 61, c at next level, right associativity) : exn_scope.

End Exn.

(** ** Builtins over lists of floats *)

Module Builtin.
Import Py.

(** [min] keeps the first of the least elements: a later item replaces
    the current one only when it compares [<]. *)
Fixpoint min_from (cur : float) (l : list float) : float :=
  match l with
  | [] => cur
  | x :: l' => min_from (if fltb x cur then x else cur) l'
  end.

(** [max]: a later item replaces the current one only when it compares
    [>]. *)
Fixpoint max_from (cur : float) (l : list float) : float :=
  match l with
  | [] => cur
  | x :: l' => max_from (if fltb cur x then x else cur) l'
  end.

(** How [sum] adds floats: one addition per item up to CPython 3.11, the
    Neumaier compensated sum from 3.12 on. *)
Inductive sum_impl : Type := Naive | Compensated.

Fixpoint neumaier (total c : float) (l : list float) : float * float :=
  match l with
  | [] => (total, c)
  | x :: l' =>
      let t := fadd total x in
      let c' :=
        if fleb (fabs x) (fabs total)
        then fadd c (fadd (fsub total t) x)
        else fadd c (fadd (fsub x t) total) in
      neumaier t c' l'
  end.

Definition is_finite (x : float) : bool :=
  match x with
  | S754_zero _ | S754_finite _ _ _ => true
  | _ => false
  end.

Definition is_zero (x : float) : bool :=
  match x with
  | S754_zero _ => true
  | _ => false
  end.

(** [sum(l)] on floats; the start value is the [int] 0. *)
Definition sum (impl : sum_impl) (l : list float) : num :=
  match l with
  | [] => Int 0
  | x :: l' =>
      let first := fadd (float_of_int 0) x in
      match impl with
      | Naive => Float (fold_left fadd l' first)
      | Compensated =>
          let '(total, c) := neumaier first fzero l' in
          Float (if negb (is_zero c) && is_finite c
                 then fadd total c else total)
      end
  end.

(** [a / n] for a number [a] and an [int] [n]. *)
Definition truediv_int (a : num) (n : Z) : float :=
  match a with
  | Int k => int_truediv k n
  | Float x => fdiv x (float_of_int n)
  end.

End Builtin.

(** ** Record parser and statistics aggregator: [analyze_ping_file] *)

Module Analysis.
Import Str Re Py Exn Builtin.
Local Open Scope exn_scope.
Local Open Scope Z_scope.

(** [target_info]: the values under ["ip"] and ["hostname"]; [None] is
    Python's [None]. *)
Record Target : Type := {
  ip : option string;
  hostname : option string
}.

(** [stats] *)
Record Stats : Type := {
  min_time : num;
  max_time : num;
  avg_time : num;
  mdev : num;
  total_pings : Z;
  packet_loss : num
}.

(** Truth value of a [str] or [None]. *)
Definition truthy (o : option string) : bool :=
  match o with
  | Some (String _ _) => true
  | _ => false
  end.

(** The state of the loop over the lines. *)
Record Acc : Type := {
  ping_times : list float;
  timestamps : list float;
  sequences : list Z;
  seen : Z                      (* [total_pings] *)
}.

Definition init : Acc :=
  {| ping_times := []; timestamps := []; sequences := []; seen := 0 |}.

(** Lines 18-26: the target, from [lines[0]] when there is one. *)
Definition extract_target (lines : list string) : Target :=
  let ip_match :=
    match lines with
    | l0 :: _ => search Pat.header l0
    | [] => None
    end in
  match ip_match with
  | Some m =>
      if truthy (group 2 m)
      then {| ip := option_map (strip is_paren) (group 2 m);
              hostname := group 1 m |}
      else {| ip := group 1 m; hostname := None |}
  | None => {| ip := Some "Unknown"; hostname := None |}
  end.

(** Line 29: [any(... for line in lines if line.strip())]. *)
Definition detect_timestamps (lines : list string) : bool :=
  existsb
    (fun line => match search Pat.ts_prefix line with
                 | Some _ => true
                 | None => false
                 end)
    (filter (fun line => negb (blank line)) lines).

(** [float(m.group(n))]: [TypeError] on [None], [ValueError] on text
    that is no number. *)
Definition float_group (m : groups) (n : nat) : exn float :=
  s <- or_raise "TypeError" (group n m) ;;
  or_raise "ValueError" (float_of_string s).

Definition int_group (m : groups) (n : nat) : exn Z :=
  s <- or_raise "TypeError" (group n m) ;;
  or_raise "ValueError" (int_of_string s).

(** Lines 38-58: the body of the loop on one line. *)
Definition scan_line (has_timestamps : bool) (st : Acc) (line : string)
    : exn Acc :=
  if blank line then Ok st
  else
    let st1 :=
      if contains "icmp_seq=" line
      then {| ping_times := ping_times st; timestamps := timestamps st;
              sequences := sequences st; seen := seen st + 1 |}
      else st in
    st2 <-
      (if has_timestamps then
         match search Pat.ts_value line with
         | Some ts_match =>
             t <- float_group ts_match 1 ;;
             Ok {| ping_times := ping_times st1;
                   timestamps := timestamps st1 ++ [t];
                   sequences := sequences st1; seen := seen st1 |}
         | None => Ok st1
         end
       else Ok st1) ;;
    let seq_match := search Pat.icmp_seq line in
    let time_match := search Pat.time line in
    match seq_match, time_match with
    | Some sm, Some tm =>
        n <- int_group sm 1 ;;
        t <- float_group tm 1 ;;
        Ok {| ping_times := ping_times st2 ++ [t];
              timestamps := timestamps st2;
              sequences := sequences st2 ++ [n]; seen := seen st2 |}
    | _, _ => Ok st2
    end.

(** Lines 37-58: the loop. *)
Fixpoint scan (has_timestamps : bool) (st : Acc) (lines : list string)
    : exn Acc :=
  match lines with
  | [] => Ok st
  | line :: rest =>
      st' <- scan_line has_timestamps st line ;;
      scan has_timestamps st' rest
  end.

Section Aggregate.
Variable impl : sum_impl.

(** Lines 61-83. *)
Definition aggregate (times : list float) (total : Z) : Stats :=
  let n := Z.of_nat (List.length times) in
  let min_time :=
    match times with x :: l => Float (min_from x l) | [] => Int 0 end in
  let max_time :=
    match times with x :: l => Float (max_from x l) | [] => Int 0 end in
  let avg_time :=
    match times with
    | _ :: _ => Float (truediv_int (sum impl times) n)
    | [] => Int 0
    end in
  let mdev :=
    match times with
    | _ :: _ =>
        let deviations :=
          map (fun t => fabs (fsub t (to_float avg_time))) times in
        Float (truediv_int (sum impl deviations)
                 (Z.of_nat (List.length deviations)))
    | [] => Int 0
    end in
  {| min_time := min_time; max_time := max_time; avg_time := avg_time;
     mdev := mdev; total_pings := total;
     packet_loss :=
       if 0 <? total
       then Float (fmul (int_truediv (total - n) total) (float_of_int 100))
       else Int 0 |}.

End Aggregate.

Section Analyze.
Variable impl : sum_impl.

(** [datetime]: the type of its values, and [datetime.fromtimestamp],
    which raises on a timestamp outside the range the platform and the
    calendar support. *)
Variable datetime : Type.
Variable fromtimestamp : float -> exn datetime.

(** The dictionary [analyze_ping_file] returns. *)
Record Result : Type := {
  target : Target;
  stats : Stats;
  time_range : option (datetime * datetime);
  has_timestamps : bool
}.

(** Lines 86-90. *)
Definition compute_time_range (ts : list float)
    : exn (option (datetime * datetime)) :=
  match ts with
  | [] => Ok None
  | t :: l =>
      start_time <- fromtimestamp (min_from t l) ;;
      end_time <- fromtimestamp (max_from t l) ;;
      Ok (Some (start_time, end_time))
  end.

(** Lines 18-97: [analyze_ping_file] once the file has been read. *)
Definition analyze_lines (lines : list string) : exn Result :=
  let target_info := extract_target lines in
  let has_ts := detect_timestamps lines in
  st <- scan has_ts init lines ;;
  let stats := aggregate impl (ping_times st) (seen st) in
  range <- compute_time_range (timestamps st) ;;
  Ok {| target := target_info; stats := stats;
        time_range := range; has_timestamps := has_ts |}.

End Analyze.

Arguments target {datetime} r.
Arguments stats {datetime} r.
Arguments time_range {datetime} r.
Arguments has_timestamps {datetime} r.

End Analysis.

(** ** The process: file discovery, report rendering, orchestration *)

Module Tool.
Import Str Re Py Exn Builtin Analysis.

(** One call of [print]: to standard output, or with [file=sys.stderr]. *)
Inductive out : Type :=
| Stdout (text : string)
| Stderr (text : string).

(** What the process sees of its environment.  Opening and reading a file
    gives its lines, or the message of the exception raised; the file
    system is read once while candidates are sniffed and once while they
    are analysed. *)
Record World : Type := {
  isdir : string -> bool;                      (* [os.path.isdir] *)
  glob : bool -> string -> list string;        (* [glob.glob], [recursive] first *)
  sniff : string -> string + list string;      (* [open] in [is_ping_file] *)
  readlines : string -> string + list string   (* [open] and [f.readlines()] *)
}.

(** How [main] ends: it returns, [sys.exit(code)] is called, or an
    exception reaches the top level. *)
Inductive outcome : Type :=
| Finished
| SysExit (code : Z)
| Uncaught (e : string).

(** The exit status of the interpreter. *)
Definition exit_status (o : outcome) : Z :=
  match o with
  | Finished => 0
  | SysExit code => code
  | Uncaught _ => 1
  end.

(** [d[k] = v] on a dictionary, which keeps its keys in insertion order:
    an existing key keeps its place. *)
Fixpoint dict_set {V : Type} (k : string) (v : V) (d : list (string * V))
    : list (string * V) :=
  match d with
  | [] => [(k, v)]
  | (k', v') :: d' =>
      if String.eqb k' k then (k, v) :: d' else (k', v') :: dict_set k v d'
  end.

Section Run.
Variable impl : sum_impl.
Variable datetime : Type.
Variable fromtimestamp : float -> exn datetime.
(** [d.strftime('%Y-%m-%d %H:%M:%S')] *)
Variable strftime : datetime -> string.
Variable w : World.

Definition read_error (filename e : string) : out :=
  Stderr ("Error reading file " ++ filename ++ ": " ++ e).

(** Lines 9-97. *)
Definition analyze_ping_file (filename : string)
    : list out * exn (option (Result datetime)) :=
  match readlines w filename with
  | inl e => ([read_error filename e], Ok None)
  | inr lines =>
      ([], bind (analyze_lines impl datetime fromtimestamp lines)
             (fun r => Ok (Some r)))
  end.

(** [str(v)] of a string or [None]. *)
Definition str_of (o : option string) : string :=
  match o with
  | Some s => s
  | None => "None"
  end.

(** Lines 107-135: the lines one entry of [results] adds. *)
Definition render_entry (filename : string) (data : Result datetime)
    : list string :=
  let tg := target data in
  let st := stats data in
  ["## Ping Analysis: " ++ basename filename; ""]
  ++ [if truthy (hostname tg)
      then "**Host:** " ++ str_of (hostname tg)
           ++ " (" ++ str_of (ip tg) ++ ")"
      else "**Host:** " ++ str_of (ip tg);
      ""]
  ++ match time_range data with
     | Some (start_time, end_time) =>
         ["**Time Range:** " ++ strftime start_time
          ++ " to " ++ strftime end_time; ""]
     | None => []
     end
  ++ ["| Metric | Value |";
      "|--------|-------|";
      "| Minimum Latency | " ++ format_1f (min_time st) ++ " ms |";
      "| Average Latency | " ++ format_1f (avg_time st) ++ " ms |";
      "| Maximum Latency | " ++ format_1f (max_time st) ++ " ms |";
      "| Mean Deviation | " ++ format_1f (mdev st) ++ " ms |";
      "| Packet Loss | " ++ format_1f (packet_loss st) ++ "% |";
      "| Total Pings | " ++ string_of_int (total_pings st) ++ " |";
      "";
      ""].

(** The list [markdown] at the end of the loop of [generate_markdown]; a
    result is a non-empty dictionary, so no entry is skipped. *)
Definition markdown_lines (results : list (string * Result datetime))
    : list string :=
  flat_map (fun kv => render_entry (fst kv) (snd kv)) results.

(** Lines 99-137. *)
Definition generate_markdown (results : list (string * Result datetime))
    : string :=
  join (String "010" "") (markdown_lines results).

(** Lines 139-148. *)
Definition is_ping_file (filename : string) : list out * bool :=
  match sniff w filename with
  | inr lines =>
      let head := lower (String.concat "" (firstn 10 lines)) in
      ([], contains "ping" head)
  | inl e => ([read_error filename e], false)
  end.

(** [[f for f in matched if keep(f) and is_ping_file(f)]], with what the
    calls print. *)
Fixpoint ping_files (keep : string -> bool) (matched : list string)
    : list out * list string :=
  match matched with
  | [] => ([], [])
  | f :: rest =>
      let '(o1, b) := if keep f then is_ping_file f else ([], false) in
      let '(o2, l) := ping_files keep rest in
      ((o1 ++ o2)%list, if b then f :: l else l)
  end.

(** Lines 158-162 and 178-182: [for pattern in [...]], extending [files]
    with the accepted matches of each pattern. *)
Fixpoint gather (recursive : bool) (mk : string -> string)
    (patterns : list string) (files : list string)
    : list out * list string :=
  match patterns with
  | [] => ([], files)
  | pattern :: rest =>
      let matched_files := glob w recursive (mk pattern) in
      let '(o1, found) := ping_files (fun _ => true) matched_files in
      let '(o2, files') := gather recursive mk rest (files ++ found)%list in
      ((o1 ++ o2)%list, files')
  end.

Definition log_patterns : list string := ["*.txt"; "*.log"].

(** [f.endswith(('.txt', '.log'))] *)
Definition is_log_name (f : string) : bool :=
  endswith f ".txt" || endswith f ".log".

(** Lines 156-173: the body of [for arg in sys.argv[1:]]. *)
Definition discover_arg (files : list string) (arg : string)
    : list out * list string :=
  if isdir w arg then
    let '(o, files') :=
      gather true (fun pattern => path_join (path_join arg "**") pattern)
        log_patterns files in
    match files' with
    | [] =>
        ((o ++ [Stderr ("Warning: No ping files found in directory '"
                        ++ arg ++ "'")])%list, files')
    | _ => (o, files')
    end
  else
    match glob w false arg with
    | [] =>
        ([Stderr ("Warning: No files found matching pattern '"
                  ++ arg ++ "'")], files)
    | matched_files =>
        let '(o, found) := ping_files is_log_name matched_files in
        (o, (files ++ found)%list)
    end.

Fixpoint discover_args (files : list string) (args : list string)
    : list out * list string :=
  match args with
  | [] => ([], files)
  | arg :: rest =>
      let '(o1, files1) := discover_arg files arg in
      let '(o2, files2) := discover_args files1 rest in
      ((o1 ++ o2)%list, files2)
  end.

(** Lines 153-182: the candidate list [files]. *)
Definition discover (argv : list string) : list out * list string :=
  if (1 <? List.length argv)%nat
  then discover_args [] (tl argv)
  else gather false (fun pattern => pattern) log_patterns [].

(** Lines 189-193: the loop filling [results]; an exception raised by an
    analysis ends it. *)
Fixpoint analyze_each (files : list string)
    (results : list (string * Result datetime))
    : list out * exn (list (string * Result datetime)) :=
  match files with
  | [] => ([], Ok results)
  | file :: rest =>
      let '(o1, r) := analyze_ping_file file in
      match r with
      | Raise e => (o1, Raise e)
      | Ok result =>
          let results' :=
            match result with
            | Some data => dict_set file data results
            | None => results
            end in
          let '(o2, x) := analyze_each rest results' in
          ((o1 ++ o2)%list, x)
      end
  end.

(** Lines 150-200: what [main] prints, in order, and how it ends.  The
    traceback of an uncaught exception is not part of the output. *)
Definition main (argv : list string) : list out * outcome :=
  let '(o1, files) := discover argv in
  match files with
  | [] =>
      ((o1 ++ [Stderr "Error: No ping files found to analyze."])%list,
       SysExit 1)
  | _ =>
      let '(o2, r) := analyze_each files [] in
      match r with
      | Raise e => ((o1 ++ o2)%list, Uncaught e)
      | Ok [] =>
          ((o1 ++ o2
            ++ [Stderr "No valid ping data found in input files."])%list,
           SysExit 1)
      | Ok results =>
          ((o1 ++ o2 ++ [Stdout (generate_markdown results)])%list,
           Finished)
      end
  end.

End Run.
End Tool.

(** ** Notions used to state and prove the properties *)

(** What a pattern matches, declaratively: [matches r i w g g'] when [r]
    matches the text [w] at position [i] of the subject and turns the
    captured groups [g] into [g']. *)
Module ReSem.
Import Str Re.

Inductive matches : regex -> nat -> string -> groups -> groups -> Prop :=
| M_Lit l i g : matches (Lit l) i l g g
| M_Plus c i a w g :
    c a = true -> all c w = true -> matches (Plus c) i (String a w) g g
| M_Star c i w g : all c w = true -> matches (Star c) i w g g
| M_OptSome r i w g g' : matches r i w g g' -> matches (Opt r) i w g g'
| M_OptNone r i g : matches (Opt r) i "" g g
| M_Grp n r i w g g' :
    matches r i w g g' -> matches (Grp n r) i w g ((n, w) :: g')
| M_Seq r1 r2 i w1 w2 g g1 g2 :
    matches r1 i w1 g g1 -> matches r2 (i + length w1) w2 g1 g2 ->
    matches (Seq r1 r2) i (w1 ++ w2) g g2
| M_Bol g : matches Bol 0 "" g g.

(** The pattern without its capturing groups. *)
Fixpoint erase (r : regex) : regex :=
  match r with
  | Opt r' => Opt (erase r')
  | Grp _ r' => erase r'
  | Seq r1 r2 => Seq (erase r1) (erase r2)
  | _ => r
  end.

(** The next character, if any, is outside the class [c]. *)
Definition stops (c : ascii -> bool) (t : string) : Prop :=
  match t with
  | EmptyString => True
  | String a _ => c a = false
  end.

(** A non-empty run of characters of the class [c]. *)
Definition run (c : ascii -> bool) (w : string) : Prop :=
  w <> "" /\ all c w = true.

End ReSem.

(** binary64 rounding, as [binary_round_aux] performs it. *)
Module Rnd.
Import Py.
Local Open Scope Z_scope.

Definition D : Z -> Z := Zdigits2.
Definition fx (e : Z) : Z := fexp prec emax e.

Definition inexact (r : shr_record) : bool := shr_r r || shr_s r.

Definition exactb (l : location) : bool :=
  match l with
  | loc_Exact => true
  | _ => false
  end.

(** The floats the parser and the divisions produce: no NaN, no sign,
    and a significand in the format. *)
Definition wf (x : float) : Prop :=
  match x with
  | S754_zero s | S754_infinity s => s = false
  | S754_finite s m e => s = false /\ fx (D (Zpos m) + e) = e /\ e <= 971
  | S754_nan => False
  end.

(** The rational number a finite float stands for. *)
Definition value (x : float) : Q :=
  match x with
  | S754_finite s m e =>
      let n := if s then Zneg m else Zpos m in
      match e with
      | Zneg p => Qmake n (2 ^ p)%positive
      | _ => inject_Z (n * 2 ^ e)
      end
  | _ => 0%Q
  end.

(** Where [m / 2^n] lies between two consecutive integers. *)
Definition locate (m n : Z) : location :=
  let r := m mod 2 ^ n in
  if r =? 0 then loc_Exact else loc_Inexact (2 * r ?= 2 ^ n).

(** [m / 2^n] rounded to an integer, ties to even. *)
Definition rnd (m n : Z) : Z := round_nearest_even (m / 2 ^ n) (locate m n).

(** The float of a rounded significand [m] at the exponent [e]: one more
    shift when the rounding carried, infinity beyond the range. *)
Definition pack (s : bool) (m e : Z) : float :=
  let n := Z.max 0 (fx (D m + e) - e) in
  match m / 2 ^ n with
  | Z0 => S754_zero s
  | Zpos p =>
      if e + n <=? 971 then S754_finite s p (e + n) else S754_infinity s
  | Zneg _ => S754_nan
  end.

(** The number of low bits that a magnitude [M], counted in units of
    [2^-1074], loses in the format. *)
Definition gap (M : Z) : Z := Z.max 0 (D M - 53).

(** [M * 2^-1074] rounded to the format, with the sign [s]. *)
Definition round (s : bool) (M : Z) : float :=
  pack s (rnd M (gap M)) (gap M - 1074).






(** The significands of 100.0 and of 1.0. *)
Definition M100 : positive := 7036874417766400.
Definition P52 : positive := 4503599627370496.

End Rnd.

(** The words of the specification. *)
Module Spec.
Import Str Re Py Builtin Analysis.
Local Open Scope Z_scope.

(** The line contains the substring [icmp_seq=]. *)
Definition has_probe (line : string) : bool := contains "icmp_seq=" line.

(** Both a sequence number and a time value are found on the line. *)
Definition is_sample (line : string) : bool :=
  match search Pat.icmp_seq line, search Pat.time line with
  | Some _, Some _ => true
  | _, _ => false
  end.

Definition raw_probe_counter (lines : list string) : Z :=
  Z.of_nat (List.length (filter has_probe lines)).

Definition sample_count (lines : list string) : Z :=
  Z.of_nat (List.length (filter is_sample lines)).

Definition opt_bind {A B : Type} (o : option A) (f : A -> option B)
    : option B :=
  match o with
  | Some a => f a
  | None => None
  end.

(** The ProbeSample of a line: its sequence number and round-trip time. *)
Definition sample_of (line : string) : option (Z * float) :=
  match search Pat.icmp_seq line, search Pat.time line with
  | Some sm, Some tm =>
      opt_bind (opt_bind (group 1 sm) decimal_value) (fun n =>
      opt_bind (opt_bind (group 1 tm) float_of_string) (fun t =>
      Some (n, t)))
  | _, _ => None
  end.

(** The header pattern can match where [s] begins: [s] is [PING], a
    white-space character, and text that is not all white space. *)
Definition header_here (s : string) : bool :=
  prefix "PING" s
  && match drop 4 s with
     | String a r => is_space a && negb (all is_space r)
     | EmptyString => false
     end.

(** In the line [pre ++ s], the header pattern matches at no position of
    [pre]. *)
Fixpoint no_header_in (pre s : string) : bool :=
  match pre with
  | EmptyString => true
  | String _ pre' => negb (header_here (pre ++ s)) && no_header_in pre' s
  end.

(** What follows token1 holds no token in parentheses: the white space
    is not followed by [(], or the run of characters that [(] begins has
    no [)] after a first character. *)
Definition no_paren_token (tail : string) : Prop :=
  prefix "(" (lstrip is_space tail) = false
  \/ exists run_ tail',
       lstrip is_space tail = "(" ++ run_ ++ tail'
       /\ all not_space run_ = true /\ ReSem.stops not_space tail'
       /\ contains ")" (drop 1 run_) = false.

(** The first place of the line at which the header pattern can match
    reads [PING], white space, [t1], white space and [(t2)], the closing
    parenthesis being the last one of its run of characters. *)
Definition header_two (line t1 t2 : string) : Prop :=
  exists pre ws ws2 more tail,
    line = pre ++ "PING" ++ ws ++ t1 ++ ws2 ++ "(" ++ t2 ++ ")" ++ more ++ tail
    /\ no_header_in pre
         ("PING" ++ ws ++ t1 ++ ws2 ++ "(" ++ t2 ++ ")" ++ more ++ tail) = true
    /\ ReSem.run is_space ws /\ ReSem.run not_space t1
    /\ ReSem.run is_space ws2 /\ ReSem.run not_space t2
    /\ all not_space more = true /\ contains ")" more = false
    /\ ReSem.stops not_space tail.

(** The first place of the line at which the header pattern can match
    reads [PING], white space and [t1], with no token in parentheses
    after it. *)
Definition header_one (line t1 : string) : Prop :=
  exists pre ws tail,
    line = pre ++ "PING" ++ ws ++ t1 ++ tail
    /\ no_header_in pre ("PING" ++ ws ++ t1 ++ tail) = true
    /\ ReSem.run is_space ws /\ ReSem.run not_space t1
    /\ ReSem.stops not_space tail /\ no_paren_token tail.

(** The digits of the sequence number found on the line. *)
Definition seq_text (line : string) : option string :=
  opt_bind (search Pat.icmp_seq line) (group 1).

(** A line on which a sequence number and a time value are found, the
    sequence number having more digits than [int] converts. *)
Definition overlong (line : string) : bool :=
  is_sample line
  && match seq_text line with
     | Some d => (int_max_str_digits <? length d)%nat
     | None => false
     end.

Definition keep {A : Type} (o : option A) : list A :=
  match o with
  | Some a => [a]
  | None => []
  end.

(** The parsed samples, in file order. *)
Definition samples (lines : list string) : list (Z * float) :=
  flat_map (fun line => keep (sample_of line)) lines.

Definition round_trips (lines : list string) : list float :=
  map snd (samples lines).

(** The timestamp a line starts with. *)
Definition stamp_of (line : string) : option float :=
  opt_bind (search Pat.ts_value line) (fun m =>
  opt_bind (group 1 m) float_of_string).

Definition stamps (lines : list string) : list float :=
  flat_map (fun line => keep (stamp_of line)) lines.

(** The line begins with [[<digits>.<digits>]]. *)
Definition bracketed (line : string) : Prop :=
  exists d1 d2 rest,
    line = "[" ++ d1 ++ "." ++ d2 ++ "]" ++ rest
    /\ ReSem.run is_digit d1 /\ ReSem.run is_digit d2.

(** [m] is a least, [m] is a greatest element of [l]. *)
Definition is_minimum (m : float) (l : list float) : Prop :=
  In m l /\ forall x, In x l -> fleb m x = true.

Definition is_maximum (m : float) (l : list float) : Prop :=
  In m l /\ forall x, In x l -> fleb x m = true.

(** The arithmetic mean: the sum divided by the number of items. *)
Definition mean (impl : sum_impl) (l : list float) : float :=
  truediv_int (sum impl l) (Z.of_nat (List.length l)).

(** The mean of the absolute deviations from [c]. *)
Definition mean_abs_dev (impl : sum_impl) (c : float) (l : list float)
    : float :=
  mean impl (map (fun t => fabs (fsub t c)) l).



Definition mem (x : string) (l : list string) : bool :=
  existsb (String.eqb x) l.

(** The first occurrence of each name that is not in [seen_before], in
    order. *)
Fixpoint dedup (seen_before : list string) (l : list string) : list string :=
  match l with
  | [] => []
  | x :: l' =>
      if mem x seen_before then dedup seen_before l'
      else x :: dedup (x :: seen_before) l'
  end.

End Spec.

(** The words of the specification on the process. *)
Module Orch.
Import Str Py Exn Builtin Analysis Tool.

Definition is_stderr (o : out) : bool :=
  match o with
  | Stderr _ => true
  | Stdout _ => false
  end.

(** Nothing is written to standard output. *)
Definition silent (o : list out) : Prop :=
  forall text, ~ In (Stdout text) o.

(** The heading that opens a section of the report. *)
Definition is_heading (line : string) : bool :=
  prefix "## Ping Analysis: " line.

Definition heading (filename : string) : string :=
  "## Ping Analysis: " ++ basename filename.

Section Orch.
Variable impl : sum_impl.
Variable datetime : Type.
Variable fromtimestamp : float -> exn datetime.
Variable strftime : datetime -> string.
Variable w : World.

(** The header sniff accepts the file. *)
Definition pingy (f : string) : bool := snd (is_ping_file w f).

(** The candidates one argument contributes. *)
Definition accepted (arg : string) : list string :=
  if isdir w arg then
    flat_map
      (fun pattern =>
         filter pingy (glob w true (path_join (path_join arg "**") pattern)))
      log_patterns
  else filter (fun f => is_log_name f && pingy f) (glob w false arg).

(** The analysis a candidate yields, when it yields one. *)
Definition usable (f : string) : option (Result datetime) :=
  match snd (analyze_ping_file impl datetime fromtimestamp w f) with
  | Ok (Some r) => Some r
  | _ => None
  end.

Definition is_usable (f : string) : bool :=
  match usable f with
  | Some _ => true
  | None => false
  end.

(** The analysis of the candidate raises. *)
Definition raises (f : string) : Prop :=
  exists e, snd (analyze_ping_file impl datetime fromtimestamp w f) = Raise e.

(** The section headings of the report, in order. *)
Definition headings (results : list (string * Result datetime))
    : list string :=
  filter is_heading (markdown_lines datetime strftime results).

(** [results] after the loop over [files], when no analysis raises. *)
Definition collect (files : list string)
    (results : list (string * Result datetime))
    : list (string * Result datetime) :=
  fold_left
    (fun acc f =>
       match usable f with
       | Some r => dict_set f r acc
       | None => acc
       end)
    files results.

(** The report has one section per occurrence of an analysed file among
    the candidates. *)
Definition one_section_per_occurrence (argv : list string) : Prop :=
  let files := snd (discover w argv) in
  forall results,
    snd (analyze_each impl datetime fromtimestamp w files []) = Ok results ->
    List.length (headings results) = List.length (filter is_usable files).

(** The exit status is 1 exactly when there is no candidate or no usable
    analysis; otherwise the report is printed and the status is 0. *)
Definition exit_one_iff_no_result (argv : list string) : Prop :=
  let files := snd (discover w argv) in
  let '(o, oc) := main impl datetime fromtimestamp strftime w argv in
  (exit_status oc = 1%Z
   <-> files = [] \/ (forall f, In f files -> usable f = None))
  /\ (exit_status oc <> 1%Z ->
      exit_status oc = 0%Z
      /\ exists o' report, o = (o' ++ [Stdout report])%list).

End Orch.
End Orch.

(** Notions used to state further properties of the code. *)
Module Extra.
Import Str Py Exn Builtin Analysis Tool.

(** The lines the loop does not skip. *)
Definition non_blank (lines : list string) : list string :=
  filter (fun line => negb (blank line)) lines.

(** The target of a file without a recognised header. *)
Definition unknown_target : Target :=
  {| ip := Some "Unknown"; hostname := None |}.

(** The line ends with a newline. *)
Definition terminated (line : string) : bool :=
  endswith line (String "010" "").

(** The word occurs in the line, in any letter case. *)
Definition mentions (word line : string) : bool :=
  contains word (lower line).

(** One [Error reading file] message per file that [readf] fails on. *)
Definition read_errors (readf : string -> string + list string)
    (files : list string) : list out :=
  flat_map
    (fun f =>
       match readf f with
       | inl e => [read_error f e]
       | inr _ => []
       end)
    files.

(** Every file the sniff could open can be read when it is analysed. *)
Definition stable (w : World) : Prop :=
  forall f head, sniff w f = inr head -> exists lines, readlines w f = inr lines.

Definition pattern_warning (arg : string) : out :=
  Stderr ("Warning: No files found matching pattern '" ++ arg ++ "'").






(** The line of a section that gives the time range. *)
Definition is_time_range_line (line : string) : bool :=
  prefix "**Time Range:** " line.

(** The file can be read when it is analysed. *)
Definition readable (w : World) (f : string) : bool :=
  match readlines w f with
  | inr _ => true
  | inl _ => false
  end.

End Extra.

(** Concrete inputs. *)
Module Examples.
Import Str Py Exn Builtin Analysis Tool.

(** The two lines of the example of the specification. *)
Definition example_lines : list string :=
  ["PING example.com (93.184.216.34) 56 data bytes";
   "64 bytes from 93.184.216.34: icmp_seq=1 ttl=56 time=11.2 ms"].

(** 11.2 in binary64. *)
Definition f11_2 : float := S754_finite false 6305039478318694 (-49).


Definition example_result (datetime : Type) : Result datetime :=
  {| target := {| ip := Some "93.184.216.34";
                  hostname := Some "example.com" |};
     stats := {| min_time := Float f11_2; max_time := Float f11_2;
                 avg_time := Float f11_2; mdev := Float fzero;
                 total_pings := 1; packet_loss := Float fzero |};
     time_range := None;
     has_timestamps := false |}.

(** The result for an empty file. *)
Definition empty_result (datetime : Type) : Result datetime :=
  {| target := {| ip := Some "Unknown"; hostname := None |};
     stats := {| min_time := Int 0; max_time := Int 0; avg_time := Int 0;
                 mdev := Int 0; total_pings := 0; packet_loss := Int 0 |};
     time_range := None;
     has_timestamps := false |}.



(** A log taken with [ping -D], one reply lost. *)
Definition stamped_lines : list string :=
  ["PING 10.0.0.1 (10.0.0.1) 56(84) bytes of data.";
   "[1700000000.250000] 64 bytes from 10.0.0.1: icmp_seq=1 ttl=64 time=0.5 ms";
   "";
   "[1700000001.250000] no answer yet for icmp_seq=2";
   "[1700000002.500000] 64 bytes from 10.0.0.1: icmp_seq=3 ttl=64 time=1.5 ms"].

(** A log whose timestamp exceeds every binary64 number. *)
Definition huge_lines : list string :=
  ["PING 10.0.0.1 (10.0.0.1) 56(84) bytes of data.";
   "[" ++ replicate 400 "9" ++ ".0] 64 bytes from 10.0.0.1: icmp_seq=1 time=1.0 ms"].

(** A [datetime] that is the timestamp itself; [fromtimestamp] rejects
    the infinite one, as every platform does. *)
Definition finite_only (x : float) : exn float :=
  if is_finite x then Ok x else Raise "OverflowError".

(** The result for [stamped_lines]. *)
Definition stamped_result : Result float :=
  Eval vm_compute in
    match analyze_lines Naive float finite_only stamped_lines with
    | Ok r => r
    | Raise _ => empty_result float
    end.

Definition show (x : float) : string := format_1f_float x.

(** A directory [logs] holding [logs/b.txt], an empty directory [empty],
    and the files [a.txt], [huge.txt] and [locked.txt], the last one
    unreadable when analysed. *)
Definition world : World :=
  {| isdir := fun p => String.eqb p "logs" || String.eqb p "empty";
     glob := fun recursive p =>
       if String.eqb p "a.txt" then ["a.txt"]
       else if String.eqb p "huge.txt" then ["huge.txt"]
       else if String.eqb p "locked.txt" then ["locked.txt"]
       else if String.eqb p "*.txt" then ["a.txt"; "huge.txt"; "locked.txt"]
       else if recursive && String.eqb p "logs/**/*.txt" then ["logs/b.txt"]
       else [];
     sniff := fun p =>
       if String.eqb p "a.txt" then inr example_lines
       else if String.eqb p "huge.txt" then inr huge_lines
       else if String.eqb p "locked.txt" then inr example_lines
       else if String.eqb p "logs/b.txt" then inr stamped_lines
       else inl "[Errno 2] No such file or directory";
     readlines := fun p =>
       if String.eqb p "a.txt" then inr example_lines
       else if String.eqb p "huge.txt" then inr huge_lines
       else if String.eqb p "logs/b.txt" then inr stamped_lines
       else if String.eqb p "locked.txt"
       then inl "[Errno 13] Permission denied"
       else inl "[Errno 2] No such file or directory" |}.

(** A world whose every file is empty. *)
Definition empty_files : World :=
  {| isdir := fun _ => false;
     glob := fun _ p => [p];
     sniff := fun _ => inr [];
     readlines := fun _ => inr [] |}.

(** [main] in this world. *)
Definition process (argv : list string) : list out * outcome :=
  main Naive float finite_only show world argv.

(** A log as [readlines] returns it, every line with its newline; the
    header is the fourth line and the second reply is lost. *)
Definition logged_lines : list string :=
  map (fun line => line ++ String "010" "")
    ["";
     "$ ping -c 3 gateway";
     "";
     "PING gateway (192.168.1.1) 56(84) bytes of data.";
     "64 bytes from gateway (192.168.1.1): icmp_seq=1 ttl=64 time=0.4 ms";
     "From 192.168.1.7 icmp_seq=2 Destination Host Unreachable";
     "64 bytes from gateway (192.168.1.1): icmp_seq=3 ttl=64 time=2 ms"].

Definition logged_result : Result float :=
  Eval vm_compute in
    match analyze_lines Naive float finite_only logged_lines with
    | Ok r => r
    | Raise _ => empty_result float
    end.

(** A log whose header is written in lower case. *)
Definition lowercase_lines : list string :=
  ["ping example.com (93.184.216.34) 56 data bytes";
   "64 bytes from 93.184.216.34: icmp_seq=1 ttl=56 time=11.2 ms"].

Definition lowercase_result : Result float :=
  Eval vm_compute in
    match analyze_lines Naive float finite_only lowercase_lines with
    | Ok r => r
    | Raise _ => empty_result float
    end.



(** A log in the BSD layout, taken with a prefix before the header. *)
Definition bsd_lines : list string :=
  ["[1700000000.1] PING google.com (142.250.80.46): 56 data bytes";
   "64 bytes from 142.250.80.46: icmp_seq=0 ttl=117 time=11.2 ms"].

Definition bsd_result : Result float :=
  Eval vm_compute in
    match analyze_lines Naive float finite_only bsd_lines with
    | Ok r => r
    | Raise _ => empty_result float
    end.

(** Two replies whose round-trip times of 9e307 ms are finite and whose
    sum is not. *)
Definition overflow_lines : list string :=
  ["PING 10.0.0.1 (10.0.0.1) 56(84) bytes of data.";
   "64 bytes from 10.0.0.1: icmp_seq=1 ttl=64 time=9"
     ++ replicate 307 "0" ++ " ms";
   "64 bytes from 10.0.0.1: icmp_seq=2 ttl=64 time=9"
     ++ replicate 307 "0" ++ " ms"].

Definition overflow_result : Result float :=
  Eval vm_compute in
    match analyze_lines Naive float finite_only overflow_lines with
    | Ok r => r
    | Raise _ => empty_result float
    end.

(** A log of a numeric target, the command line before the header. *)
Definition numeric_lines : list string :=
  ["$ ping 192.168.1.1: PING 192.168.1.1 56(84) bytes of data.";
   "64 bytes from 192.168.1.1: icmp_seq=1 ttl=64 time=0.4 ms"].

Definition numeric_result : Result float :=
  Eval vm_compute in
    match analyze_lines Naive float finite_only numeric_lines with
    | Ok r => r
    | Raise _ => empty_result float
    end.

(** A log whose reply lines carry no sequence marker. *)
Definition unmarked_lines : list string :=
  ["PING 10.0.0.1 (10.0.0.1) 56(84) bytes of data.";
   "64 bytes from 10.0.0.1: ttl=64 time=0.5 ms";
   "64 bytes from 10.0.0.1: ttl=64 time=0.7 ms";
   "--- 10.0.0.1 ping statistics ---"].

Definition unmarked_result : Result float :=
  Eval vm_compute in
    match analyze_lines Naive float finite_only unmarked_lines with
    | Ok r => r
    | Raise _ => empty_result float
    end.

(** A world in which every path is a file holding [lines]. *)
Definition single_file (lines : list string) : World :=
  {| isdir := fun _ => false;
     glob := fun _ p => [p];
     sniff := fun _ => inr lines;
     readlines := fun _ => inr lines |}.

End Examples.

(** * Properties *)

(** ** Strings and patterns *)

Module ReFacts.
Import Str Re ReSem.

Lemma append_nil_r s : s ++ "" = s.
Proof. induction s; simpl; congruence. Qed.

Lemma append_assoc (a b c : string) : (a ++ b) ++ c = a ++ b ++ c.
Proof. induction a; simpl; congruence. Qed.

Lemma length_append (a b : string) : length (a ++ b) = (length a + length b)%nat.
Proof. induction a; simpl; congruence. Qed.

Lemma prefix_split l s : prefix l s = true -> s = l ++ drop (length l) s.
Proof.
  revert s; induction l as [|a l IH]; intros s H.
  - reflexivity.
  - destruct s as [|b s]; simpl in H; [discriminate|].
    destruct (ascii_dec a b) as [->|]; [|discriminate].
    simpl. f_equal. now apply IH.
Qed.

Lemma prefix_append l t : prefix l (l ++ t) = true.
Proof.
  induction l as [|a l IH]; simpl.
  - now destruct t.
  - destruct (ascii_dec a a); congruence.
Qed.

Lemma drop_append l t : drop (length l) (l ++ t) = t.
Proof. induction l; simpl; auto. Qed.

Lemma take_append l t : take (length l) (l ++ t) = l.
Proof. induction l; simpl; congruence. Qed.

Lemma take_prefix n l t : n = length l -> take n (l ++ t) = l.
Proof. intros ->. apply take_append. Qed.

Lemma all_append p a b : all p (a ++ b) = all p a && all p b.
Proof. induction a; simpl; [reflexivity|]. now rewrite IHa, andb_assoc. Qed.

Section Sound.
Context {R : Type}.

Lemma many_sound c (s : string) : forall i (k : nat -> string -> option R) x,
  many c i s k = Some x ->
  exists w t, s = w ++ t /\ all c w = true /\ k (i + length w)%nat t = Some x.
Proof.
  induction s as [|a s IH]; intros i k x H; simpl in H.
  - exists "", "". simpl. now rewrite Nat.add_0_r.
  - destruct (c a) eqn:Ha.
    + destruct (many c (S i) s k) as [y|] eqn:Hm.
      * injection H as ->. apply IH in Hm as (w & t & -> & Hw & Hk).
        exists (String a w), t. simpl. rewrite Ha, Hw.
        now rewrite Nat.add_succ_r.
      * exists "", (String a s). simpl. now rewrite Nat.add_0_r.
    + exists "", (String a s). simpl. now rewrite Nat.add_0_r.
Qed.

Lemma rmatch_sound r : forall i s g (k : nat -> string -> groups -> option R) x,
  rmatch r i s g k = Some x ->
  exists w t g', s = w ++ t /\ matches r i w g g'
                 /\ k (i + length w)%nat t g' = Some x.
Proof.
  induction r as [l|c|c|r IH|n r IH|r1 IH1 r2 IH2|]; intros i s g k x H; simpl in H.
  - destruct (prefix l s) eqn:Hp; [|discriminate].
    exists l, (drop (length l) s), g. split; [now apply prefix_split|].
    split; [constructor|assumption].
  - destruct s as [|a s]; [discriminate|].
    destruct (c a) eqn:Ha; [|discriminate].
    apply many_sound in H as (w & t & -> & Hw & Hk).
    exists (String a w), t, g. simpl. split; [reflexivity|].
    split; [now constructor|]. now rewrite <- Nat.add_succ_comm.
  - apply many_sound in H as (w & t & -> & Hw & Hk).
    exists w, t, g. split; [reflexivity|]. split; [now constructor|assumption].
  - destruct (rmatch r i s g k) as [y|] eqn:Hr.
    + injection H as ->. apply IH in Hr as (w & t & g' & -> & Hm & Hk).
      exists w, t, g'. split; [reflexivity|]. split; [now constructor|assumption].
    + exists "", s, g. simpl. rewrite Nat.add_0_r.
      split; [reflexivity|]. split; [apply M_OptNone|assumption].
  - apply IH in H as (w & t & g' & -> & Hm & Hk).
    exists w, t, ((n, w) :: g'). split; [reflexivity|]. split; [now constructor|].
    replace (i + length w - i)%nat with (length w) in Hk by lia.
    now rewrite take_append in Hk.
  - apply IH1 in H as (w1 & t1 & g1 & -> & Hm1 & Hk1).
    apply IH2 in Hk1 as (w2 & t2 & g2 & -> & Hm2 & Hk2).
    exists (w1 ++ w2), t2, g2. split; [now rewrite append_assoc|].
    split; [econstructor; eassumption|].
    now rewrite length_append, Nat.add_assoc.
  - destruct (Nat.eqb i 0) eqn:Hi; [|discriminate].
    apply Nat.eqb_eq in Hi as ->.
    exists "", s, g. simpl. split; [reflexivity|]. split; [constructor|assumption].
Qed.
End Sound.

Lemma search_from_sound r s : forall i g,
  search_from r i s = Some g ->
  exists pre w t, s = pre ++ w ++ t /\ matches r (i + length pre) w [] g.
Proof.
  induction s as [|a s IH]; intros i g H; simpl in H.
  - destruct (rmatch r i "" [] _) as [y|] eqn:Hr; [|discriminate].
    injection H as ->. apply rmatch_sound in Hr as (w & t & g' & E & Hm & Hk).
    injection Hk as ->. exists "", w, t. simpl. now rewrite Nat.add_0_r.
  - destruct (rmatch r i (String a s) [] _) as [y|] eqn:Hr.
    + injection H as ->. apply rmatch_sound in Hr as (w & t & g' & E & Hm & Hk).
      injection Hk as ->. exists "", w, t. simpl. now rewrite Nat.add_0_r.
    + apply IH in H as (pre & w & t & -> & Hm).
      exists (String a pre), w, t. simpl. split; [reflexivity|].
      now rewrite Nat.add_succ_r.
Qed.

(** Facts on strings *)

Lemma prefix_contains sub s : prefix sub s = true -> contains sub s = true.
Proof. intros H. destruct s; cbn [contains]; now rewrite H. Qed.

Lemma contains_intro sub pre t : contains sub (pre ++ sub ++ t) = true.
Proof.
  induction pre as [|a pre IH]; simpl.
  - apply prefix_contains, prefix_append.
  - rewrite IH. apply orb_true_r.
Qed.

Lemma contains_elim sub s :
  contains sub s = true -> exists pre t, s = pre ++ sub ++ t.
Proof.
  induction s as [|a s IH]; cbn [contains]; intros H.
  - rewrite orb_false_r in H. apply prefix_split in H.
    exists "", (drop (length sub) ""). exact H.
  - apply orb_true_iff in H as [H|H].
    + apply prefix_split in H. now exists "", (drop (length sub) (String a s)).
    + apply IH in H as (pre & t & ->). now exists (String a pre), t.
Qed.

Lemma lstrip_all p s : all p s = true -> lstrip p s = "".
Proof.
  induction s as [|a s IH]; simpl; [reflexivity|].
  intros H. apply andb_true_iff in H as [-> H]. auto.
Qed.

Lemma rstrip_empty p s : rstrip p s = "" -> all p s = true.
Proof.
  induction s as [|a s IH]; simpl; [reflexivity|].
  destruct (rstrip p s); [|discriminate].
  destruct (p a); [|discriminate]. intros _. now rewrite IH.
Qed.

Lemma lstrip_suffix p s : exists w, s = w ++ lstrip p s /\ all p w = true.
Proof.
  induction s as [|a s (w & E & Hw)]; simpl.
  - now exists "".
  - destruct (p a) eqn:Ha.
    + exists (String a w). simpl. rewrite Ha, Hw. split; [congruence|reflexivity].
    + now exists "".
Qed.

Lemma strip_empty_iff p s : strip p s = "" <-> all p s = true.
Proof.
  unfold strip. split; intros H.
  - apply rstrip_empty in H. destruct (lstrip_suffix p s) as (w & E & Hw).
    rewrite E, all_append, Hw, H. reflexivity.
  - now rewrite (lstrip_all _ _ H).
Qed.

Lemma blank_iff line : blank line = true <-> all is_space line = true.
Proof.
  unfold blank. rewrite <- strip_empty_iff.
  destruct (strip is_space line); split; congruence.
Qed.

(** A line holding a non-space character is not blank. *)
Lemma not_blank_intro pre a t :
  is_space a = false -> blank (pre ++ String a t) = false.
Proof.
  intros Ha. destruct (blank _) eqn:E; [|reflexivity].
  apply blank_iff in E. rewrite all_append in E. simpl in E.
  rewrite Ha, andb_false_r in E. discriminate.
Qed.

Lemma contains_icmp_not_blank line :
  contains "icmp_seq=" line = true -> blank line = false.
Proof.
  intros H. apply contains_elim in H as (pre & t & ->).
  now apply not_blank_intro.
Qed.

(** Facts on the patterns *)

Ltac inv H := inversion H; subst; clear H.

Ltac all_run := simpl; apply andb_true_intro; split; assumption.

Lemma icmp_seq_inv i w g :
  matches Pat.icmp_seq i w [] g ->
  exists d, w = "icmp_seq=" ++ d /\ g = [(1, d)]
            /\ d <> "" /\ all is_digit d = true.
Proof.
  intros H. unfold Pat.icmp_seq in H. inv H.
  match goal with H : matches (Lit _) _ _ _ _ |- _ => inv H end.
  match goal with H : matches (Grp _ _) _ _ _ _ |- _ => inv H end.
  match goal with H : matches (Plus _) _ _ _ _ |- _ => inv H end.
  eexists. split; [reflexivity|]. split; [reflexivity|].
  split; [discriminate|all_run].
Qed.

Lemma search_icmp_seq line g :
  search Pat.icmp_seq line = Some g ->
  contains "icmp_seq=" line = true
  /\ exists d, group 1 g = Some d /\ d <> "" /\ all is_digit d = true.
Proof.
  intros H. apply search_from_sound in H as (pre & w & t & -> & Hm).
  apply icmp_seq_inv in Hm as (d & -> & -> & Hd & Hall).
  split.
  - rewrite append_assoc. apply contains_intro.
  - exists d. auto.
Qed.

Lemma time_inv i w g :
  matches Pat.time i w [] g ->
  exists d1 dot d2, g = [(1, d1 ++ dot ++ d2)]
    /\ d1 <> "" /\ all is_digit d1 = true /\ all is_digit d2 = true
    /\ (dot = "" \/ dot = ".")
    /\ w = "time=" ++ d1 ++ dot ++ d2.
Proof.
  intros H. unfold Pat.time in H. inv H.
  match goal with H : matches (Lit _) _ _ _ _ |- _ => inv H end.
  match goal with H : matches (Grp _ _) _ _ _ _ |- _ => inv H end.
  match goal with H : matches (Seq _ _) _ _ _ _ |- _ => inv H end.
  match goal with H : matches (Seq _ _) _ _ _ _ |- _ => inv H end.
  match goal with H : matches (Plus _) _ _ _ _ |- _ => inv H end.
  match goal with H : matches (Star _) _ _ _ _ |- _ => inv H end.
  match goal with H : matches (Opt _) _ _ _ _ |- _ => inv H end.
  - match goal with H : matches (Lit _) _ _ _ _ |- _ => inv H end.
    eexists; exists "."; eexists. split; [reflexivity|].
    repeat split; auto; try discriminate; all_run.
  - eexists; exists ""; eexists. split; [reflexivity|].
    repeat split; auto; try discriminate; all_run.
Qed.

Lemma ts_value_inv i w g :
  matches Pat.ts_value i w [] g ->
  exists d1 d2, g = [(1, d1 ++ "." ++ d2)]
    /\ d1 <> "" /\ all is_digit d1 = true
    /\ d2 <> "" /\ all is_digit d2 = true
    /\ i = 0%nat /\ w = "[" ++ d1 ++ "." ++ d2 ++ "]".
Proof.
  intros H. unfold Pat.ts_value in H. inv H.
  match goal with H : matches Bol _ _ _ _ |- _ => inv H end.
  match goal with H : matches (Seq _ _) _ _ _ _ |- _ => inv H end.
  match goal with H : matches (Seq _ _) _ _ _ _ |- _ => inv H end.
  match goal with H : matches (Lit "[") _ _ _ _ |- _ => inv H end.
  match goal with H : matches (Lit "]") _ _ _ _ |- _ => inv H end.
  match goal with H : matches (Grp _ _) _ _ _ _ |- _ => inv H end.
  match goal with H : matches (Seq _ _) _ _ _ _ |- _ => inv H end.
  match goal with H : matches (Seq _ _) _ _ _ _ |- _ => inv H end.
  match goal with H : matches (Lit ".") _ _ _ _ |- _ => inv H end.
  repeat match goal with H : matches (Plus _) _ _ _ _ |- _ => inv H end.
  do 2 eexists. split; [reflexivity|].
  repeat split; auto; try discriminate; try all_run.
  simpl. now rewrite !append_assoc.
Qed.

End ReFacts.

(** ** binary64 rounding *)

Module RndFacts.
Import Py Rnd.
Local Open Scope Z_scope.

Lemma fx_eq e : fx e = Z.max (e - 53) (-1074).
Proof. reflexivity. Qed.

Lemma fx_mono a b : a <= b -> fx a <= fx b.
Proof. rewrite !fx_eq. lia. Qed.

Lemma digits2_pos_size p : digits2_pos p = Pos.size p.
Proof. induction p; simpl; congruence. Qed.

Lemma D_log2 m : 0 < m -> D m = Z.log2 m + 1.
Proof.
  destruct m as [|p|p]; try lia. intros _. unfold D, Zdigits2.
  rewrite digits2_pos_size. destruct p; simpl; lia.
Qed.

Lemma D_nonneg m : 0 <= D m.
Proof. destruct m; simpl; lia. Qed.

Lemma D_bounds m : 0 < m -> 2 ^ (D m - 1) <= m < 2 ^ D m.
Proof.
  intros H. rewrite D_log2 by assumption.
  replace (Z.log2 m + 1 - 1) with (Z.log2 m) by lia.
  replace (Z.log2 m + 1) with (Z.succ (Z.log2 m)) by lia.
  now apply Z.log2_spec.
Qed.

Lemma D_pos m : 0 < m -> 0 < D m.
Proof. intros H. rewrite D_log2 by assumption. pose proof (Z.log2_nonneg m). lia. Qed.

Lemma D_mono a b : 0 <= a <= b -> D a <= D b.
Proof.
  intros [Ha Hab]. destruct (Z.eq_dec a 0) as [->|Hn].
  - apply D_nonneg.
  - rewrite !D_log2 by lia. pose proof (Z.log2_le_mono a b Hab). lia.
Qed.

Lemma D_shift m n : 0 < m -> 0 <= n -> D (m * 2 ^ n) = D m + n.
Proof.
  intros Hm Hn. pose proof (Z.pow_pos_nonneg 2 n).
  rewrite (D_log2 m) by lia. rewrite D_log2 by nia.
  rewrite Z.log2_mul_pow2 by lia. lia.
Qed.

Lemma D_lt_pow m k : 0 <= k -> 0 <= m < 2 ^ k -> D m <= k.
Proof.
  intros Hk [H0 Hm]. destruct (Z.eq_dec m 0) as [->|Hn]; [simpl; lia|].
  rewrite D_log2 by lia.
  assert (Z.log2 m < k); [|lia]. apply Z.log2_lt_pow2; lia.
Qed.

Lemma D_ge_pow m k : 0 <= k -> 2 ^ k <= m -> k + 1 <= D m.
Proof.
  intros Hk Hm. pose proof (Z.pow_pos_nonneg 2 k).
  rewrite D_log2 by lia.
  assert (k <= Z.log2 m); [|lia]. apply Z.log2_le_pow2; lia.
Qed.

(** Shifting right *)

Lemma shr_1_m r : 0 <= shr_m r -> shr_m (shr_1 r) = shr_m r / 2.
Proof.
  destruct r as [m b s]. simpl. intros H.
  destruct m as [|p|p]; try lia; [reflexivity|].
  destruct p; simpl shr_m.
  - rewrite Pos2Z.inj_xI. apply Z.div_unique with 1; lia.
  - rewrite Pos2Z.inj_xO. apply Z.div_unique with 0; lia.
  - reflexivity.
Qed.

Lemma shr_1_inexact r :
  0 <= shr_m r -> inexact (shr_1 r) = inexact r || Z.odd (shr_m r).
Proof.
  destruct r as [m b s]. unfold inexact. simpl. intros H.
  destruct m as [|p|p]; try lia; [simpl; now rewrite orb_false_r|].
  destruct p; simpl; destruct b, s; reflexivity.
Qed.

Lemma pow2_xI p : 2 ^ Zpos p~1 = 2 * (2 ^ Zpos p * 2 ^ Zpos p).
Proof.
  replace (Zpos p~1) with (1 + Zpos p + Zpos p) by lia.
  rewrite !Z.pow_add_r by lia. rewrite Z.pow_1_r. lia.
Qed.

Lemma pow2_xO p : 2 ^ Zpos p~0 = 2 ^ Zpos p * 2 ^ Zpos p.
Proof.
  replace (Zpos p~0) with (Zpos p + Zpos p) by lia.
  now rewrite !Z.pow_add_r by lia.
Qed.

Lemma pow2_pos n : 0 <= n -> 0 < 2 ^ n.
Proof. intros. apply Z.pow_pos_nonneg; lia. Qed.

Lemma iter_pos_m p : forall r, 0 <= shr_m r ->
  shr_m (iter_pos shr_1 p r) = shr_m r / 2 ^ Zpos p.
Proof.
  induction p as [p IH|p IH|]; intros r Hr; simpl iter_pos.
  - pose proof (pow2_pos (Zpos p) ltac:(lia)) as P.
    assert (H1 : 0 <= shr_m (shr_1 r)).
    { rewrite shr_1_m by assumption. apply Z.div_pos; lia. }
    assert (H2 : 0 <= shr_m (iter_pos shr_1 p (shr_1 r))).
    { rewrite IH by assumption. apply Z.div_pos; lia. }
    rewrite IH, IH, shr_1_m by assumption.
    rewrite !Z.div_div by lia. now rewrite pow2_xI.
  - pose proof (pow2_pos (Zpos p) ltac:(lia)) as P.
    assert (H2 : 0 <= shr_m (iter_pos shr_1 p r)).
    { rewrite IH by assumption. apply Z.div_pos; lia. }
    rewrite IH, IH by assumption.
    rewrite !Z.div_div by lia. now rewrite pow2_xO.
  - rewrite shr_1_m by assumption. reflexivity.
Qed.

Lemma iter_pos_exact p : forall r k,
  0 <= k -> shr_m r = k * 2 ^ Zpos p -> inexact r = false ->
  inexact (iter_pos shr_1 p r) = false.
Proof.
  induction p as [p IH|p IH|]; intros r k Hk Hr Hx; simpl iter_pos.
  - pose proof (pow2_pos (Zpos p) ltac:(lia)) as P.
    rewrite pow2_xI in Hr.
    assert (H0 : 0 <= shr_m r) by nia.
    assert (E1 : shr_m (shr_1 r) = (k * 2 ^ Zpos p) * 2 ^ Zpos p).
    { rewrite shr_1_m by assumption. rewrite Hr.
      replace (k * (2 * (2 ^ Zpos p * 2 ^ Zpos p)))
        with ((k * 2 ^ Zpos p * 2 ^ Zpos p) * 2) by lia.
      now rewrite Z.div_mul by lia. }
    assert (X1 : inexact (shr_1 r) = false).
    { rewrite shr_1_inexact, Hx, Hr by assumption. rewrite orb_false_l.
      replace (k * (2 * (2 ^ Zpos p * 2 ^ Zpos p)))
        with (2 * (k * 2 ^ Zpos p * 2 ^ Zpos p)) by lia.
      rewrite Z.odd_mul. reflexivity. }
    apply (IH _ k); [lia| |].
    + rewrite iter_pos_m by nia. rewrite E1. now rewrite Z.div_mul by lia.
    + apply (IH _ (k * 2 ^ Zpos p)); [nia|assumption|assumption].
  - pose proof (pow2_pos (Zpos p) ltac:(lia)) as P.
    rewrite pow2_xO in Hr.
    assert (H0 : 0 <= shr_m r) by nia.
    apply (IH _ k); [lia| |].
    + rewrite iter_pos_m by nia. rewrite Hr.
      replace (k * (2 ^ Zpos p * 2 ^ Zpos p))
        with (k * 2 ^ Zpos p * 2 ^ Zpos p) by lia.
      now rewrite Z.div_mul by lia.
    + apply (IH _ (k * 2 ^ Zpos p)); [nia|lia|assumption].
  - assert (H0 : 0 <= shr_m r) by lia.
    rewrite shr_1_inexact, Hx, Hr by assumption. rewrite orb_false_l.
    rewrite Z.mul_comm, Z.odd_mul. reflexivity.
Qed.

Lemma loc_of_shr_record_exact r :
  inexact r = false -> loc_of_shr_record r = loc_Exact.
Proof.
  destruct r as [m [] []]; unfold inexact; simpl; intros H;
    try discriminate; reflexivity.
Qed.

Lemma inexact_of_loc m l : inexact (shr_record_of_loc m l) = negb (exactb l).
Proof. destruct l as [|[]]; reflexivity. Qed.

Lemma shr_m_of_loc m l : shr_m (shr_record_of_loc m l) = m.
Proof. destruct l as [|[]]; reflexivity. Qed.

Lemma rne_cases m l :
  round_nearest_even m l = m
  \/ (round_nearest_even m l = m + 1 /\ l <> loc_Exact).
Proof.
  destruct l as [|[]]; simpl; auto;
    try (right; split; [reflexivity|discriminate]).
  destruct (Z.even m); [auto|right; split; [reflexivity|discriminate]].
Qed.

(** The first component of [shr_fexp]: a shift by [n] places when
    [n = fexp (digits m + e) - e] is positive, none otherwise. *)
Lemma shr_fexp_spec m e l :
  0 <= m ->
  let n := Z.max 0 (fx (D m + e) - e) in
  exists r, shr_fexp prec emax m e l = (r, e + n)
    /\ shr_m r = m / 2 ^ n
    /\ (exactb l = true -> m mod 2 ^ n = 0 -> inexact r = false).
Proof.
  intros Hm n. unfold shr_fexp, shr. fold (D m). fold (fx (D m + e)).
  subst n. destruct (fx (D m + e) - e) as [|p|p] eqn:En.
  - exists (shr_record_of_loc m l). rewrite Z.add_0_r.
    split; [reflexivity|]. rewrite shr_m_of_loc, inexact_of_loc.
    split; [now rewrite Z.div_1_r|]. now intros ->.
  - exists (iter_pos shr_1 p (shr_record_of_loc m l)).
    replace (Z.max 0 (Zpos p)) with (Zpos p) by lia.
    split; [reflexivity|].
    split.
    + rewrite iter_pos_m by (rewrite shr_m_of_loc; assumption).
      now rewrite shr_m_of_loc.
    + intros Hl Hd. apply (iter_pos_exact p _ (m / 2 ^ Zpos p)).
      * apply Z.div_pos; [assumption|]. apply pow2_pos; lia.
      * rewrite shr_m_of_loc.
        pose proof (pow2_pos (Zpos p) ltac:(lia)).
        rewrite (Z.div_mod m (2 ^ Zpos p)) at 1 by lia. lia.
      * now rewrite inexact_of_loc, Hl.
  - exists (shr_record_of_loc m l).
    replace (Z.max 0 (Zneg p)) with 0 by lia. rewrite Z.add_0_r.
    split; [reflexivity|]. rewrite shr_m_of_loc, inexact_of_loc.
    split; [now rewrite Z.div_1_r|]. now intros ->.
Qed.

(** [binary_round_aux] on a non-negative significand: a shift to the
    exponent of the format, one rounding step, a second shift when the
    rounding carried. *)
Lemma bra_unfold m e l :
  0 <= m ->
  let n := Z.max 0 (fx (D m + e) - e) in
  let e1 := e + n in
  exists m2,
    (m2 = m / 2 ^ n
     \/ (m2 = m / 2 ^ n + 1 /\ ~ (exactb l = true /\ m mod 2 ^ n = 0)))
    /\ let n2 := Z.max 0 (fx (D m2 + e1) - e1) in
       binary_round_aux prec emax false m e l =
       match m2 / 2 ^ n2 with
       | Z0 => S754_zero false
       | Zpos m3 =>
           if e1 + n2 <=? 971 then S754_finite false m3 (e1 + n2)
           else S754_infinity false
       | Zneg _ => S754_nan
       end.
Proof.
  intros Hm n e1. unfold binary_round_aux.
  destruct (shr_fexp_spec m e l Hm) as (r1 & E1 & M1 & X1).
  fold n in E1, M1, X1. fold e1 in E1. rewrite E1.
  set (m2 := round_nearest_even (shr_m r1) (loc_of_shr_record r1)).
  assert (P : 0 < 2 ^ n) by (apply pow2_pos; lia).
  assert (H1 : 0 <= m / 2 ^ n) by (apply Z.div_pos; lia).
  assert (C : m2 = m / 2 ^ n
              \/ (m2 = m / 2 ^ n + 1
                  /\ ~ (exactb l = true /\ m mod 2 ^ n = 0))).
  { subst m2. rewrite <- M1.
    destruct (rne_cases (shr_m r1) (loc_of_shr_record r1)) as [->|[-> Hl]].
    - now left.
    - right. split; [reflexivity|]. intros [A B]. apply Hl.
      apply loc_of_shr_record_exact. now apply X1. }
  exists m2. split; [exact C|].
  assert (H2 : 0 <= m2) by (destruct C as [->|[-> _]]; lia).
  destruct (shr_fexp_spec m2 e1 loc_Exact H2) as (r2 & E2 & M2 & _).
  cbv zeta. rewrite E2, M2. reflexivity.
Qed.

Lemma bra_not_nan m e l :
  0 <= m ->
  match binary_round_aux prec emax false m e l with
  | S754_zero s | S754_infinity s | S754_finite s _ _ => s = false
  | S754_nan => False
  end.
Proof.
  intros Hm. destruct (bra_unfold m e l Hm) as (m2 & C & ->).
  set (n := Z.max 0 (fx (D m + e) - e)) in *.
  assert (P : 0 < 2 ^ n) by (apply pow2_pos; lia).
  assert (H1 : 0 <= m / 2 ^ n) by (apply Z.div_pos; lia).
  assert (H2 : 0 <= m2) by (destruct C as [->|[-> _]]; lia).
  set (n2 := Z.max 0 _).
  assert (P2 : 0 < 2 ^ n2) by (apply pow2_pos; lia).
  assert (H3 : 0 <= m2 / 2 ^ n2) by (apply Z.div_pos; lia).
  destruct (m2 / 2 ^ n2); [reflexivity| |lia].
  now destruct (_ <=? _).
Qed.

(** Rounding does not cross a float of the format: when the value being
    rounded is at most [M * 2^E], with [(M, E)] canonical, so is the
    result. *)
Lemma bra_le m e l M E :
  0 <= m -> e <= fx (D m + e) ->
  0 < M -> fx (D M + E) = E -> E <= 971 -> e <= E ->
  (if exactb l then m else m + 1) <= M * 2 ^ (E - e) ->
  binary_round_aux prec emax false m e l = S754_zero false
  \/ exists m3 e3,
       binary_round_aux prec emax false m e l = S754_finite false m3 e3
       /\ e3 <= E /\ Zpos m3 <= M * 2 ^ (E - e3).
Proof.
  intros Hm He HM HC HE HeE Hb.
  destruct (bra_unfold m e l Hm) as (m2 & C & ->).
  set (n := Z.max 0 (fx (D m + e) - e)) in *.
  assert (En : n = fx (D m + e) - e) by lia.
  set (e1 := e + n) in *.
  assert (P : 0 < 2 ^ n) by (apply pow2_pos; lia).
  assert (H1 : 0 <= m / 2 ^ n) by (apply Z.div_pos; lia).
  assert (H2 : 0 <= m2) by (destruct C as [->|[-> _]]; lia).
  set (n2 := Z.max 0 (fx (D m2 + e1) - e1)).
  assert (P2 : 0 < 2 ^ n2) by (apply pow2_pos; lia).
  assert (H3 : 0 <= m2 / 2 ^ n2) by (apply Z.div_pos; lia).
  destruct (Z.eq_dec m2 0) as [Z2|NZ2].
  { left. rewrite Z2, Z.div_0_l by lia. reflexivity. }
  set (m' := if exactb l then m else m + 1) in *.
  assert (Hm' : 0 < m').
  { subst m'. destruct (exactb l) eqn:El; [|lia].
    destruct (Z.eq_dec m 0) as [->|]; [|lia].
    exfalso. destruct C as [C|[_ C]].
    - apply NZ2. rewrite C. apply Z.div_0_l. lia.
    - apply C. split; [reflexivity|]. apply Z.mod_0_l. lia. }
  assert (Hmm' : m <= m') by (subst m'; destruct (exactb l); lia).
  assert (PE : 0 < 2 ^ (E - e)) by (apply pow2_pos; lia).
  assert (He1 : e1 <= E).
  { assert (D m' <= D M + (E - e)).
    { rewrite <- D_shift by lia. apply D_mono. lia. }
    assert (D m <= D m') by (apply D_mono; lia).
    unfold e1. rewrite En. rewrite <- HC.
    replace (e + (fx (D m + e) - e)) with (fx (D m + e)) by lia.
    apply fx_mono. lia. }
  set (B := M * 2 ^ (E - e1)).
  assert (PB : 0 < 2 ^ (E - e1)) by (apply pow2_pos; lia).
  assert (EB : M * 2 ^ (E - e) = B * 2 ^ n).
  { unfold B. replace (E - e) with ((E - e1) + n) by (unfold e1; lia).
    rewrite Z.pow_add_r by lia. lia. }
  assert (Hm2 : m2 <= B).
  { assert (Hq : m / 2 ^ n <= B).
    { apply Z.div_le_upper_bound; [lia|]. lia. }
    destruct C as [->|[-> C]]; [exact Hq|].
    assert (m < B * 2 ^ n).
    { destruct (exactb l) eqn:El; subst m'.
      - assert (m <> B * 2 ^ n); [|lia].
        intros Heq. apply C. split; [reflexivity|].
        rewrite Heq. apply Z.mod_mul. lia.
      - lia. }
    assert (m / 2 ^ n < B); [|lia].
    apply Z.div_lt_upper_bound; lia. }
  assert (HB : 0 < B) by (unfold B; nia).
  assert (He3 : e1 + n2 <= E).
  { assert (D m2 <= D M + (E - e1)).
    { rewrite <- D_shift by lia. apply D_mono. fold B. lia. }
    assert (fx (D m2 + e1) <= fx (D M + E)) by (apply fx_mono; lia).
    lia. }
  assert (Hm3 : m2 / 2 ^ n2 <= M * 2 ^ (E - (e1 + n2))).
  { apply Z.div_le_upper_bound; [lia|].
    assert (M * 2 ^ (E - e1) = 2 ^ n2 * (M * 2 ^ (E - (e1 + n2)))).
    { replace (E - e1) with ((E - (e1 + n2)) + n2) by lia.
      rewrite Z.pow_add_r by lia. lia. }
    lia. }
  destruct (m2 / 2 ^ n2) as [|m3|m3] eqn:E3; [now left| |lia].
  right. exists m3, (e1 + n2).
  replace (e1 + n2 <=? 971) with true by (symmetry; apply Z.leb_le; lia).
  auto.
Qed.

Lemma finite_le m3 e3 M E :
  e3 <= E -> Zpos m3 <= Zpos M * 2 ^ (E - e3) ->
  SFleb (S754_finite false m3 e3) (S754_finite false M E) = true.
Proof.
  intros He Hm. unfold SFleb, SFcompare.
  destruct (Z.compare_spec e3 E) as [->|H|H]; [|reflexivity|lia].
  rewrite Z.sub_diag, Z.mul_1_r in Hm.
  change (Pos.compare_cont Eq m3 M) with (Pos.compare m3 M).
  destruct (Pos.compare_spec m3 M); try reflexivity. lia.
Qed.

(** The quotient of two positive integers, as [SFdiv] computes it. *)
Lemma int_truediv_unfold a b :
  0 < a -> 0 < b ->
  let e' := Z.min (fx (D a - D b)) 0 in
  let q := (a * 2 ^ (- e')) / b in
  let r := (a * 2 ^ (- e')) mod b in
  exists l,
    int_truediv a b = binary_round_aux prec emax false q e' l
    /\ exactb l = (r =? 0)
    /\ 0 <= q /\ e' <= fx (D q + e').
Proof.
  intros Ha Hb e' q r.
  destruct a as [|pa|pa]; try lia. destruct b as [|pb|pb]; try lia.
  assert (He' : e' <= 0) by (unfold e'; lia).
  assert (P : 0 < 2 ^ (- e')) by (apply pow2_pos; lia).
  exists (new_location (Zpos pb) r).
  split; [|split; [|split]].
  - unfold int_truediv, fdiv, exact, SFdiv, SFdiv_core_binary.
    fold (D (Zpos pa)). fold (D (Zpos pb)).
    rewrite !Z.add_0_r. fold (fx (D (Zpos pa) - D (Zpos pb))).
    change (0 - 0) with 0. fold e'.
    replace (0 - e') with (- e') by lia.
    assert (Es : match - e' with
                 | 0 => Zpos pa
                 | Zpos _ => Z.shiftl (Zpos pa) (- e')
                 | Zneg _ => 0
                 end = Zpos pa * 2 ^ (- e')).
    { destruct (- e') as [|p|p] eqn:E; try lia.
      rewrite Z.shiftl_mul_pow2 by lia. reflexivity. }
    rewrite Es.
    pose proof (Z.div_eucl_eq (Zpos pa * 2 ^ (- e')) (Zpos pb)) as Hdm.
    unfold q, r, Z.div, Z.modulo.
    destruct (Z.div_eucl (Zpos pa * 2 ^ (- e')) (Zpos pb)) as [q0 r0].
    reflexivity.
  - unfold new_location, new_location_even, new_location_odd.
    destruct (Z.even (Zpos pb)); destruct (r =? 0); reflexivity.
  - apply Z.div_pos; nia.
  - apply Z.le_trans with (fx (D (Zpos pa) - D (Zpos pb))); [unfold e'; lia|].
    apply fx_mono.
    set (t := D (Zpos pa) - D (Zpos pb) - e' - 1).
    destruct (Z_lt_le_dec t 0) as [Ht|Ht].
    + pose proof (D_nonneg q). lia.
    + assert (2 ^ t <= q); [|pose proof (D_ge_pow q t Ht H); lia].
      apply Z.div_le_lower_bound; [lia|].
      pose proof (D_bounds (Zpos pa) Ha) as [A1 _].
      pose proof (D_bounds (Zpos pb) Hb) as [_ B2].
      pose proof (D_pos (Zpos pa) Ha). pose proof (D_pos (Zpos pb) Hb).
      assert (2 ^ t * 2 ^ D (Zpos pb) = 2 ^ (D (Zpos pa) - 1) * 2 ^ (- e')).
      { rewrite <- !Z.pow_add_r by lia. f_equal. unfold t. lia. }
      pose proof (pow2_pos t Ht).
      pose proof (pow2_pos (D (Zpos pa) - 1) ltac:(lia)).
      nia.
Qed.

Lemma float_of_int_100 : float_of_int 100 = S754_finite false M100 (-46).
Proof. reflexivity. Qed.

(** A quotient [k / n] with [0 < k <= n] is zero (underflow) or a float
    of value at most 1. *)
Lemma int_truediv_le_1 k n :
  0 < k <= n ->
  int_truediv k n = S754_zero false
  \/ exists m e, int_truediv k n = S754_finite false m e
       /\ e <= -52 /\ Zpos m <= 2 ^ (- e).
Proof.
  intros [Hk Hkn].
  destruct (int_truediv_unfold k n Hk ltac:(lia)) as (l & -> & El & Hq & He).
  set (e' := Z.min (fx (D k - D n)) 0) in *.
  set (q := k * 2 ^ (- e') / n) in *.
  set (r := (k * 2 ^ (- e')) mod n) in *.
  assert (Hd : D k <= D n) by (apply D_mono; lia).
  assert (He' : e' <= -53).
  { unfold e'. pose proof (fx_mono (D k - D n) 0 ltac:(lia)) as H.
    change (fx 0) with (-53) in H. lia. }
  assert (P : 0 < 2 ^ (- e')) by (apply pow2_pos; lia).
  destruct (bra_le q e' l (2 ^ 52) (-52)) as [->|(m3 & e3 & -> & A & B)];
    try assumption; try lia; try reflexivity.
  - replace (2 ^ 52 * 2 ^ (-52 - e')) with (2 ^ (- e')).
    2:{ rewrite <- Z.pow_add_r by lia. f_equal. lia. }
    assert (Hdm : k * 2 ^ (- e') = n * q + r) by (apply Z.div_mod; lia).
    pose proof (Z.mod_pos_bound (k * 2 ^ (- e')) n ltac:(lia)) as Hr.
    fold r in Hr.
    assert (Hq1 : q <= 2 ^ (- e')).
    { apply Z.div_le_upper_bound; [lia|]. nia. }
    rewrite El. destruct (Z.eqb_spec r 0) as [Hr0|Hr0]; [exact Hq1|].
    assert (q < 2 ^ (- e')); [|lia]. nia.
  - now left.
  - right. exists m3, e3. split; [reflexivity|]. split; [assumption|].
    replace (2 ^ (- e3)) with (2 ^ 52 * 2 ^ (-52 - e3)); [assumption|].
    rewrite <- Z.pow_add_r by lia. f_equal. lia.
Qed.

(** The rational value of a float that [bra_le] bounds by 100.0. *)
Lemma value_le_100 m3 e3 :
  e3 <= -46 -> Zpos m3 <= Zpos M100 * 2 ^ (-46 - e3) ->
  (0 <= value (S754_finite false m3 e3) <= 100)%Q.
Proof.
  intros He Hm. destruct e3 as [|p|p]; try lia.
  unfold value, Qle. cbn [Qnum Qden].
  rewrite Pos2Z.inj_pow.
  assert (P : 0 < 2 ^ (-46 - Zneg p)) by (apply pow2_pos; lia).
  assert (E : 2 ^ Zpos p = 2 ^ 46 * 2 ^ (-46 - Zneg p)).
  { rewrite <- Z.pow_add_r by lia. f_equal. lia. }
  rewrite E. unfold M100 in Hm.
  change (2 ^ 46) with 70368744177664. lia.
Qed.

(** The packet-loss expression [(k / n) * 100] for [0 <= k <= n]: zero,
    or a float that 100.0 bounds. *)
Lemma loss_shape k n :
  0 <= k <= n -> 0 < n ->
  let p := fmul (int_truediv k n) (float_of_int 100) in
  p = S754_zero false
  \/ exists m e, p = S754_finite false m e
       /\ e <= -46 /\ Zpos m <= Zpos M100 * 2 ^ (-46 - e).
Proof.
  intros [Hk Hkn] Hn p. subst p. rewrite float_of_int_100.
  assert (Z0case : fmul (S754_zero false) (S754_finite false M100 (-46))
                   = S754_zero false) by reflexivity.
  destruct (Z.eq_dec k 0) as [->|Hk0].
  { assert (int_truediv 0 n = S754_zero false) as ->.
    { destruct n; try lia. reflexivity. }
    now left. }
  destruct (int_truediv_le_1 k n ltac:(lia)) as [->|(m & e & -> & He & Hm)].
  { now left. }
  unfold fmul, SFmul. cbn [xorb].
  destruct (bra_le (Zpos (m * M100)) (e + -46) loc_Exact (Zpos M100) (-46))
    as [->|(m3 & e3 & -> & A & B)]; try lia; try reflexivity.
  - assert (53 <= D (Zpos (m * M100))).
    { change 53 with (D (Zpos M100)). apply D_mono.
      rewrite Pos2Z.inj_mul. unfold M100. lia. }
    rewrite fx_eq. lia.
  - cbn [exactb].
    replace (-46 - (e + -46)) with (- e) by lia.
    rewrite Pos2Z.inj_mul. nia.
  - now left.
  - right. eauto.
Qed.

Lemma loss_bounds k n :
  0 <= k <= n -> 0 < n ->
  let p := fmul (int_truediv k n) (float_of_int 100) in
  fleb fzero p = true /\ fleb p (float_of_int 100) = true
  /\ Builtin.is_finite p = true /\ (0 <= value p <= 100)%Q.
Proof.
  intros Hk Hn p.
  destruct (loss_shape k n Hk Hn) as [E|(m & e & E & A & B)];
    fold p in E; rewrite E.
  - repeat split; discriminate.
  - rewrite float_of_int_100.
    split; [reflexivity|]. split; [now apply finite_le|].
    split; [reflexivity|]. now apply value_le_100.
Qed.

Lemma D_unique x k : 0 < k -> 2 ^ (k - 1) <= x < 2 ^ k -> D x = k.
Proof.
  intros Hk [A B]. pose proof (pow2_pos (k - 1) ltac:(lia)).
  rewrite D_log2 by lia.
  assert (Z.log2 x = k - 1); [|lia].
  apply Z.log2_unique; [lia|]. now replace (Z.succ (k - 1)) with k by lia.
Qed.

Lemma D_div m n : 0 <= n -> 0 < m / 2 ^ n -> D (m / 2 ^ n) = D m - n.
Proof.
  intros Hn Hq. pose proof (pow2_pos n Hn) as P.
  assert (Hm : 0 < m).
  { destruct (Z_le_gt_dec m 0); [|lia].
    assert (m / 2 ^ n <= 0); [|lia]. apply Z.div_le_upper_bound; lia. }
  pose proof (D_bounds m Hm) as [A B].
  pose proof (Z.mul_div_le m (2 ^ n) P) as L.
  assert (Hdn : n < D m).
  { destruct (Z_lt_le_dec n (D m)); [assumption|exfalso].
    assert (2 ^ D m <= 2 ^ n) by (apply Z.pow_le_mono_r; lia).
    assert (m / 2 ^ n = 0) by (apply Z.div_small; lia). lia. }
  apply D_unique; [lia|]. split.
  - apply Z.div_le_lower_bound; [lia|].
    replace (2 ^ n * 2 ^ (D m - n - 1)) with (2 ^ (D m - 1)); [assumption|].
    rewrite <- Z.pow_add_r by lia. f_equal. lia.
  - apply Z.div_lt_upper_bound; [lia|].
    replace (2 ^ n * 2 ^ (D m - n)) with (2 ^ D m); [assumption|].
    rewrite <- Z.pow_add_r by lia. f_equal. lia.
Qed.

(** A finite result of [binary_round_aux] is a float of the format. *)
Lemma bra_canonical m e l m3 e3 :
  0 <= m -> e <= fx (D m + e) ->
  binary_round_aux prec emax false m e l = S754_finite false m3 e3 ->
  fx (D (Zpos m3) + e3) = e3 /\ e3 <= 971.
Proof.
  intros Hm He. destruct (bra_unfold m e l Hm) as (m2 & C & ->).
  set (n := Z.max 0 (fx (D m + e) - e)) in *.
  assert (En : n = fx (D m + e) - e) by lia.
  set (e1 := e + n) in *.
  assert (Ee1 : e1 = fx (D m + e)) by (unfold e1; lia).
  assert (P : 0 < 2 ^ n) by (apply pow2_pos; lia).
  assert (H1 : 0 <= m / 2 ^ n) by (apply Z.div_pos; lia).
  assert (H2 : 0 <= m2) by (destruct C as [->|[-> _]]; lia).
  set (n2 := Z.max 0 (fx (D m2 + e1) - e1)).
  assert (P2 : 0 < 2 ^ n2) by (apply pow2_pos; lia).
  destruct (m2 / 2 ^ n2) as [|p|p] eqn:E3; try discriminate.
  destruct (e1 + n2 <=? 971) eqn:Hle; [|discriminate].
  intros [= <- <-]. apply Z.leb_le in Hle. split; [|assumption].
  rewrite <- E3.
  rewrite D_div by lia.
  replace (D m2 - n2 + (e1 + n2)) with (D m2 + e1) by lia.
  destruct (Z_lt_le_dec 0 (fx (D m2 + e1) - e1)) as [Hn2|Hn2]; [lia|].
  assert (n2 = 0) by lia. 
  assert (fx (D m + e) <= fx (D m2 + e1)); [|lia].
  apply fx_mono.
  assert (Hm2 : 0 < m2).
  { destruct (Z.eq_dec m2 0) as [Z2|]; [|lia].
    rewrite Z2, Z.div_0_l in E3 by lia. discriminate. }
  destruct (Z.eq_dec (m / 2 ^ n) 0) as [Hz|Hz].
  - assert (m < 2 ^ n).
    { destruct (Z_lt_le_dec m (2 ^ n)); [assumption|exfalso].
      assert (1 <= m / 2 ^ n); [|lia].
      apply Z.div_le_lower_bound; lia. }
    pose proof (D_lt_pow m n ltac:(lia) ltac:(lia)).
    pose proof (D_pos m2 Hm2). lia.
  - assert (D (m / 2 ^ n) = D m - n) by (apply D_div; lia).
    assert (D (m / 2 ^ n) <= D m2).
    { apply D_mono. destruct C as [->|[-> _]]; lia. }
    lia.
Qed.

Lemma int_truediv_wf a b : 0 <= a -> 0 < b -> wf (int_truediv a b).
Proof.
  intros Ha Hb. destruct (Z.eq_dec a 0) as [->|Hn].
  - destruct b; try lia. reflexivity.
  - destruct (int_truediv_unfold a b ltac:(lia) Hb) as (l & E & _ & Hq & He).
    rewrite E. pose proof (bra_not_nan _ (Z.min (fx (D a - D b)) 0) l Hq) as N.
    destruct (binary_round_aux _ _ _ _ _ _) as [s|s| |s m e] eqn:R;
      unfold wf; try assumption.
    subst s. split; [reflexivity|]. eapply bra_canonical; eassumption.
Qed.

Lemma float_of_int_1 : float_of_int 1 = S754_finite false P52 (-52).
Proof. reflexivity. Qed.

(** Division by 1.0 is exact. *)
Lemma fdiv_one x : wf x -> fdiv x (float_of_int 1) = x.
Proof.
  rewrite float_of_int_1.
  destruct x as [s|s| |s m e]; unfold wf; try (intros ->; reflexivity);
    [contradiction|].
  intros (-> & Hc & He).
  unfold fdiv, SFdiv, SFdiv_core_binary. cbn [xorb].
  fold (D (Zpos m)). change (Zdigits2 (Zpos P52)) with 53.
  replace (D (Zpos m) + e - (53 + -52)) with (D (Zpos m) + e - 1) by lia.
  fold (fx (D (Zpos m) + e - 1)).
  pose proof (D_pos (Zpos m) ltac:(lia)) as Dp.
  assert (Hd : D (Zpos m) <= 53) by (rewrite fx_eq in Hc; lia).
  set (e' := Z.min (fx (D (Zpos m) + e - 1)) (e - -52)).
  assert (He' : e' = fx (D (Zpos m) + e - 1)).
  { unfold e'. rewrite fx_eq in *. lia. }
  assert (Hs : 52 <= e - -52 - e' <= 53).
  { rewrite He'. rewrite fx_eq in *. lia. }
  set (s := e - -52 - e') in *.
  destruct s as [|ps|ps] eqn:Es; try lia.
  rewrite Z.shiftl_mul_pow2 by lia. rewrite <- Es.
  assert (Hq : Z.div_eucl (Zpos m * 2 ^ s) (Zpos P52)
               = (Zpos m * 2 ^ (s - 52), 0)).
  { pose proof (Z.div_eucl_eq (Zpos m * 2 ^ s) (Zpos P52) ltac:(lia)) as Q.
    pose proof (Z.mod_pos_bound (Zpos m * 2 ^ s) (Zpos P52) ltac:(lia)) as Rb.
    unfold Z.modulo in Rb.
    destruct (Z.div_eucl (Zpos m * 2 ^ s) (Zpos P52)) as [q r].
    assert (E52 : Zpos P52 = 2 ^ 52) by reflexivity.
    assert (S2 : 2 ^ s = 2 ^ 52 * 2 ^ (s - 52)).
    { rewrite <- Z.pow_add_r by lia. f_equal. lia. }
    rewrite E52 in *. rewrite S2 in Q.
    assert (r = 0 /\ q = Zpos m * 2 ^ (s - 52)) as [-> ->]; [|reflexivity].
    pose proof (pow2_pos (s - 52) ltac:(lia)).
    assert (r = 2 ^ 52 * (Zpos m * 2 ^ (s - 52) - q)) by lia.
    assert (Zpos m * 2 ^ (s - 52) - q = 0) by nia. split; lia. }
  change (IntDef.Z.div_eucl (Zpos m * 2 ^ s) (Zpos P52))
    with (Z.div_eucl (Zpos m * 2 ^ s) (Zpos P52)).
  rewrite Hq.
  assert (L : new_location (Zpos P52) 0 = loc_Exact) by reflexivity.
  rewrite L.
  set (q := Zpos m * 2 ^ (s - 52)).
  assert (Pq : 0 < 2 ^ (s - 52)) by (apply pow2_pos; lia).
  assert (Hq0 : 0 <= q) by (unfold q; nia).
  destruct (bra_unfold q e' loc_Exact Hq0) as (m2 & C & ->).
  assert (Dq : D q = D (Zpos m) + (s - 52)) by (apply D_shift; lia).
  assert (En : Z.max 0 (fx (D q + e') - e') = s - 52).
  { rewrite Dq. replace (D (Zpos m) + (s - 52) + e') with (D (Zpos m) + e)
      by (unfold s; lia). rewrite Hc. unfold s. lia. }
  rewrite En in *.
  assert (Em2 : m2 = Zpos m).
  { assert (Q1 : q / 2 ^ (s - 52) = Zpos m) by (apply Z.div_mul; lia).
    destruct C as [->|[_ C]]; [exact Q1|].
    exfalso. apply C. split; [reflexivity|]. apply Z.mod_mul. lia. }
  rewrite Em2. replace (e' + (s - 52)) with e by (unfold s; lia).
  rewrite Hc, Z.sub_diag. cbn [Z.max Z.compare]. rewrite Z.add_0_r.
  rewrite Z.pow_0_r, Z.div_1_r.
  replace (e <=? 971) with true by (symmetry; apply Z.leb_le; lia).
  reflexivity.
Qed.


End RndFacts.

(** ** Numbers: conversions, order, least and greatest elements *)

Module NumFacts.
Import Str Re ReSem Py Builtin Rnd ReFacts RndFacts Spec.
Local Open Scope Z_scope.

Lemma digits_value_some s : forall acc,
  all is_digit s = true -> 0 <= acc ->
  exists n, digits_value acc s = Some n /\ 0 <= n.
Proof.
  induction s as [|a s IH]; intros acc Hs Hacc; cbn [all digits_value] in *.
  - now exists acc.
  - apply andb_true_iff in Hs as [Ha Hs]. rewrite Ha.
    apply IH; [assumption|].
    unfold is_digit in Ha. apply andb_true_iff in Ha as [A _].
    apply Nat.leb_le in A. lia.
Qed.

Lemma decimal_value_run d :
  run is_digit d -> exists n, decimal_value d = Some n.
Proof.
  intros [Hne Hd]. destruct d as [|a d]; [congruence|].
  destruct (digits_value_some (String a d) 0 Hd ltac:(lia)) as (n & E & _).
  now exists n.
Qed.

(** [int] converts a text of at most 4300 digits and refuses a longer
    one. *)
Lemma int_of_string_cases d :
  int_of_string d
  = if (int_max_str_digits <? length d)%nat then None else decimal_value d.
Proof. reflexivity. Qed.


Lemma split_dot_digits s :
  all is_digit s = true -> split_dot s = (s, None).
Proof.
  induction s as [|a s IH]; simpl; [reflexivity|].
  intros H. apply andb_true_iff in H as [Ha Hs].
  destruct (Ascii.eqb_spec a ".") as [->|_]; [discriminate|].
  now rewrite IH.
Qed.

Lemma split_dot_dotted d1 t :
  all is_digit d1 = true -> split_dot (d1 ++ String "." t) = (d1, Some t).
Proof.
  induction d1 as [|a s IH]; simpl; [reflexivity|].
  intros H. apply andb_true_iff in H as [Ha Hs].
  destruct (Ascii.eqb_spec a ".") as [->|_]; [discriminate|].
  now rewrite IH.
Qed.

Lemma pow10_pos k : 0 < 10 ^ Z.of_nat k.
Proof. apply Z.pow_pos_nonneg; lia. Qed.

(** [float] accepts every text the patterns capture, and returns a float
    of the format. *)
Lemma float_of_string_decimal d1 dot d2 :
  run is_digit d1 -> all is_digit d2 = true -> dot = "" \/ dot = "." ->
  exists x, float_of_string (d1 ++ dot ++ d2) = Some x /\ wf x.
Proof.
  intros [Hne H1] H2 Hdot. unfold float_of_string.
  assert (Hall : all is_digit (d1 ++ d2) = true)
    by now rewrite all_append, H1, H2.
  assert (Hnil : d1 ++ d2 <> "") by (destruct d1; [congruence|discriminate]).
  destruct (digits_value_some _ 0 Hall ltac:(lia)) as (n & En & Hn).
  destruct Hdot as [-> | ->].
  - simpl append. rewrite split_dot_digits by assumption.
    cbv beta iota zeta. rewrite append_nil_r.
    destruct (d1 ++ d2) eqn:E; [congruence|]. rewrite En.
    eexists. split; [reflexivity|]. apply int_truediv_wf; [assumption|].
    apply pow10_pos.
  - change (d1 ++ "." ++ d2) with (d1 ++ String "." d2).
    rewrite split_dot_dotted by assumption.
    cbv beta iota zeta.
    destruct (d1 ++ d2) eqn:E; [congruence|]. rewrite En.
    eexists. split; [reflexivity|]. apply int_truediv_wf; [assumption|].
    apply pow10_pos.
Qed.

(** *** The order on the floats of the format *)

Lemma fleb_refl x : wf x -> fleb x x = true.
Proof.
  destruct x as [s|s| |s m e]; unfold wf; try (intros ->; reflexivity);
    [contradiction|].
  intros (-> & _). unfold fleb, SFleb, SFcompare.
  rewrite Z.compare_refl. change (Pos.compare_cont Eq m m) with (Pos.compare m m).
  now rewrite Pos.compare_refl.
Qed.

Lemma fltb_fleb x y : fltb x y = true -> fleb x y = true.
Proof.
  unfold fltb, fleb, SFltb, SFleb. destruct (SFcompare x y) as [[]|]; congruence.
Qed.

Lemma fltb_false_fleb x y : wf x -> wf y -> fltb x y = false -> fleb y x = true.
Proof.
  destruct x as [s|s| |s m e], y as [s'|s'| |s' m' e']; unfold wf;
    intros Hx Hy; try contradiction;
    repeat match goal with
           | H : _ /\ _ |- _ => destruct H as [? _]
           end; subst; try reflexivity; try discriminate.
  unfold fltb, fleb, SFltb, SFleb, SFcompare.
  rewrite (Z.compare_antisym e e').
  change (Pos.compare_cont Eq m m') with (Pos.compare m m').
  change (Pos.compare_cont Eq m' m) with (Pos.compare m' m).
  rewrite (Pos.compare_antisym m m').
  destruct (e ?= e'); simpl; try congruence.
  destruct (m ?= m')%positive; simpl; congruence.
Qed.

Lemma finite_leb_iff m e m' e' :
  SFleb (S754_finite false m e) (S754_finite false m' e') = true
  <-> e < e' \/ (e = e' /\ (m <= m')%positive).
Proof.
  unfold SFleb, SFcompare.
  change (Pos.compare_cont Eq m m') with (Pos.compare m m').
  destruct (Z.compare_spec e e') as [->|H|H].
  - destruct (Pos.compare_spec m m'); split; intros X; try reflexivity;
      try discriminate; try lia.
  - split; [lia|reflexivity].
  - split; [discriminate|lia].
Qed.

Lemma fleb_trans x y z :
  wf x -> wf y -> wf z ->
  fleb x y = true -> fleb y z = true -> fleb x z = true.
Proof.
  destruct x as [s|s| |s m e], y as [s'|s'| |s' m' e'],
    z as [s''|s''| |s'' m'' e'']; unfold wf;
    intros Hx Hy Hz; try contradiction;
    repeat match goal with
           | H : _ /\ _ |- _ => destruct H as [? _]
           end; subst; try reflexivity; try discriminate.
  unfold fleb. rewrite !finite_leb_iff. lia.
Qed.

(** *** [min] and [max] *)

Lemma min_from_wf l : forall cur,
  wf cur -> Forall wf l -> wf (min_from cur l).
Proof.
  induction l as [|x l IH]; intros cur Hc Hl; simpl; [assumption|].
  inversion Hl; subst. apply IH; [|assumption]. now destruct (fltb x cur).
Qed.

Lemma max_from_wf l : forall cur,
  wf cur -> Forall wf l -> wf (max_from cur l).
Proof.
  induction l as [|x l IH]; intros cur Hc Hl; simpl; [assumption|].
  inversion Hl; subst. apply IH; [|assumption]. now destruct (fltb cur x).
Qed.

Lemma min_from_spec l : forall cur,
  wf cur -> Forall wf l -> is_minimum (min_from cur l) (cur :: l).
Proof.
  induction l as [|x l IH]; intros cur Hc Hl; simpl.
  - split; [now left|]. intros y [<-|[]]. now apply fleb_refl.
  - inversion Hl as [|? ? Hx Hl']; subst.
    set (c := if fltb x cur then x else cur).
    assert (Hwc : wf c) by (unfold c; now destruct (fltb x cur)).
    assert (Hcx : fleb c x = true /\ fleb c cur = true /\ (c = x \/ c = cur)).
    { unfold c. destruct (fltb x cur) eqn:E.
      - split; [now apply fleb_refl|]. split; [now apply fltb_fleb|now left].
      - split; [now apply fltb_false_fleb|].
        split; [now apply fleb_refl|now right]. }
    destruct Hcx as (A & B & Hor).
    destruct (IH c Hwc Hl') as [Hin Hle].
    assert (Hwm : wf (min_from c l)) by now apply min_from_wf.
    split.
    + destruct Hin as [E|Hin]; [|now right; right].
      rewrite <- E. destruct Hor as [->| ->]; [right; now left|now left].
    + assert (Hmc : fleb (min_from c l) c = true) by (apply Hle; now left).
      intros y [<-|[<-|Hy]].
      * now apply fleb_trans with c.
      * now apply fleb_trans with c.
      * apply Hle. now right.
Qed.

Lemma max_from_spec l : forall cur,
  wf cur -> Forall wf l -> is_maximum (max_from cur l) (cur :: l).
Proof.
  induction l as [|x l IH]; intros cur Hc Hl; simpl.
  - split; [now left|]. intros y [<-|[]]. now apply fleb_refl.
  - inversion Hl as [|? ? Hx Hl']; subst.
    set (c := if fltb cur x then x else cur).
    assert (Hwc : wf c) by (unfold c; now destruct (fltb cur x)).
    assert (Hcx : fleb x c = true /\ fleb cur c = true /\ (c = x \/ c = cur)).
    { unfold c. destruct (fltb cur x) eqn:E.
      - split; [now apply fleb_refl|]. split; [now apply fltb_fleb|now left].
      - split; [now apply fltb_false_fleb|].
        split; [now apply fleb_refl|now right]. }
    destruct Hcx as (A & B & Hor).
    destruct (IH c Hwc Hl') as [Hin Hle].
    assert (Hwm : wf (max_from c l)) by now apply max_from_wf.
    split.
    + destruct Hin as [E|Hin]; [|now right; right].
      rewrite <- E. destruct Hor as [->| ->]; [right; now left|now left].
    + assert (Hmc : fleb c (max_from c l) = true) by (apply Hle; now left).
      intros y [<-|[<-|Hy]].
      * now apply fleb_trans with c.
      * now apply fleb_trans with c.
      * apply Hle. now right.
Qed.

End NumFacts.

(** ** What the matcher finds *)

Module MatchFacts.
Import Str Re ReSem ReFacts.

Section Greedy.
Context {R : Type}.

Lemma rmatch_seq r1 r2 i s g (k : nat -> string -> groups -> option R) :
  rmatch (Seq r1 r2) i s g k
  = rmatch r1 i s g (fun j t g' => rmatch r2 j t g' k).
Proof. reflexivity. Qed.

Lemma rmatch_grp n r i s g (k : nat -> string -> groups -> option R) :
  rmatch (Grp n r) i s g k
  = rmatch r i s g (fun j t g' => k j t ((n, take (j - i) s) :: g')).
Proof. reflexivity. Qed.

Lemma rmatch_bol s g (k : nat -> string -> groups -> option R) :
  rmatch Bol 0 s g k = k 0%nat s g.
Proof. reflexivity. Qed.

Lemma rmatch_opt r i s g (k : nat -> string -> groups -> option R) :
  rmatch (Opt r) i s g k
  = match rmatch r i s g k with
    | Some x => Some x
    | None => k i s g
    end.
Proof. reflexivity. Qed.

Lemma lit_match l t i g (k : nat -> string -> groups -> option R) :
  rmatch (Lit l) i (l ++ t) g k = k (i + length l)%nat t g.
Proof. simpl. now rewrite prefix_append, drop_append. Qed.

(** A run followed by a character outside the class is taken whole when
    the continuation accepts it. *)
Lemma many_greedy c w : forall t i (k : nat -> string -> option R) x,
  all c w = true -> stops c t ->
  k (i + length w)%nat t = Some x ->
  many c i (w ++ t) k = Some x.
Proof.
  induction w as [|a w IH]; intros t i k x Hw Ht Hk; simpl in *.
  - rewrite Nat.add_0_r in Hk. destruct t as [|b t]; [assumption|].
    simpl in Ht. simpl. now rewrite Ht.
  - apply andb_true_iff in Hw as [-> Hw].
    rewrite (IH t (S i) k x); auto. now rewrite Nat.add_succ_comm.
Qed.

Lemma plus_greedy c w t i g (k : nat -> string -> groups -> option R) x :
  run c w -> stops c t ->
  k (i + length w)%nat t g = Some x ->
  rmatch (Plus c) i (w ++ t) g k = Some x.
Proof.
  intros [Hne Hw] Ht Hk. destruct w as [|a w]; [congruence|].
  simpl in *. apply andb_true_iff in Hw as [-> Hw].
  apply many_greedy; auto. now rewrite Nat.add_succ_comm.
Qed.

(** A run whose last character the continuation needs back. *)
Lemma many_give_back c w : forall a t i (k : nat -> string -> option R) x,
  all c w = true -> c a = true -> stops c t ->
  k (i + length w + 1)%nat t = None ->
  k (i + length w)%nat (String a t) = Some x ->
  many c i (w ++ String a t) k = Some x.
Proof.
  induction w as [|b w IH]; intros a t i k x Hw Ha Ht Hn Hk; simpl in *.
  - rewrite Nat.add_0_r in *. rewrite Ha.
    assert (many c (S i) t k = None) as ->.
    { destruct t as [|d t]; simpl.
      - now rewrite <- Nat.add_1_r.
      - simpl in Ht. rewrite Ht. now rewrite <- Nat.add_1_r. }
    assumption.
  - apply andb_true_iff in Hw as [-> Hw].
    rewrite (IH a t (S i) k x); auto.
    + now rewrite Nat.add_succ_comm.
    + now rewrite Nat.add_succ_comm.
Qed.

(** No way of splitting the subject satisfies the continuation. *)
Lemma many_fail c s : forall i (k : nat -> string -> option R),
  (forall j w t, s = w ++ t -> all c w = true -> k j t = None) ->
  many c i s k = None.
Proof.
  induction s as [|a s IH]; intros i k H; simpl.
  - now apply (H i "" "").
  - destruct (c a) eqn:Ha.
    + rewrite IH.
      * now apply (H i "" (String a s)).
      * intros j w t -> Hw. apply (H j (String a w) t); [reflexivity|].
        simpl. now rewrite Ha.
    + now apply (H i "" (String a s)).
Qed.

End Greedy.

(** Capturing groups do not change whether a pattern matches. *)
Lemma many_none_iff {R R' : Type} c s : forall i
    (k : nat -> string -> option R) (k' : nat -> string -> option R'),
  (forall j t, k j t = None <-> k' j t = None) ->
  (many c i s k = None <-> many c i s k' = None).
Proof.
  induction s as [|a s IH]; intros i k k' H; simpl; [apply H|].
  destruct (c a); [|apply H].
  specialize (IH (S i) k k' H). specialize (H i (String a s)).
  destruct (many c (S i) s k), (many c (S i) s k'); split; intros X;
    try discriminate; try tauto;
    try (apply IH in X; discriminate X);
    try (exfalso; destruct IH as [A B];
         (discriminate (A eq_refl) || discriminate (B eq_refl))).
Qed.

Lemma rmatch_erase {R R' : Type} r : forall i s g g'
    (k : nat -> string -> groups -> option R)
    (k' : nat -> string -> groups -> option R'),
  (forall j t h h', k j t h = None <-> k' j t h' = None) ->
  (rmatch r i s g k = None <-> rmatch (erase r) i s g' k' = None).
Proof.
  induction r as [l|c|c|r IH|n r IH|r1 IH1 r2 IH2|]; intros i s g g' k k' H;
    simpl.
  - destruct (prefix l s); [apply H|tauto].
  - destruct s as [|a s]; [tauto|]. destruct (c a); [|tauto].
    apply many_none_iff. intros; apply H.
  - apply many_none_iff. intros; apply H.
  - specialize (IH i s g g' k k' H). specialize (H i s g g').
    destruct (rmatch r i s g k), (rmatch (erase r) i s g' k'); split;
      intros X; try discriminate; try tauto;
      try (exfalso; destruct IH as [A B];
           (discriminate (A eq_refl) || discriminate (B eq_refl))).
  - apply IH. intros; apply H.
  - apply IH1. intros. apply IH2. exact H.
  - destruct (Nat.eqb i 0); [apply H|tauto].
Qed.

Lemma search_from_erase r s : forall i,
  search_from r i s = None <-> search_from (erase r) i s = None.
Proof.
  assert (K : forall i s,
    rmatch r i s [] (fun _ _ g => Some g) = None
    <-> rmatch (erase r) i s [] (fun _ _ g => Some g) = None).
  { intros. apply rmatch_erase. intros; split; discriminate. }
  induction s as [|a s IH]; intros i; simpl.
  - specialize (K i ""). 
    destruct (rmatch r i "" [] _), (rmatch (erase r) i "" [] _);
      split; intros X; try discriminate; try reflexivity;
      exfalso; destruct K as [A B];
      (discriminate (A eq_refl) || discriminate (B eq_refl)).
  - specialize (K i (String a s)). specialize (IH (S i)).
    destruct (rmatch r i (String a s) [] _),
             (rmatch (erase r) i (String a s) [] _);
      split; intros X; try discriminate; try tauto;
      exfalso; destruct K as [A B];
      (discriminate (A eq_refl) || discriminate (B eq_refl)).
Qed.

End MatchFacts.

(** ** The patterns of the script on a line *)

Module PatFacts.
Import Str Re ReSem ReFacts MatchFacts Py Exn Rnd NumFacts Analysis Spec.

Ltac norm_app := repeat (progress (rewrite ?append_assoc; simpl)).

Lemma run_cons c a w : c a = true -> all c w = true -> run c (String a w).
Proof. intros Ha Hw. split; [discriminate|]. simpl. now rewrite Ha, Hw. Qed.

(** *** Timestamps *)

Lemma search_ts_value_some line g :
  search Pat.ts_value line = Some g ->
  exists d1 d2 rest,
    line = "[" ++ d1 ++ "." ++ d2 ++ "]" ++ rest
    /\ run is_digit d1 /\ run is_digit d2
    /\ group 1 g = Some (d1 ++ "." ++ d2).
Proof.
  intros H. apply search_from_sound in H as (pre & w & t & -> & Hm).
  apply ts_value_inv in Hm as (d1 & d2 & -> & N1 & A1 & N2 & A2 & Hi & ->).
  destruct pre; [|discriminate]. exists d1, d2, t.
  split; [now norm_app|].
  repeat split; assumption.
Qed.

Lemma search_ts_value_bracketed line :
  bracketed line -> exists g, search Pat.ts_value line = Some g.
Proof.
  intros (d1 & d2 & rest & -> & R1 & R2).
  unfold search, search_from.
  assert (E : rmatch Pat.ts_value 0 ("[" ++ d1 ++ "." ++ d2 ++ "]" ++ rest)
                [] (fun _ _ g => Some g)
              = Some [(1, d1 ++ "." ++ d2)]).
  { unfold Pat.ts_value.
    rewrite rmatch_seq, rmatch_bol, rmatch_seq, (lit_match "[").
    rewrite rmatch_seq, rmatch_grp, !rmatch_seq.
    apply plus_greedy; [assumption|reflexivity|]. cbv beta.
    rewrite rmatch_seq, (lit_match ".").
    apply plus_greedy; [assumption|reflexivity|]. cbv beta.
    rewrite (lit_match "]"). f_equal. f_equal. f_equal.
    replace (d1 ++ "." ++ d2 ++ "]" ++ rest)
      with ((d1 ++ "." ++ d2) ++ "]" ++ rest) by now norm_app.
    apply take_prefix. rewrite !length_append. simpl. lia. }
  destruct ("[" ++ d1 ++ "." ++ d2 ++ "]" ++ rest) eqn:S; rewrite E; eauto.
Qed.

Lemma erase_ts_value s : forall i,
  search_from (erase Pat.ts_value) i s = search_from Pat.ts_prefix i s.
Proof. induction s as [|a s IH]; intros i; simpl; [reflexivity|]. now rewrite IH. Qed.

(** Line 29 and line 48 look for the same prefix. *)
Lemma ts_prefix_iff_value line :
  search Pat.ts_prefix line = None <-> search Pat.ts_value line = None.
Proof.
  unfold search. rewrite <- erase_ts_value. symmetry. apply search_from_erase.
Qed.

Lemma ts_value_iff_bracketed line :
  search Pat.ts_value line <> None <-> bracketed line.
Proof.
  split.
  - destruct (search Pat.ts_value line) as [g|] eqn:E; [intros _|congruence].
    apply search_ts_value_some in E as (d1 & d2 & rest & -> & R1 & R2 & _).
    now exists d1, d2, rest.
  - intros H. apply search_ts_value_bracketed in H as [g ->]. discriminate.
Qed.

Lemma bracketed_not_blank line : bracketed line -> blank line = false.
Proof.
  intros (d1 & d2 & rest & -> & _). now apply (not_blank_intro "").
Qed.

Lemma stamp_of_some line g :
  search Pat.ts_value line = Some g ->
  exists x, float_group g 1 = Ok x /\ stamp_of line = Some x /\ wf x.
Proof.
  intros H. unfold stamp_of, float_group. rewrite H. cbn [opt_bind].
  apply search_ts_value_some in H as (d1 & d2 & rest & _ & R1 & R2 & ->).
  destruct (float_of_string_decimal d1 "." d2 R1 (proj2 R2) (or_intror eq_refl))
    as (x & E & W).
  exists x. cbn [opt_bind or_raise bind]. rewrite E. repeat split; auto.
Qed.

(** *** Samples *)

Lemma is_sample_has_probe line :
  is_sample line = true -> has_probe line = true.
Proof.
  unfold is_sample, has_probe.
  destruct (search Pat.icmp_seq line) as [g|] eqn:E; [|discriminate].
  intros _. now apply search_icmp_seq in E as [H _].
Qed.

Lemma search_time_some line g :
  search Pat.time line = Some g ->
  exists x, float_group g 1 = Ok x /\ wf x
            /\ opt_bind (group 1 g) float_of_string = Some x.
Proof.
  intros H. apply search_from_sound in H as (pre & w & t & -> & Hm).
  apply time_inv in Hm as (d1 & dot & d2 & -> & N1 & A1 & A2 & Hdot & _).
  destruct (float_of_string_decimal d1 dot d2 (conj N1 A1) A2 Hdot)
    as (x & E & W).
  exists x. unfold float_group. cbn [opt_bind or_raise bind group Nat.eqb].
  rewrite E. repeat split; auto.
Qed.

Lemma search_seq_some line g :
  search Pat.icmp_seq line = Some g ->
  exists d n,
    group 1 g = Some d /\ decimal_value d = Some n
    /\ int_group g 1
       = if (int_max_str_digits <? length d)%nat
         then Raise "ValueError" else Ok n.
Proof.
  intros H. unfold int_group.
  apply search_icmp_seq in H as (_ & d & -> & N & A).
  destruct (decimal_value_run d (conj N A)) as (n & E).
  exists d, n. cbn [opt_bind or_raise bind].
  rewrite int_of_string_cases, E.
  split; [reflexivity|]. split; [reflexivity|].
  now destruct (int_max_str_digits <? length d)%nat.
Qed.

Lemma sample_of_is_sample line :
  (is_sample line = true -> exists n t, sample_of line = Some (n, t) /\ wf t)
  /\ (is_sample line = false -> sample_of line = None).
Proof.
  unfold is_sample, sample_of.
  destruct (search Pat.icmp_seq line) as [sm|] eqn:E1;
    [|split; [discriminate|reflexivity]].
  destruct (search Pat.time line) as [tm|] eqn:E2;
    [|split; [discriminate|reflexivity]].
  split; [intros _|discriminate].
  apply search_seq_some in E1 as (d & n & -> & Dv & _).
  apply search_time_some in E2 as (x & _ & W & ->).
  cbn [opt_bind]. rewrite Dv. exists n, x. auto.
Qed.

End PatFacts.

(** ** The header line *)

Module HeaderFacts.
Import Str Re ReSem ReFacts MatchFacts PatFacts Analysis.

Lemma header_inv i w g :
  matches Pat.header i w [] g ->
  exists t1, run not_space t1
    /\ (g = [(1, t1)]
        \/ exists t2, run not_space t2 /\ g = [(2, t2); (1, t1)]).
Proof.
  intros H. unfold Pat.header in H. inv H.
  match goal with H : matches (Lit _) _ _ _ _ |- _ => inv H end.
  match goal with H : matches (Seq _ _) _ _ _ _ |- _ => inv H end.
  match goal with H : matches (Seq _ _) _ _ _ _ |- _ => inv H end.
  match goal with H : matches (Plus is_space) _ _ _ _ |- _ => inv H end.
  match goal with H : matches (Grp _ _) _ _ _ _ |- _ => inv H end.
  match goal with H : matches (Plus not_space) _ _ _ _ |- _ => inv H end.
  eexists. split; [apply run_cons; eassumption|].
  match goal with H : matches (Opt _) _ _ _ _ |- _ => inv H end.
  - right.
    match goal with H : matches (Seq _ _) _ _ _ _ |- _ => inv H end.
    match goal with H : matches (Seq _ _) _ _ _ _ |- _ => inv H end.
    match goal with H : matches (Seq _ _) _ _ _ _ |- _ => inv H end.
    match goal with H : matches (Plus is_space) _ _ _ _ |- _ => inv H end.
    match goal with H : matches (Lit "(") _ _ _ _ |- _ => inv H end.
    match goal with H : matches (Lit ")") _ _ _ _ |- _ => inv H end.
    match goal with H : matches (Grp _ _) _ _ _ _ |- _ => inv H end.
    match goal with H : matches (Plus not_space) _ _ _ _ |- _ => inv H end.
    eexists. split; [apply run_cons; eassumption|reflexivity].
  - now left.
Qed.

(** The target, from what the header pattern captured. *)
Lemma extract_target_cases l0 rest :
  match search Pat.header l0 with
  | None =>
      extract_target (l0 :: rest)
      = {| ip := Some "Unknown"; hostname := None |}
  | Some g =>
      exists t1, run not_space t1 /\ group 1 g = Some t1
        /\ ((group 2 g = None
             /\ extract_target (l0 :: rest)
                = {| ip := Some t1; hostname := None |})
            \/ exists t2, run not_space t2 /\ group 2 g = Some t2
                 /\ extract_target (l0 :: rest)
                    = {| ip := Some (strip is_paren t2);
                         hostname := Some t1 |})
  end.
Proof.
  unfold extract_target.
  destruct (search Pat.header l0) as [g|] eqn:E; [|reflexivity].
  apply search_from_sound in E as (pre & w & t & _ & Hm).
  apply header_inv in Hm as (t1 & R1 & [->|(t2 & R2 & ->)]).
  - exists t1. split; [assumption|]. split; [reflexivity|]. now left.
  - exists t1. split; [assumption|]. split; [reflexivity|]. right.
    exists t2. split; [assumption|]. split; [reflexivity|].
    destruct R2 as [N2 _]. destruct t2; [congruence|reflexivity].
Qed.

Lemma run_stops_space t s : run not_space t -> stops is_space (t ++ s).
Proof.
  intros [N A]. destruct t as [|a t]; [congruence|]. simpl in *.
  apply andb_true_iff in A as [A _]. unfold not_space in A.
  now apply negb_true_iff in A.
Qed.

Lemma run_stops_not_space t s : run is_space t -> stops not_space (t ++ s).
Proof.
  intros [N A]. destruct t as [|a t]; [congruence|]. simpl in *.
  apply andb_true_iff in A as [A _]. unfold not_space. now rewrite A.
Qed.

Lemma stops_no_close rest : stops not_space rest -> prefix ")" rest = false.
Proof.
  destruct rest as [|a rest]; [reflexivity|]. cbn [prefix stops]. intros H.
  destruct (ascii_dec ")" a) as [<-|]; [|reflexivity].
  vm_compute in H. discriminate.
Qed.

Section GiveBack.
Context {R : Type}.

Lemma plus_give_back c w a t i g
    (k : nat -> string -> groups -> option R) x :
  run c w -> c a = true -> stops c t ->
  k (i + length w + 1)%nat t g = None ->
  k (i + length w)%nat (String a t) g = Some x ->
  rmatch (Plus c) i (w ++ String a t) g k = Some x.
Proof.
  intros [N A] Ha Ht Hn Hk. destruct w as [|b w]; [congruence|].
  simpl in *. apply andb_true_iff in A as [-> A].
  apply many_give_back; auto.
  - now rewrite Nat.add_succ_comm.
  - now rewrite Nat.add_succ_comm.
Qed.

End GiveBack.

(** [PING <token1> (<token2>)]: both groups are captured. *)
Lemma header_host_and_ip ws t1 ws2 t2 rest :
  run is_space ws -> run not_space t1 -> run is_space ws2 ->
  run not_space t2 -> stops not_space rest ->
  search Pat.header ("PING" ++ ws ++ t1 ++ ws2 ++ "(" ++ t2 ++ ")" ++ rest)
  = Some [(2, t2); (1, t1)].
Proof.
  intros Rw R1 Rw2 R2 Hrest.
  assert (E : rmatch Pat.header 0
                ("PING" ++ ws ++ t1 ++ ws2 ++ "(" ++ t2 ++ ")" ++ rest)
                [] (fun _ _ g => Some g) = Some [(2, t2); (1, t1)]).
  { unfold Pat.header.
    rewrite rmatch_seq, (lit_match "PING"), rmatch_seq.
    apply plus_greedy; [assumption|now apply run_stops_space|]. cbv beta.
    rewrite rmatch_seq, rmatch_grp.
    apply plus_greedy; [assumption|now apply run_stops_not_space|]. cbv beta.
    rewrite rmatch_opt, rmatch_seq.
    rewrite (plus_greedy is_space ws2 _ _ _ _ [(2, t2); (1, t1)]);
      [reflexivity|assumption|reflexivity|]. cbv beta.
    rewrite rmatch_seq, (lit_match "("), rmatch_seq, rmatch_grp.
    change (")" ++ rest) with (String ")" rest).
    apply plus_give_back; [assumption|reflexivity|assumption| |].
    - simpl. now rewrite stops_no_close.
    - change (String ")" rest) with (")" ++ rest). rewrite (lit_match ")").
      f_equal. f_equal.
      + f_equal. apply take_prefix. lia.
      + f_equal. f_equal. apply take_prefix. lia. }
  unfold search, search_from.
  destruct ("PING" ++ ws ++ t1 ++ ws2 ++ "(" ++ t2 ++ ")" ++ rest);
    now rewrite E.
Qed.

Lemma lstrip_run p w t : all p w = true -> lstrip p (w ++ t) = lstrip p t.
Proof.
  induction w as [|a w IH]; simpl; [reflexivity|].
  intros H. apply andb_true_iff in H as [-> H]. auto.
Qed.

Lemma lstrip_open t :
  prefix "(" t = true -> prefix "(" (lstrip is_space t) = true.
Proof.
  destruct t as [|b t]; [discriminate|]. intros H.
  assert (b = "("%char) as ->.
  { cbn [prefix] in H. destruct (ascii_dec "(" b); [congruence|discriminate]. }
  exact H.
Qed.

(** [PING <token1>] followed by something else than a parenthesis. *)
Lemma header_ip_only ws t1 tail :
  run is_space ws -> run not_space t1 -> stops not_space tail ->
  prefix "(" (lstrip is_space tail) = false ->
  search Pat.header ("PING" ++ ws ++ t1 ++ tail) = Some [(1, t1)].
Proof.
  intros Rw R1 Htail Hp.
  assert (E : rmatch Pat.header 0 ("PING" ++ ws ++ t1 ++ tail)
                [] (fun _ _ g => Some g) = Some [(1, t1)]).
  { unfold Pat.header.
    rewrite rmatch_seq, (lit_match "PING"), rmatch_seq.
    apply plus_greedy; [assumption|now apply run_stops_space|]. cbv beta.
    rewrite rmatch_seq, rmatch_grp.
    apply plus_greedy; [assumption|assumption|]. cbv beta.
    rewrite rmatch_opt, rmatch_seq.
    assert (N : forall i (g : groups) (k : nat -> string -> groups -> option groups),
      rmatch (Plus is_space) i tail g
        (fun j t g' =>
           rmatch (Lit "(" :+: Grp 2 (Plus not_space) :+: Lit ")")%re
             j t g' k) = None).
    { intros i g k. simpl. destruct tail as [|a tail]; [reflexivity|].
      destruct (is_space a) eqn:Ha; [|reflexivity].
      apply many_fail. intros j w t -> Hw.
      destruct (prefix "(" t) eqn:Hpt; [|reflexivity].
      exfalso. cbn [lstrip] in Hp. rewrite Ha in Hp.
      rewrite lstrip_run in Hp by assumption.
      apply lstrip_open in Hpt. congruence. }
    rewrite N. f_equal. f_equal. f_equal. apply take_prefix. lia. }
  unfold search, search_from.
  destruct ("PING" ++ ws ++ t1 ++ tail); now rewrite E.
Qed.

End HeaderFacts.

(** ** The header anywhere on the line *)

Module LeftmostFacts.
Import Str Re ReSem ReFacts MatchFacts PatFacts HeaderFacts Analysis Spec.

(** No [)] at hand while the run after token2 is given back. *)
Lemma contains_char_cons c a s :
  contains (String c "") (String a s)
  = Ascii.eqb c a || contains (String c "") s.
Proof.
  cbn [contains prefix].
  destruct (ascii_dec c a) as [->|N].
  - rewrite Ascii.eqb_refl. now destruct s.
  - apply Ascii.eqb_neq in N. now rewrite N.
Qed.

Lemma suffix_no_close w0 : forall r t t0,
  r ++ t = w0 ++ t0 -> all not_space w0 = true ->
  contains ")" r = false -> stops not_space t ->
  prefix ")" t0 = false.
Proof.
  induction w0 as [|b w0 IH]; intros r t t0 E Hw Hr Ht.
  - cbn [append] in E. subst t0. destruct r as [|a r].
    + now apply stops_no_close.
    + rewrite contains_char_cons in Hr. apply orb_false_iff in Hr as [Ha _].
      cbn [append prefix]. destruct (ascii_dec ")" a) as [<-|]; [|reflexivity].
      discriminate.
  - cbn [all] in Hw. apply andb_true_iff in Hw as [Hb Hw].
    destruct r as [|a r].
    + cbn [append] in E. subst t. cbn [append stops] in Ht. congruence.
    + cbn [append] in E. injection E as -> E.
      rewrite contains_char_cons in Hr. apply orb_false_iff in Hr as [_ Hr].
      now apply (IH r t t0).
Qed.

Section Any.
Context {R : Type}.

(** A run the continuation accepts further on is crossed. *)
Lemma many_prefix c w : forall rest i (k : nat -> string -> option R) x,
  all c w = true ->
  many c (i + length w)%nat rest k = Some x ->
  many c i (w ++ rest) k = Some x.
Proof.
  induction w as [|b w IH]; intros rest i k x Hw H; simpl in *.
  - now rewrite Nat.add_0_r in H.
  - apply andb_true_iff in Hw as [-> Hw].
    rewrite (IH rest (S i) k x); auto. now rewrite Nat.add_succ_comm.
Qed.

(** A run of which the continuation needs back the character [a] and
    all that follows it. *)
Lemma plus_give_back_run c w a r t i g
    (k : nat -> string -> groups -> option R) x :
  run c w -> c a = true ->
  (forall j w0 t0, r ++ t = w0 ++ t0 -> all c w0 = true -> k j t0 g = None) ->
  k (i + length w)%nat (String a (r ++ t)) g = Some x ->
  rmatch (Plus c) i (w ++ String a (r ++ t)) g k = Some x.
Proof.
  intros [N A] Ha Hf Hk. destruct w as [|b w]; [congruence|].
  cbn [all] in A. apply andb_true_iff in A as [Hb A].
  replace (i + length (String b w))%nat with (S i + length w)%nat in Hk
    by (cbn [length]; lia).
  cbn [append rmatch]. rewrite Hb.
  apply many_prefix; [assumption|]. cbn [many]. rewrite Ha.
  rewrite many_fail; [exact Hk|].
  intros j w0 t0 E Hw0. now apply (Hf j w0 t0).
Qed.

(** Where the pattern cannot begin, it does not match. *)
Lemma header_here_false s :
  header_here s = false ->
  forall i g (k : nat -> string -> groups -> option R),
    rmatch Pat.header i s g k = None.
Proof.
  intros H i g k. unfold Pat.header. rewrite rmatch_seq.
  unfold header_here in H.
  destruct (prefix "PING" s) eqn:P.
  - cbn [andb] in H. apply prefix_split in P. rewrite P.
    rewrite (lit_match "PING"). rewrite P in H.
    rewrite (drop_append "PING") in H.
    destruct (drop (length "PING") s) as [|a r]; [reflexivity|].
    rewrite rmatch_seq.
    change (rmatch (Plus is_space) ?j (String a r) ?g ?k)
      with (if is_space a then many is_space (S j) r (fun n t => k n t g)
            else None).
    destruct (is_space a) eqn:Ha; [|reflexivity].
    cbn [andb] in H. apply negb_false_iff in H.
    apply many_fail. intros j w t -> Hw.
    rewrite all_append in H. apply andb_true_iff in H as [_ Ht].
    rewrite rmatch_seq, rmatch_grp. cbn [rmatch].
    destruct t as [|b t]; [reflexivity|].
    cbn [all] in Ht. apply andb_true_iff in Ht as [Hb _].
    unfold not_space. now rewrite Hb.
  - cbn [rmatch]. now rewrite P.
Qed.

(** A run after every split of which the continuation fails. *)
Lemma plus_fail c s i g (k : nat -> string -> groups -> option R) :
  (forall j w t, s = w ++ t -> all c w = true -> k j t g = None) ->
  rmatch (Plus c) i s g k = None.
Proof.
  intros H. destruct s as [|a s]; [reflexivity|]. cbn [rmatch].
  destruct (c a) eqn:Ha; [|reflexivity].
  apply many_fail. intros j w t -> Hw.
  apply (H j (String a w) t); [reflexivity|]. cbn [all]. now rewrite Ha.
Qed.

(** No token in parentheses begins here. *)
Lemma paren_none t j g (k : nat -> string -> groups -> option R) :
  prefix "(" t = false
  \/ (exists run_ tail',
        t = "(" ++ run_ ++ tail'
        /\ all not_space run_ = true /\ stops not_space tail'
        /\ contains ")" (drop 1 run_) = false) ->
  rmatch (Lit "(" :+: Grp 2 (Plus not_space) :+: Lit ")")%re j t g k = None.
Proof.
  intros [H|(run_ & tail' & -> & Hr & Ht & Hc)].
  - rewrite rmatch_seq. cbn [rmatch]. now rewrite H.
  - rewrite rmatch_seq, (lit_match "("), rmatch_seq, rmatch_grp.
    destruct run_ as [|b run_].
    + cbn [append]. destruct tail' as [|c tail']; [reflexivity|].
      cbn [stops] in Ht. cbn [rmatch]. now rewrite Ht.
    + cbn [drop] in Hc. cbn [all] in Hr. apply andb_true_iff in Hr as [Hb Hr].
      cbn [append rmatch]. rewrite Hb.
      apply many_fail. intros j' w0 t0 E0 Hw0.
      now rewrite (suffix_no_close w0 run_ tail' t0).
Qed.

End Any.

(** The search goes past a prefix in which the pattern cannot begin. *)
Lemma search_skip pre s : forall i,
  no_header_in pre s = true ->
  search_from Pat.header i (pre ++ s)
  = search_from Pat.header (i + length pre)%nat s.
Proof.
  induction pre as [|a pre IH]; intros i H.
  - cbn [append length]. now rewrite Nat.add_0_r.
  - cbn [no_header_in] in H. apply andb_true_iff in H as [H1 H2].
    apply negb_true_iff in H1.
    change (String a pre ++ s) with (String a (pre ++ s)) in *.
    cbn [search_from]. rewrite (header_here_false _ H1).
    rewrite IH by assumption. cbn [length]. now rewrite Nat.add_succ_comm.
Qed.

Lemma search_here r i s g :
  rmatch r i s [] (fun _ _ g => Some g) = Some g ->
  search_from r i s = Some g.
Proof. intros E. destruct s; cbn [search_from]; now rewrite E. Qed.

(** The pattern begins nowhere: no match. *)
Lemma no_header_none l0 :
  no_header_in l0 "" = true -> search Pat.header l0 = None.
Proof.
  intros H. unfold search. rewrite <- (append_nil_r l0).
  rewrite search_skip by assumption. cbn [search_from].
  now rewrite (header_here_false "").
Qed.

(** [PING <token1> (<token2>)<more>], anywhere on the line: both groups
    are captured, token2 ending at the last [)] of its run. *)
Lemma header_both_at i ws t1 ws2 t2 r tail :
  run is_space ws -> run not_space t1 -> run is_space ws2 ->
  run not_space t2 -> all not_space r = true -> contains ")" r = false ->
  stops not_space tail ->
  rmatch Pat.header i
    ("PING" ++ ws ++ t1 ++ ws2 ++ "(" ++ t2 ++ ")" ++ r ++ tail)
    [] (fun _ _ g => Some g)
  = Some [(2, t2); (1, t1)].
Proof.
  intros Rw R1 Rw2 R2 Hr Hc Htail.
  unfold Pat.header.
  rewrite rmatch_seq, (lit_match "PING"), rmatch_seq.
  apply plus_greedy; [assumption|now apply run_stops_space|]. cbv beta.
  rewrite rmatch_seq, rmatch_grp.
  apply plus_greedy; [assumption|now apply run_stops_not_space|]. cbv beta.
  rewrite rmatch_opt, rmatch_seq.
  rewrite (plus_greedy is_space ws2 _ _ _ _ [(2, t2); (1, t1)]);
    [reflexivity|assumption|reflexivity|]. cbv beta.
  rewrite rmatch_seq, (lit_match "("), rmatch_seq, rmatch_grp.
  change (")" ++ r ++ tail) with (String ")" (r ++ tail)).
  apply plus_give_back_run; [assumption|reflexivity| |].
  - intros j w0 t0 E Hw0. cbn [rmatch].
    now rewrite (suffix_no_close w0 r tail t0).
  - change (String ")" (r ++ tail)) with (")" ++ r ++ tail).
    rewrite (lit_match ")").
    f_equal. f_equal.
    + f_equal. apply take_prefix. lia.
    + f_equal. f_equal. apply take_prefix. lia.
Qed.

(** [PING <token1>] followed by no token in parentheses, anywhere on
    the line. *)
Lemma header_one_at i ws t1 tail :
  run is_space ws -> run not_space t1 -> stops not_space tail ->
  no_paren_token tail ->
  rmatch Pat.header i ("PING" ++ ws ++ t1 ++ tail) [] (fun _ _ g => Some g)
  = Some [(1, t1)].
Proof.
  intros Rw R1 Htail Hp.
  unfold Pat.header.
  rewrite rmatch_seq, (lit_match "PING"), rmatch_seq.
  apply plus_greedy; [assumption|now apply run_stops_space|]. cbv beta.
  rewrite rmatch_seq, rmatch_grp.
  apply plus_greedy; [assumption|assumption|]. cbv beta.
  rewrite rmatch_opt, rmatch_seq.
  rewrite plus_fail.
  - f_equal. f_equal. f_equal. apply take_prefix. lia.
  - intros j w t E Hw. apply paren_none.
    unfold no_paren_token in Hp. rewrite E in Hp.
    rewrite lstrip_run in Hp by assumption.
    destruct (prefix "(" t) eqn:Hpt; [|now left].
    assert (Lt : lstrip is_space t = t).
    { destruct t as [|b t]; [reflexivity|]. cbn [prefix] in Hpt.
      destruct (ascii_dec "(" b) as [<-|]; [reflexivity|discriminate]. }
    rewrite Lt in Hp. destruct Hp as [Hp|Hp]; [congruence|now right].
Qed.

(** Splitting a text at the end of its first run. *)
Lemma lstrip_stops p s : stops p (lstrip p s).
Proof.
  induction s as [|a s IH]; [exact I|]. cbn [lstrip].
  destruct (p a) eqn:Pa; [exact IH|exact Pa].
Qed.

Lemma lstrip_length p s : (length (lstrip p s) <= length s)%nat.
Proof.
  induction s as [|a s IH]; [apply Nat.le_refl|]. cbn [lstrip].
  destruct (p a); cbn [length]; lia.
Qed.

Lemma span p s : exists w, s = w ++ lstrip p s /\ all p w = true.
Proof. apply lstrip_suffix. Qed.

(** The last occurrence of a character. *)
Lemma last_occurrence c s :
  contains (String c "") s = true ->
  exists m r, s = m ++ String c r /\ contains (String c "") r = false.
Proof.
  induction s as [|a s IH]; [discriminate|].
  rewrite contains_char_cons. intros H.
  destruct (contains (String c "") s) eqn:C.
  - destruct (IH eq_refl) as (m & r & -> & Hr).
    exists (String a m), r. split; [reflexivity|exact Hr].
  - rewrite orb_false_r in H. apply Ascii.eqb_eq in H. subst a.
    exists "", s. split; [reflexivity|exact C].
Qed.

(** Every text either has no place where the header pattern can begin,
    or splits at the first such place. *)
Lemma first_header s :
  no_header_in s "" = true
  \/ exists pre q,
       s = pre ++ q /\ no_header_in pre q = true /\ header_here q = true.
Proof.
  induction s as [|a s IH]; [now left|].
  destruct (header_here (String a s)) eqn:H.
  - right. exists "", (String a s). auto.
  - destruct IH as [IH|(pre & q & -> & N & Hq)].
    + left. cbn [no_header_in]. now rewrite append_nil_r, H, IH.
    + right. exists (String a pre), q. split; [reflexivity|].
      split; [|exact Hq]. cbn [no_header_in].
      change (String a pre ++ q) with (String a (pre ++ q)).
      now rewrite H, N.
Qed.

(** Where the header pattern can begin, the text reads [PING], white
    space, token1 and a rest. *)
Lemma header_here_split q :
  header_here q = true ->
  exists ws t1 tail,
    q = "PING" ++ ws ++ t1 ++ tail
    /\ run is_space ws /\ run not_space t1 /\ stops not_space tail.
Proof.
  unfold header_here. intros H. apply andb_true_iff in H as [P H].
  apply prefix_split in P. rewrite P in H |- *.
  rewrite (drop_append "PING") in H.
  destruct (drop (length "PING") q) as [|a r]; [discriminate|].
  apply andb_true_iff in H as [Ha Hr]. apply negb_true_iff in Hr.
  destruct (span is_space r) as (w & Er & Hw).
  destruct (span not_space (lstrip is_space r)) as (t1 & Et & Ht1).
  exists (String a w), t1, (lstrip not_space (lstrip is_space r)).
  split.
  - rewrite Er at 1. rewrite Et at 1. cbn [append].
    now rewrite ?append_assoc.
  - split; [split; [discriminate|cbn [all]; now rewrite Ha, Hw]|].
    split; [|apply lstrip_stops].
    split; [|exact Ht1]. intros ->. cbn [append] in Et.
    pose proof (lstrip_stops is_space r) as S.
    destruct (lstrip is_space r) as [|b u] eqn:L.
    + rewrite Er, append_nil_r in Hr. congruence.
    + cbn [stops] in S.
      assert (Nb : not_space b = true) by (unfold not_space; now rewrite S).
      cbn [lstrip] in Et. rewrite Nb in Et.
      pose proof (lstrip_length not_space u) as Len.
      rewrite <- Et in Len. cbn [length] in Len. lia.
Qed.

(** What follows token1 holds a token in parentheses, or none. *)
Lemma paren_token_cases tail :
  stops not_space tail ->
  no_paren_token tail
  \/ exists ws2 t2 r tail',
       tail = ws2 ++ "(" ++ t2 ++ ")" ++ r ++ tail'
       /\ run is_space ws2 /\ run not_space t2
       /\ all not_space r = true /\ contains ")" r = false
       /\ stops not_space tail'.
Proof.
  intros St. unfold no_paren_token.
  destruct (prefix "(" (lstrip is_space tail)) eqn:P; [|now left; left].
  apply prefix_split in P. cbn [length] in P.
  set (u := drop 1 (lstrip is_space tail)) in *.
  destruct (span not_space u) as (R0 & Eu & HR).
  destruct (span is_space tail) as (ws2 & Et & Hws).
  assert (Nws : ws2 <> "").
  { intros ->. cbn [append] in Et. rewrite <- Et in P.
    rewrite P in St. cbn [append stops] in St. discriminate. }
  destruct (contains ")" (drop 1 R0)) eqn:C.
  - right. destruct R0 as [|a R0]; [discriminate|]. cbn [drop] in C.
    apply last_occurrence in C as (m & r & -> & Hr).
    cbn [all] in HR. apply andb_true_iff in HR as [Ha HR].
    rewrite all_append in HR. apply andb_true_iff in HR as [Hm HR].
    cbn [all] in HR. apply andb_true_iff in HR as [_ HR].
    exists ws2, (String a m), r, (lstrip not_space u).
    split.
    + rewrite Et at 1. rewrite P. rewrite Eu at 1.
      cbn [append]. now rewrite !append_assoc.
    + split; [split; assumption|].
      split; [split; [discriminate|cbn [all]; now rewrite Ha, Hm]|].
      split; [exact HR|]. split; [exact Hr|apply lstrip_stops].
  - left. right. exists R0, (lstrip not_space u).
    split; [rewrite P at 1; now rewrite <- Eu|].
    split; [exact HR|]. split; [apply lstrip_stops|exact C].
Qed.

(** The three shapes of a first line. *)
Lemma header_two_search line t1 t2 :
  header_two line t1 t2 -> search Pat.header line = Some [(2, t2); (1, t1)].
Proof.
  intros (pre & ws & ws2 & more & tail & -> & N & Rw & R1 & Rw2 & R2
          & Hm & Hc & Ht).
  unfold search. rewrite search_skip by assumption.
  apply search_here. now apply header_both_at.
Qed.

Lemma header_one_search line t1 :
  header_one line t1 -> search Pat.header line = Some [(1, t1)].
Proof.
  intros (pre & ws & tail & -> & N & Rw & R1 & Ht & Hp).
  unfold search. rewrite search_skip by assumption.
  apply search_here. now apply header_one_at.
Qed.

Lemma header_shapes line :
  no_header_in line "" = true
  \/ (exists t1 t2, header_two line t1 t2)
  \/ (exists t1, header_one line t1).
Proof.
  destruct (first_header line) as [H|(pre & q & -> & N & Hq)]; [now left|].
  right. apply header_here_split in Hq as (ws & t1 & tail & -> & Rw & R1 & Ht).
  destruct (paren_token_cases tail Ht)
    as [Hp|(ws2 & t2 & more & tail' & -> & Rw2 & R2 & Hm & Hc & Ht')].
  - right. exists t1, pre, ws, tail. auto 10.
  - left. exists t1, t2, pre, ws, ws2, more, tail'. auto 12.
Qed.

End LeftmostFacts.

(** ** The loop over the lines and the result of the analysis *)

Module AnalysisFacts.
Import Str Re ReSem ReFacts MatchFacts PatFacts.
Import Py Exn Builtin Rnd NumFacts Analysis Spec.
Local Open Scope Z_scope.
Local Open Scope list_scope.

Lemma blank_no_probe line : blank line = true -> has_probe line = false.
Proof.
  intros B. unfold has_probe. destruct (contains _ _) eqn:E; [|reflexivity].
  apply contains_icmp_not_blank in E. congruence.
Qed.

Lemma blank_no_sample line : blank line = true -> sample_of line = None.
Proof.
  intros B. apply sample_of_is_sample.
  destruct (is_sample line) eqn:E; [|reflexivity].
  apply is_sample_has_probe in E. rewrite blank_no_probe in E; congruence.
Qed.

Lemma blank_no_stamp line : blank line = true -> stamp_of line = None.
Proof.
  intros B. unfold stamp_of.
  destruct (search Pat.ts_value line) as [g|] eqn:E; [|reflexivity].
  assert (H : bracketed line) by (apply ts_value_iff_bracketed; congruence).
  apply bracketed_not_blank in H. congruence.
Qed.

Lemma blank_not_sample line : blank line = true -> is_sample line = false.
Proof.
  intros B. destruct (is_sample line) eqn:S; [|reflexivity].
  apply (proj1 (sample_of_is_sample line)) in S as (n & t & S & _).
  rewrite blank_no_sample in S by assumption. discriminate.
Qed.

Lemma blank_not_overlong line : blank line = true -> overlong line = false.
Proof. intros B. unfold overlong. now rewrite blank_not_sample. Qed.

(** One line: the loop body raises [ValueError] when [int] refuses the
    sequence number of a sample line; otherwise it adds to the state what
    the specification says of the line. *)
Lemma scan_line_spec has_ts st line :
  if overlong line then scan_line has_ts st line = Raise "ValueError"
  else
    exists st', scan_line has_ts st line = Ok st'
      /\ seen st' = seen st + (if has_probe line then 1 else 0)
      /\ ping_times st' = ping_times st ++ map snd (keep (sample_of line))
      /\ sequences st' = sequences st ++ map fst (keep (sample_of line))
      /\ timestamps st'
         = timestamps st ++ (if has_ts then keep (stamp_of line) else []).
Proof.
  unfold scan_line. destruct (blank line) eqn:B.
  - rewrite blank_not_overlong by assumption.
    exists st. rewrite blank_no_probe, blank_no_sample, blank_no_stamp
      by assumption.
    simpl. rewrite !app_nil_r, Z.add_0_r.
    destruct has_ts; rewrite ?app_nil_r; auto.
  - fold (has_probe line).
    set (st1 := if has_probe line then _ else st).
    assert (S1 : seen st1 = seen st + (if has_probe line then 1 else 0)
                 /\ ping_times st1 = ping_times st
                 /\ sequences st1 = sequences st
                 /\ timestamps st1 = timestamps st).
    { unfold st1. destruct (has_probe line); simpl; repeat split; lia. }
    destruct S1 as (A1 & A2 & A3 & A4). clearbody st1.
    assert (S2 : exists st2,
      (if has_ts then
         match search Pat.ts_value line with
         | Some ts_match =>
             bind (float_group ts_match 1) (fun t =>
               Ok {| ping_times := ping_times st1;
                     timestamps := timestamps st1 ++ [t];
                     sequences := sequences st1; seen := seen st1 |})
         | None => Ok st1
         end
       else Ok st1) = Ok st2
      /\ seen st2 = seen st1 /\ ping_times st2 = ping_times st1
      /\ sequences st2 = sequences st1
      /\ timestamps st2
         = timestamps st1 ++ (if has_ts then keep (stamp_of line) else [])).
    { destruct has_ts.
      - destruct (search Pat.ts_value line) as [g|] eqn:E.
        + destruct (stamp_of_some _ _ E) as (x & -> & -> & _).
          eexists. split; [reflexivity|]. simpl. auto.
        + exists st1. unfold stamp_of. rewrite E. simpl.
          rewrite app_nil_r. auto.
      - exists st1. rewrite app_nil_r. auto. }
    destruct S2 as (st2 & -> & B1 & B2 & B3 & B4). cbn [bind].
    unfold overlong, is_sample, seq_text, sample_of.
    destruct (search Pat.icmp_seq line) as [sm|] eqn:E1.
    + destruct (search Pat.time line) as [tm|] eqn:E2.
      * destruct (search_seq_some _ _ E1) as (d & n & Gd & Dv & Ig).
        destruct (search_time_some _ _ E2) as (x & Fx & _ & Ft).
        cbn [opt_bind andb]. rewrite Gd, Ft, Ig, Fx. cbn [opt_bind].
        rewrite Dv.
        destruct (int_max_str_digits <? length d)%nat; cbv iota;
          [reflexivity|].
        eexists. split; [reflexivity|]. simpl.
        rewrite B1, B2, B3, B4, A1, A2, A3, A4. auto.
      * cbn [andb]. exists st2. simpl. rewrite !app_nil_r.
        rewrite B1, B2, B3, B4, A1, A2, A3, A4. auto.
    + cbn [andb]. exists st2. simpl. rewrite !app_nil_r.
      rewrite B1, B2, B3, B4, A1, A2, A3, A4. auto.
Qed.

Lemma raw_probe_counter_cons line lines :
  raw_probe_counter (line :: lines)
  = (if has_probe line then 1 else 0) + raw_probe_counter lines.
Proof.
  unfold raw_probe_counter. cbn [filter].
  destruct (has_probe line); cbn [List.length]; lia.
Qed.

(** The loop: it raises [ValueError] when [int] refuses the sequence
    number of some sample line; otherwise it ends with the raw probe
    counter, the samples and the timestamps of the specification. *)
Lemma scan_spec has_ts lines : forall st,
  if existsb overlong lines then scan has_ts st lines = Raise "ValueError"
  else
    exists st', scan has_ts st lines = Ok st'
      /\ seen st' = seen st + raw_probe_counter lines
      /\ ping_times st' = ping_times st ++ round_trips lines
      /\ sequences st' = sequences st ++ map fst (samples lines)
      /\ timestamps st'
         = timestamps st ++ (if has_ts then stamps lines else []).
Proof.
  induction lines as [|line lines IH]; intros st.
  - exists st. simpl. unfold raw_probe_counter, round_trips. simpl.
    rewrite !app_nil_r, Z.add_0_r. destruct has_ts; rewrite ?app_nil_r; auto.
  - pose proof (scan_line_spec has_ts st line) as L.
    cbn [existsb scan]. destruct (overlong line); cbn [orb].
    { now rewrite L. }
    destruct L as (st1 & E1 & A1 & A2 & A3 & A4).
    rewrite E1. cbn [bind]. specialize (IH st1).
    destruct (existsb overlong lines); [exact IH|].
    destruct IH as (st2 & E2 & B1 & B2 & B3 & B4).
    exists st2. rewrite E2.
    split; [reflexivity|].
    rewrite B1, B2, B3, B4, A1, A2, A3, A4, raw_probe_counter_cons.
    unfold round_trips, samples, stamps. cbn [flat_map].
    rewrite !map_app, <- !app_assoc.
    repeat split; try lia.
    destruct has_ts; reflexivity.
Qed.

Lemma round_trips_wf lines : Forall wf (round_trips lines).
Proof.
  unfold round_trips, samples.
  induction lines as [|line lines IH]; simpl; [constructor|].
  rewrite map_app. apply Forall_app. split; [|assumption].
  destruct (is_sample line) eqn:E.
  - apply sample_of_is_sample in E as (n & t & -> & W). simpl. now constructor.
  - apply sample_of_is_sample in E as ->. constructor.
Qed.

Lemma stamps_wf lines : Forall wf (stamps lines).
Proof.
  unfold stamps.
  induction lines as [|line lines IH]; simpl; [constructor|].
  apply Forall_app. split; [|assumption].
  unfold stamp_of. destruct (search Pat.ts_value line) as [g|] eqn:E.
  - destruct (stamp_of_some _ _ E) as (x & _ & S & W).
    unfold stamp_of in S. rewrite E in S. rewrite S. simpl. now constructor.
  - constructor.
Qed.

Lemma samples_length lines :
  Z.of_nat (List.length (round_trips lines)) = sample_count lines.
Proof.
  unfold round_trips, sample_count, samples.
  induction lines as [|line lines IH]; [reflexivity|].
  cbn [flat_map filter]. rewrite map_app, length_app.
  destruct (is_sample line) eqn:E.
  - apply sample_of_is_sample in E as (n & t & -> & _).
    cbn [keep map List.length]. lia.
  - apply sample_of_is_sample in E as ->. cbn [keep map List.length]. lia.
Qed.

Lemma sample_count_le lines : sample_count lines <= raw_probe_counter lines.
Proof.
  unfold sample_count, raw_probe_counter.
  induction lines as [|line lines IH]; [reflexivity|]. cbn [filter].
  destruct (is_sample line) eqn:E.
  - rewrite (is_sample_has_probe _ E). cbn [List.length]. lia.
  - destruct (has_probe line); cbn [List.length]; lia.
Qed.

(** The file-level flag, and the lines that carry a timestamp. *)
Lemma detect_timestamps_iff lines :
  detect_timestamps lines = true
  <-> exists line, In line lines /\ blank line = false /\ bracketed line.
Proof.
  unfold detect_timestamps. rewrite existsb_exists. split.
  - intros (line & Hin & H). apply filter_In in Hin as [Hin B].
    exists line. split; [assumption|].
    split; [now apply negb_true_iff in B|].
    apply ts_value_iff_bracketed. intros N.
    apply ts_prefix_iff_value in N. now rewrite N in H.
  - intros (line & Hin & B & H). exists line. split.
    + apply filter_In. split; [assumption|]. now rewrite B.
    + destruct (search Pat.ts_prefix line) eqn:E; [reflexivity|].
      apply ts_prefix_iff_value in E.
      apply ts_value_iff_bracketed in H. contradiction.
Qed.

Lemma stamps_nil_iff lines :
  stamps lines = [] <-> detect_timestamps lines = false.
Proof.
  split.
  - intros S. destruct (detect_timestamps lines) eqn:E; [|reflexivity].
    apply detect_timestamps_iff in E as (line & Hin & _ & H).
    apply ts_value_iff_bracketed in H.
    destruct (search Pat.ts_value line) as [g|] eqn:Eg; [|congruence].
    destruct (stamp_of_some _ _ Eg) as (x & _ & Sx & _).
    assert (In x (stamps lines)).
    { unfold stamps. apply in_flat_map. exists line. split; [assumption|].
      rewrite Sx. now left. }
    rewrite S in H0. contradiction.
  - intros E. unfold stamps.
    destruct (flat_map _ lines) as [|x l] eqn:F; [reflexivity|exfalso].
    assert (Hin : In x (flat_map (fun line => keep (stamp_of line)) lines))
      by (rewrite F; now left).
    apply in_flat_map in Hin as (line & Hin & Hx).
    assert (detect_timestamps lines = true); [|congruence].
    apply detect_timestamps_iff. exists line. split; [assumption|].
    assert (B : bracketed line).
    { apply ts_value_iff_bracketed. unfold stamp_of in Hx.
      destruct (search Pat.ts_value line); [discriminate|contradiction]. }
    split; [now apply bracketed_not_blank|assumption].
Qed.

End AnalysisFacts.

(** ** The result of an analysis *)

Module ResultFacts.
Import Str Re ReSem ReFacts PatFacts.
Import Py Exn Builtin Rnd RndFacts NumFacts Analysis Spec AnalysisFacts.
Local Open Scope Z_scope.
Local Open Scope list_scope.

Section Result.
Variable impl : sum_impl.
Variable datetime : Type.
Variable fromtimestamp : float -> exn datetime.

(** The analysis in the words of the specification.  It raises
    [ValueError] when [int] refuses the sequence number of a sample line;
    the only other step that can raise is the conversion of the extreme
    timestamps. *)
Lemma analyze_lines_spec lines :
  analyze_lines impl datetime fromtimestamp lines
  = if existsb overlong lines then Raise "ValueError"
    else
      bind (compute_time_range datetime fromtimestamp
              (if detect_timestamps lines then stamps lines else []))
        (fun range =>
           Ok {| target := extract_target lines;
                 stats := aggregate impl (round_trips lines)
                            (raw_probe_counter lines);
                 time_range := range;
                 has_timestamps := detect_timestamps lines |}).
Proof.
  unfold analyze_lines.
  pose proof (scan_spec (detect_timestamps lines) lines init) as S.
  destruct (existsb overlong lines).
  - now rewrite S.
  - destruct S as (st & -> & A1 & A2 & A3 & A4).
    cbn [bind]. rewrite A1, A2, A4. reflexivity.
Qed.

Lemma analyze_lines_no_overlong lines r :
  analyze_lines impl datetime fromtimestamp lines = Ok r ->
  existsb overlong lines = false.
Proof.
  rewrite analyze_lines_spec.
  now destruct (existsb overlong lines).
Qed.

Lemma analyze_lines_inv lines r :
  analyze_lines impl datetime fromtimestamp lines = Ok r ->
  target r = extract_target lines
  /\ stats r = aggregate impl (round_trips lines) (raw_probe_counter lines)
  /\ has_timestamps r = detect_timestamps lines
  /\ compute_time_range datetime fromtimestamp
       (if detect_timestamps lines then stamps lines else [])
     = Ok (time_range r).
Proof.
  rewrite analyze_lines_spec.
  destruct (existsb overlong lines); [discriminate|].
  destruct (compute_time_range _ _ _) as [range|e]; [|discriminate].
  cbn [bind]. intros [= <-]. auto.
Qed.

End Result.

Lemma raw_probe_counter_nonneg lines : 0 <= raw_probe_counter lines.
Proof. unfold raw_probe_counter. lia. Qed.

Lemma raw_probe_counter_zero lines :
  (forall line, In line lines -> has_probe line = false) ->
  raw_probe_counter lines = 0.
Proof.
  unfold raw_probe_counter.
  induction lines as [|line lines IH]; intros N; [reflexivity|]. cbn [filter].
  rewrite (N line (or_introl eq_refl)). apply IH.
  intros l Hl. apply N. now right.
Qed.

(** Lines 77-83 on the counters of the specification. *)
Lemma aggregate_loss impl lines :
  let raw := raw_probe_counter lines in
  let st := aggregate impl (round_trips lines) raw in
  total_pings st = raw
  /\ packet_loss st
     = if raw =? 0 then Int 0
       else Float (fmul (int_truediv (raw - sample_count lines) raw)
                     (float_of_int 100)).
Proof.
  intros raw st. subst st. unfold aggregate.
  cbn [total_pings packet_loss]. split; [reflexivity|].
  rewrite samples_length.
  pose proof (raw_probe_counter_nonneg lines) as P. fold raw in P.
  destruct (Z.eqb_spec raw 0) as [->|N]; [reflexivity|].
  now replace (0 <? raw) with true by (symmetry; apply Z.ltb_lt; lia).
Qed.

End ResultFacts.

(** ** The statistics *)

Module StatsFacts.
Import Py Builtin Rnd RndFacts NumFacts Analysis Spec.
Local Open Scope Z_scope.
Local Open Scope list_scope.

Lemma aggregate_nil impl total :
  let st := aggregate impl [] total in
  min_time st = Int 0 /\ max_time st = Int 0
  /\ avg_time st = Int 0 /\ mdev st = Int 0.
Proof. cbv zeta. unfold aggregate. cbn. auto. Qed.

Lemma aggregate_cons impl x l total :
  Forall wf (x :: l) ->
  let st := aggregate impl (x :: l) total in
  min_time st = Float (min_from x l)
  /\ is_minimum (min_from x l) (x :: l)
  /\ max_time st = Float (max_from x l)
  /\ is_maximum (max_from x l) (x :: l)
  /\ avg_time st = Float (mean impl (x :: l))
  /\ mdev st = Float (mean_abs_dev impl (mean impl (x :: l)) (x :: l)).
Proof.
  intros W. inversion W as [|? ? Wx Wl]; subst. cbv zeta.
  split; [reflexivity|]. split; [now apply min_from_spec|].
  split; [reflexivity|]. split; [now apply max_from_spec|].
  split; reflexivity.
Qed.

Lemma fadd_zero_l t : wf t -> fadd (float_of_int 0) t = t.
Proof.
  destruct t as [s|s| |s m e]; unfold wf; try (intros ->; reflexivity);
    [contradiction|reflexivity].
Qed.

Lemma sum_single impl t : wf t -> sum impl [t] = Float t.
Proof.
  intros W. unfold sum. rewrite (fadd_zero_l t W). now destruct impl.
Qed.

(** The mean of one sample is the sample. *)
Lemma mean_single impl t : wf t -> mean impl [t] = t.
Proof.
  intros W. unfold mean. rewrite sum_single by assumption.
  cbn [truediv_int List.length Z.of_nat]. now apply fdiv_one.
Qed.

End StatsFacts.

(** ** Discovery and orchestration *)

Module ToolFacts.
Import Str Py Exn Builtin Analysis Tool Orch.
Local Open Scope list_scope.

Lemma silent_nil : silent [].
Proof. intros t []. Qed.

Lemma silent_app a b : silent a -> silent b -> silent (a ++ b).
Proof. intros Ha Hb t H. apply in_app_or in H as [H|H]; [eapply Ha|eapply Hb]; eauto. Qed.

Lemma silent_stderr m : silent [Stderr m].
Proof. intros t [H|[]]. discriminate. Qed.

Lemma silent_app_inv a b : silent (a ++ b) -> silent a /\ silent b.
Proof.
  intros H. split; intros t Ht; apply (H t); apply in_or_app; auto.
Qed.

Create HintDb silent.
#[local] Hint Resolve silent_nil silent_app silent_stderr : silent.

Section Facts.
Variable impl : sum_impl.
Variable datetime : Type.
Variable fromtimestamp : float -> exn datetime.
Variable strftime : datetime -> string.
Variable w : World.

#[local] Abbreviation analyze_ping_file := (analyze_ping_file impl datetime fromtimestamp w).
#[local] Abbreviation analyze_each := (analyze_each impl datetime fromtimestamp w).
#[local] Abbreviation usable := (usable impl datetime fromtimestamp w).
#[local] Abbreviation collect := (collect impl datetime fromtimestamp w).
#[local] Abbreviation raises := (raises impl datetime fromtimestamp w).
#[local] Abbreviation main := (main impl datetime fromtimestamp strftime w).

Lemma is_ping_file_silent f : silent (fst (is_ping_file w f)).
Proof.
  unfold is_ping_file. destruct (sniff w f); simpl; auto with silent.
  apply silent_stderr.
Qed.

Lemma ping_files_spec keep matched :
  snd (ping_files w keep matched)
  = filter (fun f => keep f && pingy w f) matched
  /\ silent (fst (ping_files w keep matched)).
Proof.
  induction matched as [|f rest [IH1 IH2]]; simpl; [auto with silent|].
  unfold pingy. pose proof (is_ping_file_silent f) as Hs.
  destruct (ping_files w keep rest) as [o2 l]. simpl in IH1, IH2. subst l.
  destruct (keep f); simpl.
  - destruct (is_ping_file w f) as [o1 b]. simpl in *.
    split; [now destruct b|auto with silent].
  - split; [reflexivity|exact IH2].
Qed.

Lemma gather_spec recursive mk patterns : forall files,
  snd (gather w recursive mk patterns files)
  = files ++ flat_map
               (fun pattern => filter (pingy w) (glob w recursive (mk pattern)))
               patterns
  /\ silent (fst (gather w recursive mk patterns files)).
Proof.
  induction patterns as [|p rest IH]; intros files; simpl.
  - rewrite app_nil_r. auto with silent.
  - destruct (ping_files_spec (fun _ => true) (glob w recursive (mk p)))
      as [E1 S1].
    destruct (ping_files w (fun _ => true) (glob w recursive (mk p)))
      as [o1 found].
    simpl in E1, S1. destruct (IH (files ++ found)) as [E2 S2].
    destruct (gather w recursive mk rest (files ++ found)) as [o2 files'].
    simpl in *. subst. rewrite <- app_assoc. auto with silent.
Qed.

(** No candidate is dropped or merged: an argument appends what it
    matched to what the earlier arguments found. *)
Lemma discover_arg_spec files arg :
  snd (discover_arg w files arg) = files ++ accepted w arg
  /\ silent (fst (discover_arg w files arg)).
Proof.
  unfold discover_arg, accepted. destruct (isdir w arg).
  - destruct (gather_spec true
                (fun pattern => path_join (path_join arg "**") pattern)
                log_patterns files) as [E S].
    destruct (gather w true _ log_patterns files) as [o files'].
    simpl in E, S. destruct files'; simpl; auto with silent.
  - destruct (glob w false arg) as [|f rest] eqn:G.
    + simpl. rewrite app_nil_r. auto with silent.
    + destruct (ping_files_spec is_log_name (f :: rest)) as [E S].
      destruct (ping_files w is_log_name (f :: rest)) as [o found].
      simpl in E, S. simpl fst. simpl snd. rewrite E. auto.
Qed.

Lemma discover_args_spec args : forall files,
  snd (discover_args w files args) = files ++ flat_map (accepted w) args
  /\ silent (fst (discover_args w files args)).
Proof.
  induction args as [|arg rest IH]; intros files; simpl.
  - rewrite app_nil_r. auto with silent.
  - destruct (discover_arg_spec files arg) as [E1 S1].
    destruct (discover_arg w files arg) as [o1 files1]. simpl in E1, S1.
    destruct (IH files1) as [E2 S2].
    destruct (discover_args w files1 rest) as [o2 files2]. simpl in *.
    subst. rewrite <- app_assoc. auto with silent.
Qed.

Lemma discover_silent argv : silent (fst (discover w argv)).
Proof.
  unfold discover. destruct (1 <? List.length argv)%nat.
  - apply discover_args_spec.
  - apply gather_spec.
Qed.

Lemma analyze_ping_file_silent f : silent (fst (analyze_ping_file f)).
Proof.
  unfold Tool.analyze_ping_file. destruct (readlines w f); simpl.
  - apply silent_stderr.
  - apply silent_nil.
Qed.

Lemma analyze_each_silent files : forall results,
  silent (fst (analyze_each files results)).
Proof.
  induction files as [|f rest IH]; intros results; simpl; [apply silent_nil|].
  pose proof (analyze_ping_file_silent f) as S1.
  destruct (analyze_ping_file f) as [o1 [result|e]]; simpl in *; [|assumption].
  specialize (IH (match result with
                  | Some data => dict_set f data results
                  | None => results
                  end)).
  destruct (analyze_each rest _) as [o2 x]. simpl in *. auto with silent.
Qed.

(** The loop when no analysis raises. *)
Lemma analyze_each_ok files : forall results,
  (forall f, In f files -> ~ raises f) ->
  snd (analyze_each files results) = Ok (collect files results).
Proof.
  induction files as [|f rest IH]; intros results H; simpl; [reflexivity|].
  assert (Hf : ~ raises f) by (apply H; now left).
  unfold Orch.usable. unfold Orch.raises in Hf.
  destruct (analyze_ping_file f) as [o1 [result|e]] eqn:E; simpl in *.
  - specialize (IH (match result with
                    | Some data => dict_set f data results
                    | None => results
                    end) (fun g Hg => H g (or_intror Hg))).
    destruct (analyze_each rest _) as [o2 x]. simpl in *. rewrite IH.
    now destruct result.
  - exfalso. apply Hf. now exists e.
Qed.

(** The loop when some analysis raises. *)
Lemma analyze_each_raise files : forall results,
  (exists e, snd (analyze_each files results) = Raise e)
  <-> exists f, In f files /\ raises f.
Proof.
  induction files as [|f rest IH]; intros results; simpl.
  - split; [intros [e H]; discriminate|intros (f & [] & _)].
  - unfold Orch.raises at 1.
    destruct (analyze_ping_file f) as [o1 [result|e]] eqn:E; simpl.
    + specialize (IH (match result with
                      | Some data => dict_set f data results
                      | None => results
                      end)).
      destruct (analyze_each rest _) as [o2 x]. simpl in *.
      rewrite IH. split.
      * intros (g & Hg & R). exists g. auto.
      * intros (g & [<-|Hg] & R).
        -- destruct R as [e R]. unfold Tool.analyze_ping_file in *.
           rewrite E in R. discriminate.
        -- exists g. auto.
    + split; [intros _|intros _; now exists e].
      exists f. split; [now left|]. exists e.
      unfold Tool.analyze_ping_file in *. now rewrite E.
Qed.

End Facts.
End ToolFacts.

(** ** The dictionary of results and the report *)

Module ReportFacts.
Import Str Py Exn Builtin Analysis Tool Orch Spec ReFacts.
Local Open Scope list_scope.

Lemma mem_app x a b : mem x (a ++ b) = mem x a || mem x b.
Proof. apply existsb_app. Qed.

Lemma dict_set_keys {V : Type} k (v : V) d :
  map fst (dict_set k v d)
  = if mem k (map fst d) then map fst d else map fst d ++ [k].
Proof.
  induction d as [|[k' v'] d IH]; [reflexivity|].
  cbn [dict_set map fst mem existsb]. fold (mem k (map fst d)).
  destruct (String.eqb_spec k' k) as [->|N].
  - now rewrite String.eqb_refl.
  - assert (String.eqb k k' = false) as -> by (apply String.eqb_neq; congruence).
    cbn [map fst orb]. rewrite IH. now destruct (mem k (map fst d)).
Qed.

Lemma dict_set_not_nil {V : Type} k (v : V) d : dict_set k v d <> [].
Proof. destruct d as [|[k' v'] d]; simpl; [|destruct (_ =? _)%string]; discriminate. Qed.

Lemma dedup_ext s1 s2 l :
  (forall x, mem x s1 = mem x s2) -> dedup s1 l = dedup s2 l.
Proof.
  revert s1 s2. induction l as [|x l IH]; intros s1 s2 H; simpl; [reflexivity|].
  rewrite (H x).
  destruct (mem x s2); [now apply IH|]. f_equal. apply IH.
  intros y. unfold mem. simpl. fold (mem y s1). fold (mem y s2). now rewrite H.
Qed.

Section Report.
Variable impl : sum_impl.
Variable datetime : Type.
Variable fromtimestamp : float -> exn datetime.
Variable strftime : datetime -> string.
Variable w : World.

#[local] Abbreviation usable := (usable impl datetime fromtimestamp w).
#[local] Abbreviation is_usable := (is_usable impl datetime fromtimestamp w).
#[local] Abbreviation collect := (collect impl datetime fromtimestamp w).

(** The keys of [results]: every analysed file once, at the place of its
    first occurrence. *)
Lemma collect_keys files : forall results,
  map fst (collect files results)
  = map fst results ++ dedup (map fst results) (filter is_usable files).
Proof.
  induction files as [|f rest IH]; intros results; simpl.
  - now rewrite app_nil_r.
  - unfold Orch.is_usable at 1. destruct (usable f) as [r|] eqn:U.
    + rewrite IH, dict_set_keys. simpl.
      destruct (mem f (map fst results)) eqn:M; [reflexivity|].
      rewrite <- app_assoc. simpl. f_equal. f_equal.
      apply dedup_ext. intros x. rewrite mem_app. unfold mem. simpl.
      now rewrite orb_false_r, orb_comm.
    + apply IH.
Qed.

Lemma collect_nil files : forall results,
  collect files results = []
  <-> results = [] /\ forall f, In f files -> usable f = None.
Proof.
  induction files as [|f rest IH]; intros results; simpl.
  - split; [intros ->; split; [reflexivity|intros f []]|tauto].
  - rewrite IH. destruct (usable f) as [r|] eqn:U.
    + split.
      * intros [H _]. now apply dict_set_not_nil in H.
      * intros [_ H]. specialize (H f (or_introl eq_refl)). congruence.
    + split.
      * intros [-> H]. split; [reflexivity|]. intros g [<-|Hg]; auto.
      * intros [-> H]. auto.
Qed.

Lemma is_heading_heading f : is_heading (heading f) = true.
Proof. apply prefix_append. Qed.

Lemma render_entry_headings f data :
  filter is_heading (render_entry datetime strftime f data) = [heading f].
Proof.
  unfold render_entry. rewrite !filter_app.
  assert (H1 : filter is_heading
                 [("## Ping Analysis: " ++ basename f)%string; ""%string]
               = [heading f]).
  { cbn [filter]. fold (heading f). rewrite is_heading_heading. reflexivity. }
  rewrite H1.
  assert (H2 : forall x y : string,
             filter is_heading
               [if truthy (hostname (target data))
                then ("**Host:** " ++ x)%string
                else ("**Host:** " ++ y)%string; ""%string] = []).
  { intros x y. destruct (truthy _); reflexivity. }
  rewrite H2.
  destruct (time_range data) as [[a b]|]; reflexivity.
Qed.

Lemma headings_spec results :
  headings datetime strftime results = map (fun kv => heading (fst kv)) results.
Proof.
  unfold headings, markdown_lines.
  induction results as [|[f data] rest IH]; [reflexivity|].
  cbn [flat_map map fst snd].
  rewrite filter_app, render_entry_headings, IH. reflexivity.
Qed.

End Report.
End ReportFacts.

(** ** Text: case folding, concatenation and the header sniff *)

Module TextFacts.
Import Str Re ReSem ReFacts PatFacts Analysis Tool Orch Extra.
Local Open Scope list_scope.
Local Open Scope string_scope.

Lemma lower_append a b : lower (a ++ b) = lower a ++ lower b.
Proof. induction a as [|x a IH]; simpl; [reflexivity|now rewrite IH]. Qed.

Lemma contains_append_l sub a b :
  contains sub a = true -> contains sub (a ++ b) = true.
Proof.
  intros H. apply contains_elim in H as (pre & t & ->).
  rewrite !append_assoc. apply contains_intro.
Qed.

Lemma contains_append_r sub a b :
  contains sub b = true -> contains sub (a ++ b) = true.
Proof.
  intros H. apply contains_elim in H as (pre & t & ->).
  rewrite <- append_assoc. apply contains_intro.
Qed.

Lemma concat_cons x xs : String.concat "" (x :: xs) = x ++ String.concat "" xs.
Proof. destruct xs; simpl; [now rewrite append_nil_r|reflexivity]. Qed.

(** A line that mentions the word makes the text of the lines mention
    it. *)
Lemma mentions_concat word l ls :
  In l ls -> mentions word l = true ->
  mentions word (String.concat "" ls) = true.
Proof.
  unfold mentions. induction ls as [|x xs IH]; [intros []|].
  intros [E|I] M; rewrite concat_cons, lower_append.
  - subst x. now apply contains_append_l.
  - apply contains_append_r. now apply IH.
Qed.

Lemma take_drop n s : take n s ++ drop n s = s.
Proof.
  revert s. induction n as [|n IH]; intros [|a s]; simpl; try reflexivity.
  now rewrite IH.
Qed.

Lemma endswith_split s suf : endswith s suf = true -> exists p, s = p ++ suf.
Proof.
  unfold endswith. intros H. apply andb_true_iff in H as [_ H].
  apply String.eqb_eq in H.
  exists (take (length s - length suf) s).
  pose proof (take_drop (length s - length suf) s) as E.
  rewrite H in E. now symmetry.
Qed.

(** A word without the character [c] does not begin across it. *)
Lemma prefix_cut c sub : forall a b,
  all (fun x => negb (Ascii.eqb x c)) sub = true ->
  prefix sub (a ++ String c b) = prefix sub a.
Proof.
  induction sub as [|s0 sub IH]; intros a b H.
  - now destruct a.
  - simpl in H. apply andb_true_iff in H as [H0 H].
    apply negb_true_iff, Ascii.eqb_neq in H0.
    destruct a as [|x a]; simpl.
    + destruct (ascii_dec s0 c); [contradiction|reflexivity].
    + destruct (ascii_dec s0 x); [now apply IH|reflexivity].
Qed.

Lemma contains_cut c sub a b :
  sub <> "" -> all (fun x => negb (Ascii.eqb x c)) sub = true ->
  contains sub (a ++ String c b) = contains sub a || contains sub b.
Proof.
  intros N H. induction a as [|x a IH].
  - destruct sub as [|s0 sub]; [contradiction|].
    simpl in H. apply andb_true_iff in H as [H0 _].
    apply negb_true_iff, Ascii.eqb_neq in H0.
    cbn [append contains prefix].
    destruct (ascii_dec s0 c); [contradiction|reflexivity].
  - change (String x a ++ String c b) with (String x (a ++ String c b)).
    cbn [contains].
    change (String x (a ++ String c b)) with (String x a ++ String c b).
    rewrite prefix_cut by assumption. rewrite IH.
    now rewrite orb_assoc.
Qed.

Lemma lower_newline b :
  lower (String "010" b) = String "010" (lower b).
Proof. reflexivity. Qed.

(** When every line but the last ends with a newline, a word without a
    newline that the text of the lines mentions is mentioned by one of
    them. *)
Lemma mentions_concat_inv word ls :
  word <> "" ->
  all (fun x => negb (Ascii.eqb x "010")) word = true ->
  Forall (fun l => terminated l = true) (removelast ls) ->
  mentions word (String.concat "" ls) = true ->
  exists l, In l ls /\ mentions word l = true.
Proof.
  intros N W. unfold mentions.
  induction ls as [|x xs IH]; intros T H.
  - destruct word; [contradiction|discriminate].
  - destruct xs as [|y xs'].
    + exists x. split; [now left|exact H].
    + rewrite concat_cons in H.
      change (removelast (x :: y :: xs')) with (x :: removelast (y :: xs'))
        in T.
      inversion T as [|? ? Tx Txs]; subst.
      apply endswith_split in Tx as [p ->].
      rewrite append_assoc, lower_append in H.
      change ((String "010" "" ++ String.concat "" (y :: xs')))
        with (String "010" (String.concat "" (y :: xs'))) in H.
      rewrite lower_newline, contains_cut in H by assumption.
      apply orb_true_iff in H as [H|H].
      * exists (p ++ String "010" ""). split; [now left|].
        rewrite lower_append. now apply contains_append_l.
      * destruct (IH Txs H) as (l & I & M). exists l. split; [now right|exact M].
Qed.

(** A line the header pattern matches contains [PING]. *)
Lemma header_contains l0 g :
  search Pat.header l0 = Some g -> contains "PING" l0 = true.
Proof.
  intros H. apply search_from_sound in H as (pre & w & t & -> & M).
  unfold Pat.header in M. inv M.
  match goal with H : matches (Lit _) _ _ _ _ |- _ => inv H end.
  rewrite append_assoc. apply contains_intro.
Qed.

Lemma lower_PING s : contains "PING" s = true -> mentions "ping" s = true.
Proof.
  intros H. apply contains_elim in H as (pre & t & ->).
  unfold mentions. rewrite !lower_append. apply contains_intro.
Qed.

Lemma pingy_sniff w f :
  pingy w f = true <->
  exists head, sniff w f = inr head
    /\ mentions "ping" (String.concat "" (firstn 10 head)) = true.
Proof.
  unfold pingy, is_ping_file, mentions. destruct (sniff w f) as [e|head].
  - split; [discriminate|]. now intros (h & [=] & _).
  - cbn [snd]. split.
    + intros H. now exists head.
    + now intros (h & [= <-] & H).
Qed.

End TextFacts.

(** ** What discovery and the analyses print, and which files they keep *)

Module DiscoveryFacts.
Import Str Py Exn Builtin Analysis Tool Orch Extra ToolFacts ReportFacts
  TextFacts.
Local Open Scope list_scope.

Lemma read_errors_app readf a b :
  read_errors readf (a ++ b) = read_errors readf a ++ read_errors readf b.
Proof. apply flat_map_app. Qed.

Lemma is_ping_file_out w f :
  fst (is_ping_file w f) = read_errors (sniff w) [f].
Proof.
  unfold is_ping_file, read_errors. cbn [flat_map].
  destruct (sniff w f); reflexivity.
Qed.

(** The comprehension prints one message per file it could not open
    among those it tried. *)
Lemma ping_files_out w keep matched :
  fst (ping_files w keep matched) = read_errors (sniff w) (filter keep matched).
Proof.
  induction matched as [|f rest IH]; [reflexivity|].
  cbn [ping_files filter].
  destruct (ping_files w keep rest) as [o2 l]. cbn [fst] in IH.
  destruct (keep f).
  - pose proof (is_ping_file_out w f) as E.
    destruct (is_ping_file w f) as [o1 b]. cbn [fst] in *.
    change (f :: filter keep rest) with ([f] ++ filter keep rest).
    now rewrite read_errors_app, E, IH.
  - cbn [fst]. now rewrite IH.
Qed.

Lemma accepted_pingy w arg f : In f (accepted w arg) -> pingy w f = true.
Proof.
  unfold accepted. destruct (isdir w arg).
  - intros H. apply in_flat_map in H as (p & _ & H).
    now apply filter_In in H as [_ H].
  - intros H. apply filter_In in H as [_ H].
    now apply andb_true_iff in H as [_ H].
Qed.

(** Where a candidate comes from. *)
Lemma discover_origin w argv f :
  In f (snd (discover w argv)) ->
  if (1 <? List.length argv)%nat
  then exists arg, In arg (tl argv) /\ In f (accepted w arg)
  else exists pattern,
         In pattern log_patterns
         /\ In f (filter (pingy w) (glob w false pattern)).
Proof.
  unfold discover. destruct (1 <? List.length argv)%nat.
  - destruct (discover_args_spec w (tl argv) []) as [-> _]. cbn [app].
    intros H. apply in_flat_map in H as (arg & A & H). eauto.
  - destruct (gather_spec w false (fun p => p) log_patterns []) as [-> _].
    cbn [app]. intros H. apply in_flat_map in H as (p & A & H). eauto.
Qed.

Lemma discover_pingy w argv f :
  In f (snd (discover w argv)) -> pingy w f = true.
Proof.
  intros H. apply discover_origin in H.
  destruct (1 <? List.length argv)%nat.
  - destruct H as (arg & _ & H). now apply accepted_pingy in H.
  - destruct H as (p & _ & H). now apply filter_In in H as [_ H].
Qed.

Section Facts.
Variable impl : sum_impl.
Variable datetime : Type.
Variable fromtimestamp : float -> exn datetime.
Variable strftime : datetime -> string.
Variable w : World.

#[local] Abbreviation analyze_ping_file :=
  (analyze_ping_file impl datetime fromtimestamp w).
#[local] Abbreviation analyze_each :=
  (analyze_each impl datetime fromtimestamp w).
#[local] Abbreviation usable := (usable impl datetime fromtimestamp w).
#[local] Abbreviation collect := (collect impl datetime fromtimestamp w).
#[local] Abbreviation raises := (raises impl datetime fromtimestamp w).

Lemma analyze_ping_file_out f :
  fst (analyze_ping_file f) = read_errors (readlines w) [f].
Proof.
  unfold Tool.analyze_ping_file, read_errors. cbn [flat_map].
  destruct (readlines w f); reflexivity.
Qed.

(** The loop of [main] prints one message per unreadable candidate, in
    order, when no analysis raises. *)
Lemma analyze_each_out files : forall results,
  (forall f, In f files -> ~ raises f) ->
  fst (analyze_each files results) = read_errors (readlines w) files.
Proof.
  induction files as [|f rest IH]; intros results N; [reflexivity|].
  cbn [Tool.analyze_each].
  pose proof (analyze_ping_file_out f) as E.
  assert (Nf : ~ raises f) by (apply N; now left).
  unfold Orch.raises in Nf.
  destruct (analyze_ping_file f) as [o1 r]. cbn [fst snd] in *.
  destruct r as [result|e]; [|exfalso; apply Nf; now exists e].
  specialize (IH (match result with
                  | Some data => dict_set f data results
                  | None => results
                  end) (fun g H => N g (or_intror H))).
  destruct (analyze_each rest _) as [o2 x]. cbn [fst] in *.
  change (f :: rest) with ([f] ++ rest).
  now rewrite read_errors_app, E, IH.
Qed.

(** A file that can be read is analysed: the analysis gives a result or
    raises. *)
Lemma readable_usable f lines :
  readlines w f = inr lines -> usable f <> None \/ raises f.
Proof.
  intros R. unfold Orch.usable, Orch.raises, Tool.analyze_ping_file.
  rewrite R. cbn [snd].
  destruct (analyze_lines impl datetime fromtimestamp lines) as [r|e];
    cbn [bind]; [left; discriminate|right; now exists e].
Qed.

Lemma unreadable_unusable f e :
  readlines w f = inl e -> usable f = None /\ ~ raises f.
Proof.
  intros R. unfold Orch.usable, Orch.raises, Tool.analyze_ping_file.
  rewrite R. cbn [snd]. split; [reflexivity|]. now intros [x H].
Qed.

End Facts.
End DiscoveryFacts.

(** ** Edge values: exact quotients, cancelling differences, one decimal *)

Module EdgeFacts.
Import Str Py Exn Builtin Rnd RndFacts NumFacts Analysis Spec StatsFacts.
Local Open Scope Z_scope.




(** [t - t] is 0.0 for a finite [t]. *)
Lemma fsub_self t : wf t -> is_finite t = true -> fsub t t = fzero.
Proof.
  destruct t as [s|s| |s m e]; try discriminate.
  - unfold wf. intros -> _. reflexivity.
  - intros _ _. unfold fsub, SFsub. cbv zeta.
    now rewrite Z.sub_diag.
Qed.

Lemma mean_zero impl : mean impl [fzero] = fzero.
Proof. apply mean_single. reflexivity. Qed.

Lemma mean_nan impl : mean impl [S754_nan] = S754_nan.
Proof. destruct impl; reflexivity. Qed.

(** One decimal. *)
Lemma tenths_nonneg m e : 0 <= tenths m e.
Proof.
  unfold tenths. destruct e as [|p|p].
  - lia.
  - pose proof (pow2_pos (Zpos p) ltac:(lia)). nia.
  - pose proof (pow2_pos (Zpos p) ltac:(lia)) as P.
    set (d := 2 ^ Zpos p) in *.
    assert (0 <= 10 * Zpos m / d) by (apply Z.div_pos; lia).
    destruct (2 * ((10 * Zpos m) mod d) ?= d); [destruct (Z.even _)| |]; lia.
Qed.

Lemma pow_pos_Z p : Zpos (2 ^ p) = 2 ^ Zpos p.
Proof. apply Pos2Z.inj_pow. Qed.

(** The digits shown are the value times ten, rounded to nearest. *)
Lemma tenths_round m e :
  (Qabs (10 * value (S754_finite false m e) - inject_Z (tenths m e))
   <= 1 # 2)%Q.
Proof.
  apply Qabs_Qle_condition.
  unfold value, tenths. destruct e as [|p|p].
  - unfold Qle, Qminus, Qplus, Qmult, Qopp, inject_Z. cbn [Qnum Qden].
    rewrite Z.pow_0_r. lia.
  - unfold Qle, Qminus, Qplus, Qmult, Qopp, inject_Z. cbn [Qnum Qden].
    lia.
  - pose proof (pow2_pos (Zpos p) ltac:(lia)) as P.
    pose proof (Z.div_mod (10 * Zpos m) (2 ^ Zpos p) ltac:(lia)) as DM.
    pose proof (Z.mod_pos_bound (10 * Zpos m) (2 ^ Zpos p) P) as RB.
    set (d := 2 ^ Zpos p) in *.
    set (q := 10 * Zpos m / d) in *. set (r := (10 * Zpos m) mod d) in *.
    assert (T : exists t, (match 2 * r ?= d with
                           | Eq => if Z.even q then q else q + 1
                           | Lt => q
                           | Gt => q + 1
                           end) = t
                          /\ - d <= 2 * (10 * Zpos m - t * d) <= d).
    { destruct (Z.compare_spec (2 * r) d) as [C|C|C].
      - destruct (Z.even q); eexists; (split; [reflexivity|]); nia.
      - eexists; (split; [reflexivity|]); nia.
      - eexists; (split; [reflexivity|]); nia. }
    destruct T as (t & -> & T).
    unfold Qle, Qminus, Qplus, Qmult, Qopp, inject_Z. cbn [Qnum Qden].
    rewrite ?Pos.mul_1_r, ?Pos.mul_1_l, ?pow_pos_Z. fold d. nia.
Qed.


Lemma format_finite m e :
  format_1f_float (S754_finite false m e)
  = (string_of_int (tenths m e / 10) ++ "."
       ++ string_of_int (tenths m e mod 10))%string.
Proof. reflexivity. Qed.

(** A finite float that is not negative is shown as an integer part, a
    dot and one digit: its value times ten rounded to nearest, ties to
    even. *)
Lemma format_1f_rounds x :
  wf x -> is_finite x = true ->
  exists t, 0 <= t
    /\ format_1f_float x
       = (string_of_int (t / 10) ++ "." ++ string_of_int (t mod 10))%string
    /\ (Qabs (10 * value x - inject_Z t) <= 1 # 2)%Q.
Proof.
  destruct x as [s|s| |s m e]; try discriminate; unfold wf.
  - intros -> _. exists 0. split; [lia|]. split; [reflexivity|].
    vm_compute. discriminate.
  - intros (-> & _) _. exists (tenths m e).
    split; [apply tenths_nonneg|]. split; [apply format_finite|].
    apply tenths_round.
Qed.

End EdgeFacts.

(** ** Blank lines *)

Module BlankFacts.
Import Str Re Py Exn Builtin Rnd Analysis Spec Extra ReFacts PatFacts
  AnalysisFacts TextFacts.
Local Open Scope Z_scope.
Local Open Scope list_scope.

Lemma non_blank_samples lines : samples (non_blank lines) = samples lines.
Proof.
  induction lines as [|l rest IH]; [reflexivity|].
  unfold non_blank in *. cbn [filter].
  destruct (blank l) eqn:B; cbn [negb samples flat_map].
  - fold (samples rest). rewrite blank_no_sample by assumption.
    cbn [keep app]. exact IH.
  - fold (samples (filter (fun line => negb (blank line)) rest)).
    fold (samples rest). now rewrite IH.
Qed.

Lemma non_blank_round_trips lines :
  round_trips (non_blank lines) = round_trips lines.
Proof. unfold round_trips. now rewrite non_blank_samples. Qed.

Lemma non_blank_stamps lines : stamps (non_blank lines) = stamps lines.
Proof.
  induction lines as [|l rest IH]; [reflexivity|].
  unfold non_blank in *. cbn [filter].
  destruct (blank l) eqn:B; cbn [negb stamps flat_map].
  - fold (stamps rest). rewrite blank_no_stamp by assumption.
    cbn [keep app]. exact IH.
  - fold (stamps (filter (fun line => negb (blank line)) rest)).
    fold (stamps rest). now rewrite IH.
Qed.

Lemma non_blank_probes lines :
  raw_probe_counter (non_blank lines) = raw_probe_counter lines.
Proof.
  induction lines as [|l rest IH]; [reflexivity|].
  unfold non_blank in *. cbn [filter].
  destruct (blank l) eqn:B; cbn [negb].
  - rewrite raw_probe_counter_cons, blank_no_probe by assumption. lia.
  - now rewrite !raw_probe_counter_cons, IH.
Qed.

Lemma non_blank_idem lines : non_blank (non_blank lines) = non_blank lines.
Proof.
  unfold non_blank. induction lines as [|l rest IH]; [reflexivity|].
  cbn [filter]. destruct (blank l) eqn:B; cbn [negb filter]; [exact IH|].
  rewrite B. cbn [negb]. now rewrite IH.
Qed.

Lemma non_blank_detect lines :
  detect_timestamps (non_blank lines) = detect_timestamps lines.
Proof.
  unfold detect_timestamps. fold (non_blank (non_blank lines)).
  fold (non_blank lines). now rewrite non_blank_idem.
Qed.

Lemma non_blank_overlong lines :
  existsb overlong (non_blank lines) = existsb overlong lines.
Proof.
  unfold non_blank. induction lines as [|l rest IH]; [reflexivity|].
  cbn [filter existsb]. destruct (blank l) eqn:B; cbn [negb existsb].
  - now rewrite blank_not_overlong, IH.
  - now rewrite IH.
Qed.

(** A blank line, and any line without [PING], has no header. *)
Lemma no_keyword_no_header l0 :
  contains "PING" l0 = false -> search Pat.header l0 = None.
Proof.
  intros H. destruct (search Pat.header l0) as [g|] eqn:S; [|reflexivity].
  apply header_contains in S. congruence.
Qed.

Lemma blank_no_keyword l0 : blank l0 = true -> contains "PING" l0 = false.
Proof.
  intros B. destruct (contains "PING" l0) eqn:C; [|reflexivity].
  apply contains_elim in C as (pre & t & ->).
  change ("PING" ++ t)%string with (String "P" ("ING" ++ t)%string) in B.
  rewrite not_blank_intro in B by reflexivity.
  discriminate.
Qed.

End BlankFacts.

(** ** Decimal text in, decimal text out *)

Module DecimalFacts.
Import Str Re ReSem Py Exn Builtin Rnd Analysis Spec Extra.
Import ReFacts RndFacts NumFacts PatFacts EdgeFacts.
Local Open Scope Z_scope.

















End DecimalFacts.

(** ** The lines of a section *)

Module SectionFacts.
Import Str Re ReSem Py Exn Builtin Analysis Tool Orch Extra.
Import ReFacts HeaderFacts.
Local Open Scope list_scope.

Section Render.
Variable datetime : Type.
Variable strftime : datetime -> string.

Lemma render_entry_time_range f (data : Result datetime) :
  filter is_time_range_line (render_entry datetime strftime f data)
  = match time_range data with
    | Some (start_time, end_time) =>
        [("**Time Range:** " ++ strftime start_time
          ++ " to " ++ strftime end_time)%string]
    | None => []
    end.
Proof.
  unfold render_entry. rewrite !filter_app.
  assert (H2 : forall x y : string,
             filter is_time_range_line
               [if truthy (hostname (target data))
                then ("**Host:** " ++ x)%string
                else ("**Host:** " ++ y)%string; ""%string] = []).
  { intros x y. destruct (truthy _); reflexivity. }
  rewrite H2.
  destruct (time_range data) as [[a b]|]; [|reflexivity].
  assert (H3 : forall x : string,
             filter is_time_range_line
               [("**Time Range:** " ++ x)%string; ""%string]
             = [("**Time Range:** " ++ x)%string]).
  { intros x. cbn [filter]. unfold is_time_range_line at 1.
    now rewrite prefix_append. }
  rewrite H3. reflexivity.
Qed.

Lemma render_entry_length f (data : Result datetime) :
  List.length (render_entry datetime strftime f data)
  = match time_range data with
    | Some _ => 16%nat
    | None => 14%nat
    end.
Proof.
  unfold render_entry. rewrite !length_app.
  destruct (time_range data) as [[a b]|]; reflexivity.
Qed.

Lemma render_entry_host f (data : Result datetime) :
  nth 2 (render_entry datetime strftime f data) ""%string
  = if truthy (hostname (target data))
    then ("**Host:** " ++ str_of (hostname (target data))
          ++ " (" ++ str_of (ip (target data)) ++ ")")%string
    else ("**Host:** " ++ str_of (ip (target data)))%string.
Proof. reflexivity. Qed.

End Render.

(** The target of an analysis: the IP is always a string, the hostname
    is absent or not empty. *)
Lemma extract_target_shape lines :
  exists i,
    ip (extract_target lines) = Some i
    /\ (hostname (extract_target lines) = None
        \/ exists h,
             hostname (extract_target lines) = Some h /\ run not_space h).
Proof.
  destruct lines as [|l0 rest].
  - exists "Unknown"%string. split; [reflexivity|now left].
  - pose proof (extract_target_cases l0 rest) as C.
    destruct (search Pat.header l0) as [g|].
    + destruct C as (t1 & R1 & _ & [[_ ->]|(t2 & _ & _ & ->)]).
      * exists t1. split; [reflexivity|now left].
      * exists (strip is_paren t2). split; [reflexivity|]. right.
        exists t1. split; [reflexivity|exact R1].
    + rewrite C. exists "Unknown"%string. split; [reflexivity|now left].
Qed.

End SectionFacts.

(** ** The sum and the mean of two floats *)

Module PairFacts.
Import Py Builtin Rnd RndFacts Spec NumFacts StatsFacts.
Local Open Scope Z_scope.

(** *** The position of a shifted significand *)












(** *** Rounding an integer quotient *)







(** *** Rounding a magnitude *)









Lemma round_zero s : round s 0 = S754_zero s.
Proof. reflexivity. Qed.

(** *** Floats as integers *)


















(** *** Magnitudes that rounding keeps *)












(** *** Exact results *)








(** *** The order, on magnitudes *)





(** *** The sum of two floats *)











(** *** Halving *)




(** *** The mean of two floats *)








End PairFacts.

(** * The claims *)

Module Properties.
Import Str Re ReSem ReFacts MatchFacts PatFacts HeaderFacts LeftmostFacts.
Import Py Exn Builtin Rnd RndFacts NumFacts PairFacts.
Import Analysis Spec AnalysisFacts ResultFacts StatsFacts.
Import Tool Orch ToolFacts ReportFacts Examples.
Local Open Scope Z_scope.
Local Open Scope list_scope.

(** C1, as stated, fails: [a.txt] named by two arguments is kept as two
    candidates, and the report has a single section for it. *)
Lemma duplicate_candidate_one_section :
  snd (discover world ["ping-tool.py"; "a.txt"; "a.txt"]%string)
  = ["a.txt"; "a.txt"]%string
  /\ ~ one_section_per_occurrence Naive float finite_only show world
         ["ping-tool.py"; "a.txt"; "a.txt"]%string.
Proof.
  split; [reflexivity|]. intros H.
  specialize (H [("a.txt"%string, example_result float)]).
  assert (E : Ok [("a.txt"%string, example_result float)]
              = Ok [("a.txt"%string, example_result float)]) by reflexivity.
  revert H. vm_compute. intros H. specialize (H E). discriminate.
Qed.

(** C1 (amended): every occurrence of a file among the matches of the
    arguments is kept in the candidate list; the report has one section
    per distinct analysed file, in the order of the first occurrences. *)
Theorem report_sections impl datetime fromtimestamp strftime w argv results :
  let files := snd (discover w argv) in
  snd (analyze_each impl datetime fromtimestamp w files []) = Ok results ->
  files = (if (1 <? List.length argv)%nat
           then flat_map (accepted w) (tl argv)
           else flat_map
                  (fun pattern => filter (pingy w) (glob w false pattern))
                  log_patterns)
  /\ map fst results
     = dedup [] (filter (is_usable impl datetime fromtimestamp w) files)
  /\ headings datetime strftime results
     = map heading
         (dedup [] (filter (is_usable impl datetime fromtimestamp w) files)).
Proof.
  intros files H.
  assert (F : files = (if (1 <? List.length argv)%nat
                       then flat_map (accepted w) (tl argv)
                       else flat_map
                              (fun pattern =>
                                 filter (pingy w) (glob w false pattern))
                              log_patterns)).
  { unfold files, discover. destruct (1 <? List.length argv)%nat.
    - now destruct (discover_args_spec w (tl argv) []) as [-> _].
    - now destruct (gather_spec w false (fun p => p) log_patterns [])
        as [-> _]. }
  split; [exact F|].
  assert (N : forall f, In f files -> ~ raises impl datetime fromtimestamp w f).
  { intros f Hf R.
    assert (X : exists e,
               snd (analyze_each impl datetime fromtimestamp w files [])
               = Raise e).
    { apply analyze_each_raise. now exists f. }
    destruct X as [e X]. congruence. }
  rewrite analyze_each_ok in H by assumption. injection H as <-.
  assert (K : map fst (collect impl datetime fromtimestamp w files [])
              = dedup [] (filter (is_usable impl datetime fromtimestamp w)
                            files))
    by apply collect_keys.
  split; [exact K|].
  rewrite headings_spec, <- K, map_map. reflexivity.
Qed.

Lemma report_sections_witness :
  ["a.txt"; "a.txt"]%string
  = flat_map (accepted world) ["a.txt"; "a.txt"]%string
  /\ map fst [("a.txt"%string, example_result float)]
     = dedup [] (filter (is_usable Naive float finite_only world)
                   ["a.txt"; "a.txt"]%string)
  /\ headings float show [("a.txt"%string, example_result float)]
     = map heading
         (dedup [] (filter (is_usable Naive float finite_only world)
                      ["a.txt"; "a.txt"]%string)).
Proof.
  apply (report_sections Naive float finite_only show world
           ["ping-tool.py"; "a.txt"; "a.txt"]%string
           [("a.txt"%string, example_result float)]).
  vm_compute. reflexivity.
Defined.

(** C2: the code at the failing input.  [empty] is a directory that
    yields no candidate; named after [a.txt] it draws no warning, named
    first it draws one. *)
Lemma empty_directory_warning :
  isdir world "empty" = true
  /\ accepted world "empty" = []
  /\ discover world ["ping-tool.py"; "a.txt"; "empty"]%string
     = ([], ["a.txt"%string])
  /\ discover world ["ping-tool.py"; "empty"; "a.txt"]%string
     = ([Stderr "Warning: No ping files found in directory 'empty'"],
        ["a.txt"%string]).
Proof. repeat split; vm_compute; reflexivity. Qed.

(** C3: the packet-loss percentage is the [int] 0 when the raw probe
    counter is 0, and [(raw - samples) / raw * 100] otherwise, where the
    raw probe counter counts the lines containing [icmp_seq=] and the
    sample count the lines on which both a sequence number and a time
    value are found. *)
Theorem packet_loss_formula impl datetime fromtimestamp lines r :
  analyze_lines impl datetime fromtimestamp lines = Ok r ->
  let raw := raw_probe_counter lines in
  let n := sample_count lines in
  total_pings (stats r) = raw
  /\ packet_loss (stats r)
     = if raw =? 0 then Int 0
       else Float (fmul (int_truediv (raw - n) raw) (float_of_int 100)).
Proof.
  intros H raw n. apply analyze_lines_inv in H as (_ & -> & _).
  apply aggregate_loss.
Qed.

Lemma packet_loss_formula_witness :
  total_pings (stats (example_result unit)) = raw_probe_counter example_lines
  /\ packet_loss (stats (example_result unit))
     = if raw_probe_counter example_lines =? 0 then Int 0
       else Float (fmul (int_truediv
                           (raw_probe_counter example_lines
                            - sample_count example_lines)
                           (raw_probe_counter example_lines))
                     (float_of_int 100)).
Proof.
  apply (packet_loss_formula Naive unit (fun _ => Raise "unused")
           example_lines (example_result unit)).
  vm_compute. reflexivity.
Defined.

(** C4: a line that yields a sample also counts as a probe, so the sample
    count never exceeds the raw probe counter; the packet-loss percentage
    is exactly the [int] 0 when [totalProbes] is 0 and, when it is
    positive, a finite float of the closed interval [0, 100], both in the
    order of the floats and as a rational number. *)
Theorem packet_loss_range impl datetime fromtimestamp lines r :
  analyze_lines impl datetime fromtimestamp lines = Ok r ->
  (forall line, is_sample line = true -> has_probe line = true)
  /\ sample_count lines <= raw_probe_counter lines
  /\ (total_pings (stats r) = 0 -> packet_loss (stats r) = Int 0)
  /\ (0 < total_pings (stats r) ->
      exists p, packet_loss (stats r) = Float p
        /\ fleb fzero p = true /\ fleb p (float_of_int 100) = true
        /\ is_finite p = true /\ (0 <= value p <= 100)%Q).
Proof.
  intros H. apply analyze_lines_inv in H as (_ & -> & _).
  pose proof (aggregate_loss impl lines) as [T L]. cbv zeta in T, L.
  split; [exact is_sample_has_probe|].
  pose proof (sample_count_le lines) as Hle.
  split; [exact Hle|]. rewrite T, L.
  assert (0 <= sample_count lines) by (unfold sample_count; lia).
  split.
  - intros ->. reflexivity.
  - intros Hpos.
    replace (raw_probe_counter lines =? 0) with false
      by (symmetry; apply Z.eqb_neq; lia).
    eexists. split; [reflexivity|]. apply loss_bounds; lia.
Qed.

Lemma packet_loss_range_witness :
  (forall line, is_sample line = true -> has_probe line = true)
  /\ sample_count stamped_lines <= raw_probe_counter stamped_lines
  /\ (total_pings (stats stamped_result) = 0 ->
      packet_loss (stats stamped_result) = Int 0)
  /\ (0 < total_pings (stats stamped_result) ->
      exists p, packet_loss (stats stamped_result) = Float p
        /\ fleb fzero p = true /\ fleb p (float_of_int 100) = true
        /\ is_finite p = true /\ (0 <= value p <= 100)%Q).
Proof.
  apply (packet_loss_range Naive float finite_only stamped_lines
           stamped_result).
  vm_compute. reflexivity.
Defined.


(** C5: without sample the minimum, the maximum, the average and the
    mean deviation are the [int] 0; otherwise they are a least and a
    greatest round-trip time, the arithmetic mean of the round-trip
    times, and the mean of the absolute deviations from that mean. *)
Theorem latency_statistics impl datetime fromtimestamp lines r :
  analyze_lines impl datetime fromtimestamp lines = Ok r ->
  let times := round_trips lines in
  (times = [] ->
   min_time (stats r) = Int 0 /\ max_time (stats r) = Int 0
   /\ avg_time (stats r) = Int 0 /\ mdev (stats r) = Int 0)
  /\ (times <> [] ->
      exists lo hi,
        min_time (stats r) = Float lo /\ is_minimum lo times
        /\ max_time (stats r) = Float hi /\ is_maximum hi times
        /\ avg_time (stats r) = Float (mean impl times)
        /\ mdev (stats r)
           = Float (mean_abs_dev impl (mean impl times) times)).
Proof.
  intros H times. apply analyze_lines_inv in H as (_ & -> & _).
  pose proof (round_trips_wf lines) as W. fold times in W |- *.
  destruct times as [|x l].
  - split; [intros _; apply aggregate_nil|congruence].
  - split; [discriminate|intros _].
    destruct (aggregate_cons impl x l (raw_probe_counter lines) W)
      as (A & B & C & D & E & F).
    exists (min_from x l), (max_from x l). auto 10.
Qed.

Lemma latency_statistics_witness :
  let times := round_trips stamped_lines in
  (times = [] ->
   min_time (stats stamped_result) = Int 0
   /\ max_time (stats stamped_result) = Int 0
   /\ avg_time (stats stamped_result) = Int 0
   /\ mdev (stats stamped_result) = Int 0)
  /\ (times <> [] ->
      exists lo hi,
        min_time (stats stamped_result) = Float lo /\ is_minimum lo times
        /\ max_time (stats stamped_result) = Float hi /\ is_maximum hi times
        /\ avg_time (stats stamped_result) = Float (mean Naive times)
        /\ mdev (stats stamped_result)
           = Float (mean_abs_dev Naive (mean Naive times) times)).
Proof.
  apply (latency_statistics Naive float finite_only stamped_lines
           stamped_result).
  vm_compute. reflexivity.
Defined.




(** Two samples of 9e307 ms: both finite, the average infinite. *)
Lemma mean_infinite :
  analyze_lines Naive float finite_only overflow_lines = Ok overflow_result
  /\ analyze_lines Compensated float finite_only overflow_lines
     = Ok overflow_result
  /\ max_time (stats overflow_result)
     = Float (S754_finite false 4509378810020189 971)
  /\ avg_time (stats overflow_result) = Float (S754_infinity false).
Proof. repeat split; vm_compute; reflexivity. Qed.

(** C7: the target comes from the first line alone, by the pattern
    [PING <token1> [(<token2>)]] at the first place of the line where it
    can match: with a second token in parentheses, token1 is the hostname
    and token2, stripped of parentheses, the IP; with none, token1 is the
    IP and there is no hostname; where the pattern matches nowhere the IP
    is "Unknown"; every first line is of one of these three kinds; the
    two lines of the example give the expected target, sample and
    statistics. *)
Theorem target_identity impl datetime fromtimestamp :
  (forall l0 rest rest' r r',
     analyze_lines impl datetime fromtimestamp (l0 :: rest) = Ok r ->
     analyze_lines impl datetime fromtimestamp (l0 :: rest') = Ok r' ->
     target r = target r')
  /\ (forall l0 t1 t2 rest r,
        header_two l0 t1 t2 ->
        analyze_lines impl datetime fromtimestamp (l0 :: rest) = Ok r ->
        target r = {| ip := Some (strip is_paren t2);
                      hostname := Some t1 |})
  /\ (forall l0 t1 rest r,
        header_one l0 t1 ->
        analyze_lines impl datetime fromtimestamp (l0 :: rest) = Ok r ->
        target r = {| ip := Some t1; hostname := None |})
  /\ (forall l0 rest r,
        no_header_in l0 "" = true ->
        analyze_lines impl datetime fromtimestamp (l0 :: rest) = Ok r ->
        target r = {| ip := Some "Unknown"%string; hostname := None |})
  /\ (forall l0,
        no_header_in l0 "" = true
        \/ (exists t1 t2, header_two l0 t1 t2)
        \/ (exists t1, header_one l0 t1))
  /\ analyze_lines impl datetime fromtimestamp example_lines
     = Ok (example_result datetime)
  /\ samples example_lines = [(1, f11_2)].
Proof.
  split; [|split; [|split; [|split; [|split; [|split]]]]].
  - intros l0 rest rest' r r' H H'.
    apply analyze_lines_inv in H as (-> & _).
    apply analyze_lines_inv in H' as (-> & _). reflexivity.
  - intros l0 t1 t2 rest r H2 H.
    apply analyze_lines_inv in H as (-> & _).
    unfold extract_target.
    rewrite (header_two_search l0 t1 t2 H2). cbn [group Nat.eqb truthy].
    destruct H2 as (_ & _ & _ & _ & _ & _ & _ & _ & _ & _ & [N2 _] & _).
    destruct t2; [congruence|reflexivity].
  - intros l0 t1 rest r H1 H.
    apply analyze_lines_inv in H as (-> & _).
    unfold extract_target.
    now rewrite (header_one_search l0 t1 H1).
  - intros l0 rest r Hs H. apply analyze_lines_inv in H as (-> & _).
    unfold extract_target. now rewrite no_header_none.
  - apply header_shapes.
  - destruct impl; vm_compute; reflexivity.
  - vm_compute. reflexivity.
Qed.

Lemma target_identity_witness :
  target bsd_result
  = {| ip := Some (strip is_paren "142.250.80.46");
       hostname := Some "google.com"%string |}
  /\ target numeric_result
     = {| ip := Some "192.168.1.1"%string; hostname := None |}.
Proof.
  split.
  - apply (proj1 (proj2 (target_identity Naive float finite_only))
             "[1700000000.1] PING google.com (142.250.80.46): 56 data bytes"%string
             "google.com"%string "142.250.80.46"%string
             ["64 bytes from 142.250.80.46: icmp_seq=0 ttl=117 time=11.2 ms"%string]
             bsd_result).
    + exists "[1700000000.1] "%string, " "%string, " "%string, ":"%string,
        " 56 data bytes"%string.
      repeat split; try discriminate; reflexivity.
    + vm_compute. reflexivity.
  - apply (proj1 (proj2 (proj2 (target_identity Naive float finite_only)))
             "$ ping 192.168.1.1: PING 192.168.1.1 56(84) bytes of data."%string
             "192.168.1.1"%string
             ["64 bytes from 192.168.1.1: icmp_seq=1 ttl=64 time=0.4 ms"%string]
             numeric_result).
    + exists "$ ping 192.168.1.1: "%string, " "%string,
        " 56(84) bytes of data."%string.
      repeat split; try discriminate; try reflexivity.
      left. reflexivity.
    + vm_compute. reflexivity.
Defined.

(** C8: the analysis of a file without any line does not fail; it gives
    the IP "Unknown" and no hostname, every statistic zero, no time range
    and no timestamps. *)
Theorem empty_file impl datetime fromtimestamp w filename :
  analyze_lines impl datetime fromtimestamp [] = Ok (empty_result datetime)
  /\ (readlines w filename = inr [] ->
      analyze_ping_file impl datetime fromtimestamp w filename
      = ([], Ok (Some (empty_result datetime)))).
Proof.
  split; [reflexivity|].
  intros H. unfold analyze_ping_file. now rewrite H.
Qed.

Lemma empty_file_witness :
  analyze_ping_file Naive unit (fun _ => Raise "unused") empty_files "a.txt"
  = ([], Ok (Some (empty_result unit))).
Proof.
  apply (proj2 (empty_file Naive unit (fun _ => Raise "unused")
                  empty_files "a.txt")).
  reflexivity.
Defined.

(** C9, as stated, fails: [a.txt] is a candidate with a usable analysis,
    the timestamp of [huge.txt] makes [datetime.fromtimestamp] raise, and
    the process ends with status 1 and no report. *)
Lemma uncaught_exception_exit_status :
  process ["ping-tool.py"; "a.txt"; "huge.txt"]%string
  = ([], Uncaught "OverflowError")
  /\ usable Naive float finite_only world "a.txt"
     = Some (example_result float)
  /\ ~ exit_one_iff_no_result Naive float finite_only show world
         ["ping-tool.py"; "a.txt"; "huge.txt"]%string.
Proof.
  split; [vm_compute; reflexivity|]. split; [vm_compute; reflexivity|].
  unfold exit_one_iff_no_result.
  change (main Naive float finite_only show world
            ["ping-tool.py"; "a.txt"; "huge.txt"]%string)
    with (process ["ping-tool.py"; "a.txt"; "huge.txt"]%string).
  assert (P : process ["ping-tool.py"; "a.txt"; "huge.txt"]%string
              = ([], Uncaught "OverflowError")) by (vm_compute; reflexivity).
  rewrite P.
  assert (D : snd (discover world ["ping-tool.py"; "a.txt"; "huge.txt"]%string)
              = ["a.txt"; "huge.txt"]%string) by reflexivity.
  rewrite D. intros [[H _] _].
  destruct (H eq_refl) as [X|X]; [discriminate|].
  specialize (X "a.txt"%string (or_introl eq_refl)).
  vm_compute in X. discriminate.
Qed.

(** C9 (amended): a run that does not end normally writes nothing to
    standard output.  When no analysis raises, the exit status is 1
    exactly when there is no candidate or no candidate has a usable
    analysis, the last message on the error stream is then the fatal
    diagnostic; otherwise the process ends normally with status 0 and the
    report is its only output on standard output. *)
Theorem exit_status_fatal_conditions
    impl datetime fromtimestamp strftime w argv :
  let files := snd (discover w argv) in
  let o := fst (main impl datetime fromtimestamp strftime w argv) in
  let oc := snd (main impl datetime fromtimestamp strftime w argv) in
  (oc <> Finished -> silent o)
  /\ ((forall f, In f files -> ~ raises impl datetime fromtimestamp w f) ->
      (exit_status oc = 1
       <-> files = []
           \/ (forall f, In f files ->
               usable impl datetime fromtimestamp w f = None))
      /\ (exit_status oc = 1 ->
          silent o
          /\ exists o' msg,
               o = o' ++ [Stderr msg]
               /\ (msg = "Error: No ping files found to analyze."%string
                   \/ msg = "No valid ping data found in input files."%string))
      /\ (exit_status oc <> 1 ->
          oc = Finished /\ exit_status oc = 0
          /\ exists o',
               silent o'
               /\ o = o' ++ [Stdout (generate_markdown datetime strftime
                                       (collect impl datetime fromtimestamp
                                          w files []))])).
Proof.
  intros files o oc. subst o oc. unfold main.
  pose proof (discover_silent w argv) as S1. subst files.
  destruct (discover w argv) as [o1 files]. cbn [fst snd] in *.
  destruct files as [|f0 rest].
  { cbn [fst snd exit_status]. split.
    - intros _. apply silent_app; [assumption|apply silent_stderr].
    - intros _. split; [tauto|]. split; [|intros N; now contradiction N].
      intros _. split; [apply silent_app; [assumption|apply silent_stderr]|].
      eauto. }
  pose proof (analyze_each_silent impl datetime fromtimestamp w
                (f0 :: rest) []) as S2.
  pose proof (analyze_each_ok impl datetime fromtimestamp w
                (f0 :: rest) []) as OK.
  pose proof (collect_nil impl datetime fromtimestamp w (f0 :: rest) [])
    as CN.
  destruct (analyze_each impl datetime fromtimestamp w (f0 :: rest) [])
    as [o2 x]. cbn [fst snd] in S2, OK.
  destruct x as [[|p l]|e]; cbn [fst snd exit_status].
  - split.
    + intros _. repeat apply silent_app; auto. apply silent_stderr.
    + intros N. specialize (OK N). injection OK as OK. symmetry in OK.
      apply CN in OK as [_ U].
      split; [split; [intros _; now right|reflexivity]|].
      split; [|intros X; now contradiction X].
      intros _.
      split; [repeat apply silent_app; auto; apply silent_stderr|].
      exists (o1 ++ o2), "No valid ping data found in input files."%string.
      rewrite <- app_assoc. auto.
  - split; [intros X; now contradiction X|].
    intros N. specialize (OK N).
    assert (OK' : p :: l
                  = collect impl datetime fromtimestamp w (f0 :: rest) [])
      by congruence.
    clear OK. rename OK' into OK.
    split; [|split; [discriminate|]].
    + split; [discriminate|]. intros [X|X]; [discriminate|exfalso].
      assert (collect impl datetime fromtimestamp w (f0 :: rest) [] = [])
        by (apply CN; auto).
      congruence.
    + intros _. split; [reflexivity|]. split; [reflexivity|].
      exists (o1 ++ o2). split; [now apply silent_app|].
      rewrite <- OK, <- app_assoc. reflexivity.
  - split; [intros _; now apply silent_app|].
    intros N. specialize (OK N). discriminate.
Qed.

Lemma exit_status_fatal_conditions_witness :
  let argv := ["ping-tool.py"; "logs"; "locked.txt"; "nothing"]%string in
  let files := snd (discover world argv) in
  (exit_status (snd (process argv)) = 1
   <-> files = []
       \/ (forall f, In f files ->
           usable Naive float finite_only world f = None))
  /\ (exit_status (snd (process argv)) = 1 ->
      silent (fst (process argv))
      /\ exists o' msg,
           fst (process argv) = o' ++ [Stderr msg]
           /\ (msg = "Error: No ping files found to analyze."%string
               \/ msg = "No valid ping data found in input files."%string))
  /\ (exit_status (snd (process argv)) <> 1 ->
      snd (process argv) = Finished /\ exit_status (snd (process argv)) = 0
      /\ exists o',
           silent o'
           /\ fst (process argv)
              = o' ++ [Stdout (generate_markdown float show
                                 (collect Naive float finite_only world
                                    files []))]).
Proof.
  apply (proj2 (exit_status_fatal_conditions Naive float finite_only show
                  world
                  ["ping-tool.py"; "logs"; "locked.txt"; "nothing"]%string)).
  intros f Hf [e E]. vm_compute in Hf.
  destruct Hf as [<-|[<-|[]]]; vm_compute in E; discriminate.
Defined.

(** C10: a successful analysis has a time range exactly when the file has
    timestamps, that is when some non-blank line begins with
    [[<digits>.<digits>]]; the range is then made of the least and of the
    greatest of the timestamps collected, and at least one is. *)
Theorem time_range_iff_timestamps impl datetime fromtimestamp lines r :
  analyze_lines impl datetime fromtimestamp lines = Ok r ->
  (time_range r <> None <-> has_timestamps r = true)
  /\ (has_timestamps r = true
      <-> exists line, In line lines /\ blank line = false /\ bracketed line)
  /\ (has_timestamps r = true ->
      exists t ts start_time end_time,
        stamps lines = t :: ts
        /\ is_minimum (min_from t ts) (stamps lines)
        /\ is_maximum (max_from t ts) (stamps lines)
        /\ fromtimestamp (min_from t ts) = Ok start_time
        /\ fromtimestamp (max_from t ts) = Ok end_time
        /\ time_range r = Some (start_time, end_time))
  /\ (has_timestamps r = false -> time_range r = None).
Proof.
  intros H. apply analyze_lines_inv in H as (_ & _ & -> & R).
  pose proof (stamps_nil_iff lines) as SN.
  pose proof (stamps_wf lines) as W.
  assert (T : detect_timestamps lines = true ->
              exists t ts start_time end_time,
                stamps lines = t :: ts
                /\ is_minimum (min_from t ts) (stamps lines)
                /\ is_maximum (max_from t ts) (stamps lines)
                /\ fromtimestamp (min_from t ts) = Ok start_time
                /\ fromtimestamp (max_from t ts) = Ok end_time
                /\ time_range r = Some (start_time, end_time)).
  { intros E. rewrite E in R.
    destruct (stamps lines) as [|t ts] eqn:S.
    - destruct SN as [SN _]. rewrite SN in E by reflexivity. discriminate.
    - inversion W as [|? ? Wt Wts]; subst.
      cbn [compute_time_range] in R.
      destruct (fromtimestamp (min_from t ts)) as [a|] eqn:Fa; [|discriminate].
      destruct (fromtimestamp (max_from t ts)) as [b|] eqn:Fb; [|discriminate].
      cbn [bind] in R. injection R as R.
      exists t, ts, a, b. split; [reflexivity|].
      split; [now apply min_from_spec|]. split; [now apply max_from_spec|].
      auto. }
  assert (F : detect_timestamps lines = false -> time_range r = None).
  { intros E. rewrite E in R. cbn in R. now injection R as <-. }
  split; [|split; [apply detect_timestamps_iff|split; assumption]].
  split.
  - intros N. destruct (detect_timestamps lines); [reflexivity|].
    now rewrite F in N.
  - intros E. destruct (T E) as (t & ts & a & b & _ & _ & _ & _ & _ & ->).
    discriminate.
Qed.

Lemma time_range_iff_timestamps_witness :
  (time_range stamped_result <> None <-> has_timestamps stamped_result = true)
  /\ (has_timestamps stamped_result = true
      <-> exists line,
            In line stamped_lines /\ blank line = false /\ bracketed line)
  /\ (has_timestamps stamped_result = true ->
      exists t ts start_time end_time,
        stamps stamped_lines = t :: ts
        /\ is_minimum (min_from t ts) (stamps stamped_lines)
        /\ is_maximum (max_from t ts) (stamps stamped_lines)
        /\ finite_only (min_from t ts) = Ok start_time
        /\ finite_only (max_from t ts) = Ok end_time
        /\ time_range stamped_result = Some (start_time, end_time))
  /\ (has_timestamps stamped_result = false ->
      time_range stamped_result = None).
Proof.
  apply (time_range_iff_timestamps Naive float finite_only stamped_lines
           stamped_result).
  vm_compute. reflexivity.
Defined.

(** ** Further properties of the code *)

(** The loop over the lines raises exactly when a sample line carries a
    sequence number of more than 4300 digits, which [int] refuses with
    [ValueError]; [float] accepts every text the patterns capture.
    Otherwise the loop ends with the raw probe counter, the round-trip
    times and the timestamps of the specification. *)
Theorem loop_outcome has_ts lines :
  (existsb overlong lines = true ->
   scan has_ts init lines = Raise "ValueError")
  /\ (existsb overlong lines = false ->
      exists st,
        scan has_ts init lines = Ok st
        /\ seen st = raw_probe_counter lines
        /\ ping_times st = round_trips lines
        /\ sequences st = map fst (samples lines)
        /\ timestamps st = if has_ts then stamps lines else []).
Proof.
  pose proof (scan_spec has_ts lines init) as S.
  destruct (existsb overlong lines).
  - split; [intros _; exact S|discriminate].
  - split; [discriminate|]. intros _.
    destruct S as (st & E & A & B & C & D). exists st. auto.
Qed.

(** Once the file is read the analysis can fail in two places: where
    [int] converts the sequence number of a sample line, when it has more
    than 4300 digits, and where the extreme timestamps are turned into
    dates; otherwise it returns the target of the first line, the
    statistics of the samples and the flag of line 29. *)
Theorem analysis_result impl datetime fromtimestamp lines :
  analyze_lines impl datetime fromtimestamp lines
  = if existsb overlong lines then Raise "ValueError"
    else
      bind (compute_time_range datetime fromtimestamp
              (if detect_timestamps lines then stamps lines else []))
        (fun range =>
           Ok {| target := extract_target lines;
                 stats := aggregate impl (round_trips lines)
                            (raw_probe_counter lines);
                 time_range := range;
                 has_timestamps := detect_timestamps lines |}).
Proof. apply analyze_lines_spec. Qed.

(** A directory argument: its accepted matches are appended to the
    candidates, and the warning is printed exactly when the candidate
    list, earlier arguments included, is still empty. *)
Theorem directory_warning w files arg :
  isdir w arg = true ->
  snd (discover_arg w files arg) = files ++ accepted w arg
  /\ fst (discover_arg w files arg)
     = fst (gather w true
              (fun pattern => path_join (path_join arg "**") pattern)
              log_patterns files)
       ++ match files ++ accepted w arg with
          | [] => [Stderr ("Warning: No ping files found in directory '"
                           ++ arg ++ "'")%string]
          | _ => []
          end.
Proof.
  intros H. split; [apply (proj1 (discover_arg_spec w files arg))|].
  unfold discover_arg, accepted. rewrite H.
  destruct (gather_spec w true
              (fun pattern => path_join (path_join arg "**") pattern)
              log_patterns files) as [E _].
  destruct (gather w true _ log_patterns files) as [o files'].
  cbn [fst snd] in *. rewrite <- E.
  destruct files'; cbn [fst]; [reflexivity|now rewrite app_nil_r].
Qed.

Lemma directory_warning_witness :
  snd (discover_arg world ["a.txt"%string] "empty")
  = ["a.txt"%string] ++ accepted world "empty"
  /\ fst (discover_arg world ["a.txt"%string] "empty")
     = fst (gather world true
              (fun pattern => path_join (path_join "empty" "**") pattern)
              log_patterns ["a.txt"%string])
       ++ match ["a.txt"%string] ++ accepted world "empty" with
          | [] => [Stderr ("Warning: No ping files found in directory '"
                           ++ "empty" ++ "'")%string]
          | _ => []
          end.
Proof.
  apply (directory_warning world ["a.txt"%string] "empty"). reflexivity.
Defined.

(** A file without any [icmp_seq=] line has no probe and no loss. *)
Theorem no_probe_no_loss impl datetime fromtimestamp lines r :
  (forall line, In line lines -> has_probe line = false) ->
  analyze_lines impl datetime fromtimestamp lines = Ok r ->
  total_pings (stats r) = 0 /\ packet_loss (stats r) = Int 0.
Proof.
  intros N H. apply analyze_lines_inv in H as (_ & -> & _).
  pose proof (aggregate_loss impl lines) as [T L]. cbv zeta in T, L.
  rewrite T, L, (raw_probe_counter_zero lines N). split; reflexivity.
Qed.

Lemma no_probe_no_loss_witness :
  total_pings (stats unmarked_result) = 0
  /\ packet_loss (stats unmarked_result) = Int 0.
Proof.
  apply (no_probe_no_loss Naive float finite_only unmarked_lines
           unmarked_result).
  - intros line [<-|[<-|[<-|[<-|[]]]]]; vm_compute; reflexivity.
  - vm_compute. reflexivity.
Defined.

(** A line with a sequence marker and no time value counts as a probe
    and adds no sample. *)
Theorem lost_probe_line has_ts st line :
  has_probe line = true -> search Pat.time line = None ->
  exists st',
    scan_line has_ts st line = Ok st'
    /\ seen st' = seen st + 1
    /\ ping_times st' = ping_times st.
Proof.
  intros P T.
  pose proof (scan_line_spec has_ts st line) as S.
  assert (O : overlong line = false).
  { unfold overlong, is_sample. rewrite T.
    now destruct (search Pat.icmp_seq line). }
  rewrite O in S. destruct S as (st' & E & A & B & _).
  exists st'. split; [exact E|]. rewrite A, B, P.
  unfold sample_of. rewrite T.
  destruct (search Pat.icmp_seq line); cbn [keep map]; now rewrite app_nil_r.
Qed.

Lemma lost_probe_line_witness :
  exists st',
    scan_line true init "[1700000001.250000] no answer yet for icmp_seq=2"
    = Ok st'
    /\ seen st' = seen init + 1
    /\ ping_times st' = ping_times init.
Proof.
  apply (lost_probe_line true init
           "[1700000001.250000] no answer yet for icmp_seq=2");
    vm_compute; reflexivity.
Defined.

(** ** The header sniff: [is_ping_file] *)

Import Extra TextFacts DiscoveryFacts EdgeFacts BlankFacts.

(** [is_ping_file] on a file it can open prints nothing and looks at the
    first ten lines only: it accepts the file when one of them contains
    [ping] in any letter case, and, the lines being newline-terminated,
    only then. *)
Theorem sniff_first_ten_lines w f head :
  sniff w f = inr head ->
  fst (is_ping_file w f) = []
  /\ ((exists line, In line (firstn 10 head) /\ mentions "ping" line = true)
      -> snd (is_ping_file w f) = true)
  /\ (Forall (fun l => terminated l = true) (removelast (firstn 10 head)) ->
      snd (is_ping_file w f) = true ->
      exists line, In line (firstn 10 head) /\ mentions "ping" line = true).
Proof.
  intros S. unfold is_ping_file. rewrite S. cbn [fst snd].
  split; [reflexivity|]. split.
  - intros (line & I & M). now apply (mentions_concat "ping" line).
  - intros T H. apply mentions_concat_inv; try assumption; [discriminate|].
    reflexivity.
Qed.

Lemma sniff_first_ten_lines_witness :
  fst (is_ping_file (single_file logged_lines) "session.log") = []
  /\ ((exists line,
         In line (firstn 10 logged_lines) /\ mentions "ping" line = true)
      -> snd (is_ping_file (single_file logged_lines) "session.log") = true)
  /\ (Forall (fun l => terminated l = true)
        (removelast (firstn 10 logged_lines)) ->
      snd (is_ping_file (single_file logged_lines) "session.log") = true ->
      exists line,
        In line (firstn 10 logged_lines) /\ mentions "ping" line = true).
Proof.
  apply (sniff_first_ten_lines (single_file logged_lines) "session.log"
           logged_lines).
  reflexivity.
Defined.

(** A file whose first line has a header the analysis recognises is
    accepted by [is_ping_file]. *)
Theorem recognised_header_is_sniffed w f lines :
  sniff w f = inr lines ->
  extract_target lines <> unknown_target ->
  snd (is_ping_file w f) = true.
Proof.
  intros S T. apply (pingy_sniff w f). exists lines. split; [exact S|].
  destruct lines as [|l0 rest]; [now contradiction T|].
  pose proof (extract_target_cases l0 rest) as C.
  destruct (search Pat.header l0) as [g|] eqn:H; [|now contradiction T].
  apply (mentions_concat "ping" l0); [now left|].
  apply lower_PING. now apply header_contains in H.
Qed.

Lemma recognised_header_is_sniffed_witness :
  snd (is_ping_file (single_file example_lines) "a.txt") = true.
Proof.
  apply (recognised_header_is_sniffed (single_file example_lines) "a.txt"
           example_lines).
  - reflexivity.
  - vm_compute. discriminate.
Defined.

(** ** The target *)

(** The header keyword is looked for on the first line and in capitals:
    a first line without [PING], a blank one in particular, leaves the
    target unknown whatever the other lines hold. *)
Theorem target_needs_keyword impl datetime fromtimestamp l0 rest r :
  analyze_lines impl datetime fromtimestamp (l0 :: rest) = Ok r ->
  (contains "PING" l0 = false -> target r = unknown_target)
  /\ (blank l0 = true -> target r = unknown_target).
Proof.
  intros H. apply analyze_lines_inv in H as (-> & _).
  assert (K : contains "PING" l0 = false ->
              extract_target (l0 :: rest) = unknown_target).
  { intros C. unfold extract_target.
    now rewrite (no_keyword_no_header l0 C). }
  split; [exact K|]. intros B. apply K. now apply blank_no_keyword.
Qed.

Lemma target_needs_keyword_witness :
  (contains "PING" "ping example.com (93.184.216.34) 56 data bytes" = false
   -> target lowercase_result = unknown_target)
  /\ (blank "ping example.com (93.184.216.34) 56 data bytes" = true
      -> target lowercase_result = unknown_target).
Proof.
  apply (target_needs_keyword Naive float finite_only
           "ping example.com (93.184.216.34) 56 data bytes"
           ["64 bytes from 93.184.216.34: icmp_seq=1 ttl=56 time=11.2 ms"%string]
           lowercase_result).
  vm_compute. reflexivity.
Defined.

(** ** The loop over the lines *)

(** Blank lines do not count: the file without them has the same
    statistics, time range and timestamp flag, and the same target when
    the first line is not blank. *)
Theorem blank_lines_ignored impl datetime fromtimestamp lines r :
  analyze_lines impl datetime fromtimestamp lines = Ok r ->
  exists r',
    analyze_lines impl datetime fromtimestamp (non_blank lines) = Ok r'
    /\ stats r' = stats r
    /\ time_range r' = time_range r
    /\ has_timestamps r' = has_timestamps r
    /\ (forall l0 rest,
          lines = l0 :: rest -> blank l0 = false -> target r' = target r).
Proof.
  intros H.
  pose proof (analyze_lines_no_overlong impl datetime fromtimestamp lines r H)
    as NO.
  apply analyze_lines_inv in H as (T & S & F & R).
  rewrite (analyze_lines_spec impl datetime fromtimestamp (non_blank lines)).
  rewrite non_blank_overlong, NO.
  rewrite non_blank_detect, non_blank_stamps, non_blank_round_trips,
    non_blank_probes, R.
  cbn [bind]. eexists. split; [reflexivity|]. cbn [stats time_range
    has_timestamps target].
  split; [now rewrite S|]. split; [reflexivity|]. split; [now rewrite F|].
  intros l0 rest -> B. rewrite T. unfold non_blank. cbn [filter].
  rewrite B. reflexivity.
Qed.

Lemma blank_lines_ignored_witness :
  exists r',
    analyze_lines Naive float finite_only (non_blank stamped_lines) = Ok r'
    /\ stats r' = stats stamped_result
    /\ time_range r' = time_range stamped_result
    /\ has_timestamps r' = has_timestamps stamped_result
    /\ (forall l0 rest,
          stamped_lines = l0 :: rest -> blank l0 = false ->
          target r' = target stamped_result).
Proof.
  apply (blank_lines_ignored Naive float finite_only stamped_lines
           stamped_result).
  vm_compute. reflexivity.
Defined.

(** ** The statistics at their bounds *)



(** A file with a single sample has the mean deviation 0.0; when the
    time value is too long for a float the sample is infinite and the
    mean deviation is not a number. *)
Theorem single_sample_deviation impl datetime fromtimestamp lines r t :
  analyze_lines impl datetime fromtimestamp lines = Ok r ->
  round_trips lines = [t] ->
  (is_finite t = true -> mdev (stats r) = Float fzero)
  /\ (is_finite t = false ->
      t = S754_infinity false /\ mdev (stats r) = Float S754_nan).
Proof.
  intros H E. apply analyze_lines_inv in H as (_ & -> & _).
  pose proof (round_trips_wf lines) as W. rewrite E in *.
  destruct (aggregate_cons impl t [] (raw_probe_counter lines) W)
    as (_ & _ & _ & _ & _ & ->).
  inversion W as [|? ? Wt _]; subst.
  rewrite mean_single by assumption.
  unfold mean_abs_dev. cbn [map].
  split; intros F.
  - rewrite fsub_self by assumption. change (fabs fzero) with fzero.
    now rewrite mean_zero.
  - destruct t as [s|s| |s m e]; try discriminate; [|contradiction].
    unfold wf in Wt. subst s. split; [reflexivity|].
    change (fabs (fsub (S754_infinity false) (S754_infinity false)))
      with S754_nan.
    now rewrite mean_nan.
Qed.

Lemma single_sample_deviation_witness :
  (is_finite f11_2 = true -> mdev (stats (example_result float)) = Float fzero)
  /\ (is_finite f11_2 = false ->
      f11_2 = S754_infinity false
      /\ mdev (stats (example_result float)) = Float S754_nan).
Proof.
  apply (single_sample_deviation Naive float finite_only example_lines
           (example_result float) f11_2).
  - vm_compute. reflexivity.
  - vm_compute. reflexivity.
Defined.

(** ** The report *)



(** ** Discovery *)

(** Every candidate went through [is_ping_file]: it could be opened and
    its first ten lines contain [ping] in some letter case.  With
    arguments, it is a match of one of them, and for an argument that is
    no directory its name ends in [.txt] or [.log]. *)
Theorem candidates_pass_the_sniff w argv f :
  In f (snd (discover w argv)) ->
  (exists head,
     sniff w f = inr head
     /\ mentions "ping" (String.concat "" (firstn 10 head)) = true)
  /\ ((1 < List.length argv)%nat ->
      exists arg,
        In arg (tl argv) /\ In f (accepted w arg)
        /\ (isdir w arg = false ->
            is_log_name f = true /\ In f (glob w false arg))).
Proof.
  intros H. split.
  - apply pingy_sniff. now apply discover_pingy in H.
  - intros L. apply discover_origin in H.
    replace (1 <? List.length argv)%nat with true in H
      by (symmetry; now apply Nat.ltb_lt).
    destruct H as (arg & A & I). exists arg. split; [exact A|].
    split; [exact I|]. intros D. unfold accepted in I. rewrite D in I.
    apply filter_In in I as [G K]. apply andb_true_iff in K as [K _]. auto.
Qed.

Lemma candidates_pass_the_sniff_witness :
  (exists head,
     sniff world "a.txt" = inr head
     /\ mentions "ping" (String.concat "" (firstn 10 head)) = true)
  /\ ((1 < List.length ["ping-tool.py"; "logs"; "a.txt"]%string)%nat ->
      exists arg,
        In arg (tl ["ping-tool.py"; "logs"; "a.txt"]%string)
        /\ In "a.txt"%string (accepted world arg)
        /\ (isdir world arg = false ->
            is_log_name "a.txt" = true
            /\ In "a.txt"%string (glob world false arg))).
Proof.
  apply (candidates_pass_the_sniff world
           ["ping-tool.py"; "logs"; "a.txt"]%string "a.txt"%string).
  vm_compute. right. left. reflexivity.
Defined.

(** An argument that is no directory: the warning is printed exactly
    when the pattern matches nothing.  Matches that are then rejected,
    by their name or by [is_ping_file], are dropped without a message;
    only those that could not be opened are reported. *)
Theorem pattern_argument w files arg :
  isdir w arg = false ->
  snd (discover_arg w files arg)
  = files ++ filter (fun f => is_log_name f && pingy w f) (glob w false arg)
  /\ (glob w false arg = [] ->
      fst (discover_arg w files arg) = [pattern_warning arg])
  /\ (glob w false arg <> [] ->
      fst (discover_arg w files arg)
      = read_errors (sniff w) (filter is_log_name (glob w false arg))).
Proof.
  intros D. unfold discover_arg. rewrite D.
  destruct (glob w false arg) as [|f0 matched] eqn:G.
  - cbn [filter snd fst]. rewrite app_nil_r.
    split; [reflexivity|]. split; [reflexivity|]. intros N. now contradiction N.
  - pose proof (ping_files_spec w is_log_name (f0 :: matched)) as [S _].
    pose proof (ping_files_out w is_log_name (f0 :: matched)) as O.
    destruct (ping_files w is_log_name (f0 :: matched)) as [o found].
    cbn [fst snd] in *. subst found.
    split; [reflexivity|]. split; [discriminate|]. intros _. exact O.
Qed.

Lemma pattern_argument_witness :
  snd (discover_arg world [] "locked.txt")
  = [] ++ filter (fun f => is_log_name f && pingy world f)
            (glob world false "locked.txt")
  /\ (glob world false "locked.txt" = [] ->
      fst (discover_arg world [] "locked.txt")
      = [pattern_warning "locked.txt"])
  /\ (glob world false "locked.txt" <> [] ->
      fst (discover_arg world [] "locked.txt")
      = read_errors (sniff world)
          (filter is_log_name (glob world false "locked.txt"))).
Proof.
  apply (pattern_argument world [] "locked.txt"). reflexivity.
Defined.

(** ** The run *)

(** A candidate that cannot be read when it is analysed draws one
    message on the error stream and is left out; the other candidates
    are analysed all the same.  When no analysis raises, the loop prints
    these messages in the order of the candidates and the results are
    those of the readable candidates, in the order of their first
    occurrences. *)
Theorem unreadable_candidates_reported impl datetime fromtimestamp w files :
  (forall f, In f files -> ~ raises impl datetime fromtimestamp w f) ->
  exists results,
    analyze_each impl datetime fromtimestamp w files []
    = (read_errors (readlines w) files, Ok results)
    /\ map fst results = dedup [] (filter (readable w) files).
Proof.
  intros N.
  exists (collect impl datetime fromtimestamp w files []).
  pose proof (analyze_each_out impl datetime fromtimestamp w files [] N) as O.
  pose proof (analyze_each_ok impl datetime fromtimestamp w files [] N) as K.
  destruct (analyze_each impl datetime fromtimestamp w files []) as [o x].
  cbn [fst snd] in *. subst o x. split; [reflexivity|].
  rewrite collect_keys. cbn [map app]. f_equal.
  apply filter_ext_in. intros f I. unfold is_usable, readable.
  destruct (readlines w f) as [e|lines] eqn:R.
  - now destruct (unreadable_unusable impl datetime fromtimestamp w f e R)
      as [-> _].
  - destruct (readable_usable impl datetime fromtimestamp w f lines R)
      as [U|U]; [|now apply N in U].
    now destruct (usable impl datetime fromtimestamp w f).
Qed.

Lemma unreadable_candidates_reported_witness :
  exists results,
    analyze_each Naive float finite_only world
      ["logs/b.txt"; "locked.txt"; "a.txt"]%string []
    = (read_errors (readlines world)
         ["logs/b.txt"; "locked.txt"; "a.txt"]%string,
       Ok results)
    /\ map fst results
       = dedup [] (filter (readable world)
                     ["logs/b.txt"; "locked.txt"; "a.txt"]%string).
Proof.
  apply (unreadable_candidates_reported Naive float finite_only world
           ["logs/b.txt"; "locked.txt"; "a.txt"]%string).
  intros f [<-|[<-|[<-|[]]]] [e H]; vm_compute in H; discriminate.
Defined.

(** When every file the sniff could open can also be read, a candidate
    always gives a result or an exception: the run exits through
    [sys.exit] only for want of candidates, with the first fatal message;
    the second one is never printed. *)
Theorem stable_files_are_analysed
    impl datetime fromtimestamp strftime w argv code :
  stable w ->
  snd (main impl datetime fromtimestamp strftime w argv) = SysExit code ->
  code = 1
  /\ snd (discover w argv) = []
  /\ fst (main impl datetime fromtimestamp strftime w argv)
     = fst (discover w argv)
       ++ [Stderr "Error: No ping files found to analyze."].
Proof.
  intros St. unfold main.
  pose proof (discover_pingy w argv) as P.
  destruct (discover w argv) as [o1 files]. cbn [fst snd] in *.
  destruct files as [|f0 rest].
  - cbn [fst snd]. intros [= <-]. auto.
  - pose proof (analyze_each_raise impl datetime fromtimestamp w
                  (f0 :: rest) []) as AR.
    pose proof (analyze_each_ok impl datetime fromtimestamp w
                  (f0 :: rest) []) as AK.
    destruct (analyze_each impl datetime fromtimestamp w (f0 :: rest) [])
      as [o2 x].
    cbn [fst snd] in *.
    destruct x as [[|p l]|e]; cbn [snd]; try discriminate.
    intros _. exfalso.
    assert (N : forall f, In f (f0 :: rest) ->
                ~ raises impl datetime fromtimestamp w f).
    { intros f I R.
      destruct (proj2 AR (ex_intro _ f (conj I R))) as [e E]. discriminate. }
    specialize (AK N).
    assert (CN : collect impl datetime fromtimestamp w (f0 :: rest) [] = [])
      by congruence.
    apply collect_nil in CN as [_ U].
    assert (I0 : In f0 (f0 :: rest)) by now left.
    destruct (proj1 (pingy_sniff w f0) (P f0 I0)) as (head & S & _).
    destruct (St f0 head S) as [lines R].
    destruct (readable_usable impl datetime fromtimestamp w f0 lines R)
      as [X|X]; [exact (X (U f0 I0))|exact (N f0 I0 X)].
Qed.

Lemma stable_files_are_analysed_witness :
  1 = 1
  /\ snd (discover (single_file logged_lines)
            ["ping-tool.py"; "session"]%string) = []
  /\ fst (main Naive float finite_only show (single_file logged_lines)
            ["ping-tool.py"; "session"]%string)
     = fst (discover (single_file logged_lines)
              ["ping-tool.py"; "session"]%string)
       ++ [Stderr "Error: No ping files found to analyze."].
Proof.
  apply (stable_files_are_analysed Naive float finite_only show
           (single_file logged_lines) ["ping-tool.py"; "session"]%string 1).
  - intros f head _. now exists logged_lines.
  - vm_compute. reflexivity.
Defined.



(** ** Where an analysis can fail *)

(** Once the file is read, the analysis raises in two cases only:
    [ValueError] when a sample line carries a sequence number of more
    than 4300 digits, and the exception of [datetime.fromtimestamp] when
    it rejects one of the timestamps collected.  Without such a sequence
    number it succeeds when every timestamp is accepted, and always on a
    file without timestamps. *)
Theorem analysis_failure_causes impl datetime fromtimestamp lines :
  (forall e,
     analyze_lines impl datetime fromtimestamp lines = Raise e ->
     (e = "ValueError"%string
      /\ exists line, In line lines /\ overlong line = true)
     \/ (detect_timestamps lines = true
         /\ exists t, In t (stamps lines) /\ fromtimestamp t = Raise e))
  /\ ((exists line, In line lines /\ overlong line = true) ->
      analyze_lines impl datetime fromtimestamp lines = Raise "ValueError")
  /\ ((forall line, In line lines -> overlong line = false) ->
      (forall t, In t (stamps lines) -> exists d, fromtimestamp t = Ok d) ->
      exists r, analyze_lines impl datetime fromtimestamp lines = Ok r)
  /\ ((forall line, In line lines -> overlong line = false) ->
      detect_timestamps lines = false ->
      exists r, analyze_lines impl datetime fromtimestamp lines = Ok r).
Proof.
  rewrite analyze_lines_spec.
  pose proof (stamps_wf lines) as W.
  destruct (existsb overlong lines) eqn:O.
  { apply existsb_exists in O.
    split; [intros e [= <-]; left; auto|]. split; [reflexivity|].
    destruct O as (line & I & Ol).
    split; intros N; rewrite (N line I) in Ol; discriminate. }
  assert (NO : ~ exists line, In line lines /\ overlong line = true).
  { intros X. apply existsb_exists in X. congruence. }
  destruct (detect_timestamps lines) eqn:Dt.
  - destruct (stamps lines) as [|t ts] eqn:S.
    { apply stamps_nil_iff in S. congruence. }
    inversion W as [|? ? Wt Wts]; subst.
    destruct (min_from_spec ts t Wt Wts) as [Imin _].
    destruct (max_from_spec ts t Wt Wts) as [Imax _].
    cbn [compute_time_range].
    split; [|split; [intros X; now contradiction NO|split; [|discriminate]]].
    + intros e H. right. split; [reflexivity|].
      destruct (fromtimestamp (min_from t ts)) as [a|e1] eqn:Fa.
      * destruct (fromtimestamp (max_from t ts)) as [b|e2] eqn:Fb;
          cbn [bind] in H; [discriminate|].
        injection H as <-. eauto.
      * cbn [bind] in H. injection H as <-. eauto.
    + intros _ A.
      destruct (A _ Imin) as [a ->]. destruct (A _ Imax) as [b ->].
      cbn [bind]. eauto.
  - cbn [compute_time_range bind].
    split; [discriminate|].
    split; [intros X; now contradiction NO|]. split; eauto.
Qed.

(** When no file that can be read carries a sequence number of more than
    4300 digits on a sample line, and [datetime.fromtimestamp] accepts
    the timestamps of every such file, the run never ends with an
    uncaught exception: [main] returns, or calls [sys.exit(1)]. *)
Theorem run_without_uncaught_exception
    impl datetime fromtimestamp strftime w argv :
  (forall f lines line,
     readlines w f = inr lines -> In line lines -> overlong line = false) ->
  (forall f lines t,
     readlines w f = inr lines -> In t (stamps lines) ->
     exists d, fromtimestamp t = Ok d) ->
  snd (main impl datetime fromtimestamp strftime w argv) = Finished
  \/ snd (main impl datetime fromtimestamp strftime w argv) = SysExit 1.
Proof.
  intros NO A. unfold main.
  destruct (discover w argv) as [o1 files].
  destruct files as [|f0 rest]; [now right|].
  pose proof (analyze_each_raise impl datetime fromtimestamp w
                (f0 :: rest) []) as AR.
  destruct (analyze_each impl datetime fromtimestamp w (f0 :: rest) [])
    as [o2 x].
  cbn [snd] in *.
  destruct x as [[|p l]|e']; [now right|now left|exfalso].
  destruct (proj1 AR (ex_intro _ e' eq_refl)) as (f & _ & e'' & R).
  unfold analyze_ping_file in R.
  destruct (readlines w f) as [err|lines] eqn:Rd; [discriminate|].
  cbn [snd] in R.
  rewrite analyze_lines_spec in R.
  assert (O : existsb overlong lines = false).
  { destruct (existsb overlong lines) eqn:O; [|reflexivity].
    apply existsb_exists in O as (line & I & Ol).
    rewrite (NO f lines line Rd I) in Ol. discriminate. }
  rewrite O in R.
  pose proof (stamps_wf lines) as W.
  destruct (detect_timestamps lines) eqn:Dt; [|discriminate].
  destruct (stamps lines) as [|t ts] eqn:S; [discriminate|].
  inversion W as [|? ? Wt Wts]; subst.
  destruct (min_from_spec ts t Wt Wts) as [Imin _].
  destruct (max_from_spec ts t Wt Wts) as [Imax _].
  rewrite <- S in Imin, Imax.
  destruct (A f lines _ Rd Imin) as [a Ea].
  destruct (A f lines _ Rd Imax) as [b Eb].
  cbn [compute_time_range] in R. rewrite Ea, Eb in R. discriminate.
Qed.

Lemma run_without_uncaught_exception_witness :
  snd (main Naive float finite_only show (single_file stamped_lines)
         ["ping-tool.py"; "session.log"]%string) = Finished
  \/ snd (main Naive float finite_only show (single_file stamped_lines)
            ["ping-tool.py"; "session.log"]%string) = SysExit 1.
Proof.
  apply (run_without_uncaught_exception Naive float finite_only show
           (single_file stamped_lines) ["ping-tool.py"; "session.log"]%string).
  - intros f lines line [= <-] [<-|[<-|[<-|[<-|[<-|[]]]]]];
      vm_compute; reflexivity.
  - intros f lines t [= <-] I. vm_compute in I.
    destruct I as [<-|[<-|[<-|[]]]]; eexists; vm_compute; reflexivity.
Defined.

(** ** The sections of the report *)

(** The section of an analysed file never shows a missing value: its
    third line is [**Host:** <ip>], or [**Host:** <hostname> (<ip>)] when
    the header named both.  It has a time-range line exactly when the
    file has timestamps, and 16 lines then, 14 otherwise. *)
Theorem section_of_an_analysis
    impl datetime fromtimestamp strftime lines r f :
  analyze_lines impl datetime fromtimestamp lines = Ok r ->
  let section := render_entry datetime strftime f r in
  (exists i,
     ip (target r) = Some i
     /\ ((hostname (target r) = None
          /\ nth 2 section ""%string = ("**Host:** " ++ i)%string)
         \/ exists h,
              hostname (target r) = Some h /\ run not_space h
              /\ nth 2 section ""%string
                 = ("**Host:** " ++ h ++ " (" ++ i ++ ")")%string))
  /\ (has_timestamps r = true ->
      exists start_time end_time,
        time_range r = Some (start_time, end_time)
        /\ filter is_time_range_line section
           = [("**Time Range:** " ++ strftime start_time
               ++ " to " ++ strftime end_time)%string]
        /\ List.length section = 16%nat)
  /\ (has_timestamps r = false ->
      filter is_time_range_line section = []
      /\ List.length section = 14%nat).
Proof.
  intros H section. subst section.
  rewrite SectionFacts.render_entry_time_range,
    SectionFacts.render_entry_length, SectionFacts.render_entry_host.
  apply analyze_lines_inv in H as (T & _ & F & R).
  split; [|split].
  - rewrite T.
    destruct (SectionFacts.extract_target_shape lines)
      as (i & -> & [->|(h & -> & Rh)]).
    + exists i. split; [reflexivity|]. left. split; reflexivity.
    + exists i. split; [reflexivity|]. right. exists h.
      split; [reflexivity|]. split; [exact Rh|].
      destruct Rh as [Nh _]. destruct h; [congruence|reflexivity].
  - intros E. rewrite F in E. rewrite E in R.
    destruct (stamps lines) as [|t ts] eqn:S.
    { apply stamps_nil_iff in S. congruence. }
    cbn [compute_time_range] in R.
    destruct (fromtimestamp (min_from t ts)) as [a|]; [|discriminate].
    destruct (fromtimestamp (max_from t ts)) as [b|]; [|discriminate].
    cbn [bind] in R. injection R as <-. eauto.
  - intros E. rewrite F in E. rewrite E in R. cbn in R.
    injection R as <-. split; reflexivity.
Qed.

Lemma section_of_an_analysis_witness :
  let section := render_entry float show "logs/b.txt" stamped_result in
  (exists i,
     ip (target stamped_result) = Some i
     /\ ((hostname (target stamped_result) = None
          /\ nth 2 section ""%string = ("**Host:** " ++ i)%string)
         \/ exists h,
              hostname (target stamped_result) = Some h /\ run not_space h
              /\ nth 2 section ""%string
                 = ("**Host:** " ++ h ++ " (" ++ i ++ ")")%string))
  /\ (has_timestamps stamped_result = true ->
      exists start_time end_time,
        time_range stamped_result = Some (start_time, end_time)
        /\ filter is_time_range_line section
           = [("**Time Range:** " ++ show start_time
               ++ " to " ++ show end_time)%string]
        /\ List.length section = 16%nat)
  /\ (has_timestamps stamped_result = false ->
      filter is_time_range_line section = []
      /\ List.length section = 14%nat).
Proof.
  apply (section_of_an_analysis Naive float finite_only show stamped_lines
           stamped_result "logs/b.txt").
  vm_compute. reflexivity.
Defined.

(** ** A run on one log *)

(** The script called on one readable [.txt] or [.log] file that
    mentions [ping] and whose analysis succeeds prints the section of
    that file on standard output, nothing on the error stream, and ends
    normally. *)
Theorem single_log_run
    impl datetime fromtimestamp strftime w prog f head lines r :
  isdir w f = false -> glob w false f = [f] -> is_log_name f = true ->
  sniff w f = inr head ->
  mentions "ping" (String.concat "" (firstn 10 head)) = true ->
  readlines w f = inr lines ->
  analyze_lines impl datetime fromtimestamp lines = Ok r ->
  main impl datetime fromtimestamp strftime w [prog; f]
  = ([Stdout (join (String "010" "") (render_entry datetime strftime f r))],
     Finished).
Proof.
  intros D G L S M R A.
  unfold main, discover, discover_args, discover_arg.
  cbn [List.length Nat.ltb Nat.leb tl]. rewrite D, G.
  cbn [ping_files]. rewrite L. unfold is_ping_file. rewrite S.
  unfold mentions in M. rewrite M. cbn [app].
  cbn [analyze_each]. unfold analyze_ping_file. rewrite R, A.
  cbn [bind dict_set app]. unfold generate_markdown, markdown_lines.
  cbn [flat_map fst snd]. now rewrite app_nil_r.
Qed.

Lemma single_log_run_witness :
  main Naive float finite_only show (single_file logged_lines)
    ["ping-tool.py"; "session.log"]%string
  = ([Stdout (join (String "010" "")
                (render_entry float show "session.log" logged_result))],
     Finished).
Proof.
  apply (single_log_run Naive float finite_only show
           (single_file logged_lines) "ping-tool.py" "session.log"
           logged_lines logged_lines logged_result);
    vm_compute; reflexivity.
Defined.

End Properties.
